(** * Prefabric: material and cost estimation for a prefabricated house

    A shallow embedding of the estimation engine of [app.py]:
    [VeritabaniYoneticisi.malzeme_bilgisi_getir] (the catalog lookup),
    [EvHesaplayici._alan_hesapla] (the geometry) and
    [EvHesaplayici.malzeme_ihtiyacini_hesapla] (the cost ledger), together
    with the part of the request handler [calculate_cost] that runs the
    estimator and collects messages.

    Conventions of the embedding.
    - Python numbers ([float], and [int] where it meets a [float]) are exact
      rationals [Q]; rounding of binary floating point is not modelled, and
      equalities of computed quantities are stated with [==] where the two
      sides are not the same expression.  Integer inputs (floor count,
      window and door counts) are [Z].
    - Python [dict]s are insertion-ordered association lists: assigning to
      a key that exists replaces the value in place, assigning to a new
      key appends.
    - Exceptions are values of [Exc]: the [KeyError] of a dictionary
      lookup and the [UnboundLocalError] of a local variable read before
      its first assignment.
    - The database connection is up and the numeric columns of the
      catalog hold numbers.  In the section [Hesap] a property bag that
      parses is a JSON object with numeric members and the pitch is a
      finite number; the module [Dinamik] is the same code on any JSON
      value and any float for the pitch, with the exceptions Python
      raises on them.
    - Functions of Python's library the code calls ([math.cos],
      [math.radians], [json.loads], [str.lower], the formatting of a float
      in an f-string) are variables of the section [Hesap]. *)

(** The rest of [app.py] is embedded after the estimator: the covering
    names offered by the form ([get_oda_kaplama_tipleri]), the
    construction of [ev_data] from the form lists in [calculate_cost], the
    writes of [VeritabaniYoneticisi] ([veri_ekle], [veri_guncelle]), the
    sample rows of [startup_event], and the price page
    ([get_admin_fiyatlar], [post_admin_fiyatlar]).  The conventions of
    these parts (row identifiers, foreign keys, the conversions of form
    text, the values SQLite refuses) are stated with their
    definitions. *)

From Stdlib Require Import List String Ascii Bool ZArith QArith Qabs Qminmax Lia Lqa.
From Stdlib Require Import DecimalString DecimalNat.
From Stdlib Require Import Sorted Permutation.
Import ListNotations.

Local Open Scope Q_scope.

(* ------------------------------------------------------------------ *)
(** ** Python values: numbers, dictionaries, exceptions, strings       *)
(* ------------------------------------------------------------------ *)

Module Py.

(** [x < y] on numbers. *)
Definition lt (x y : Q) : bool := negb (Qle_bool y x).

(** The builtin [sum]: starts from 0 and adds from the left. *)
Definition sum (l : list Q) : Q := fold_left Qplus l 0.

(** Insertion-ordered dictionaries with string keys. *)
Definition dict (V : Type) : Type := list (string * V).

Fixpoint get {V} (k : string) (d : dict V) : option V :=
  match d with
  | [] => None
  | (k', v) :: d' => if String.eqb k' k then Some v else get k d'
  end.

(** [d[k] = v]. *)
Fixpoint set {V} (k : string) (v : V) (d : dict V) : dict V :=
  match d with
  | [] => [(k, v)]
  | (k', v') :: d' =>
      if String.eqb k' k then (k', v) :: d' else (k', v') :: set k v d'
  end.

Definition keys {V} (d : dict V) : list string := map fst d.
Definition values {V} (d : dict V) : list V := map snd d.

(** [needle in hay] on strings. *)
Fixpoint contains (needle hay : string) : bool :=
  if String.prefix needle hay then true
  else match hay with
       | EmptyString => false
       | String _ hay' => contains needle hay'
       end.

(** [str(n)] for a natural number. *)
Definition str_nat (n : nat) : string := NilZero.string_of_uint (Nat.to_uint n).

(** Exceptions. *)
Inductive Error : Type :=
| UnboundLocalError (name : string)
| KeyError (key : string).

Inductive Exc (A : Type) : Type :=
| Ok (a : A)
| Raise (e : Error).
Arguments Ok {A} a.
Arguments Raise {A} e.

Definition bind {A B} (m : Exc A) (f : A -> Exc B) : Exc B :=
  match m with
  | Ok a => f a
  | Raise e => Raise e
  end.

(** [d[k]] as an expression. *)
Definition index {V} (k : string) (d : dict V) : Exc V :=
  match get k d with
  | Some v => Ok v
  | None => Raise (KeyError k)
  end.

(** A [for] loop whose body may raise. *)
Fixpoint for_each {A S} (body : S -> A -> Exc S) (l : list A) (s : S) : Exc S :=
  match l with
  | [] => Ok s
  | a :: l' => bind (body s a) (for_each body l')
  end.

(** [enumerate]. *)
Fixpoint enumerate_from {A} (i : nat) (l : list A) : list (nat * A) :=
  match l with
  | [] => []
  | a :: l' => (i, a) :: enumerate_from (S i) l'
  end.
Definition enumerate {A} (l : list A) : list (nat * A) := enumerate_from 0 l.

End Py.

Notation "x <- m ;; k" := (Py.bind m (fun x => k))
  (at level 61, m at next level, right associativity, only parsing).

(* ------------------------------------------------------------------ *)
(** ** The catalog: tables and [malzeme_bilgisi_getir]                 *)
(* ------------------------------------------------------------------ *)

Module Tablo.

Record Malzeme : Type := {
  malzeme_id : Z;
  malzeme_adi : string;
  malzeme_kategori : string;
  birim_olcu_tipi : string;
  varsayilan_fire_orani : Q;
  aciklama : string
}.

Record Fiyat : Type := {
  fiyat_id : Z;
  fiyat_malzeme_id : Z;
  birim_fiyat : Q;
  gecerlilik_tarihi : string;
  tedarikci : option string
}.

Record Sarfiyat : Type := {
  sarfiyat_id : Z;
  sarfiyat_malzeme_id : Z;
  uygulama_turu : string;
  sarfiyat_degeri : Q;
  sarfiyat_birimi : string
}.

Record UygulamaDetayi : Type := {
  detay_id : Z;
  oda_tipi : string;
  uygulama_alani : string;
  varsayilan_malzeme_kategori : string;
  varsayilan_malzeme_id : option Z;
  ek_ozellikler : option string
}.

(** The rows of each table, in the order a [SELECT *] scans them. *)
Record Veritabani : Type := {
  Malzemeler : list Malzeme;
  Fiyatlar : list Fiyat;
  Sarfiyatlar : list Sarfiyat;
  UygulamaDetaylari : list UygulamaDetayi
}.

(** What [malzeme_bilgisi_getir] returns. *)
Record MalzemeBilgisi : Type := {
  malzeme : Malzeme;
  fiyat : option Fiyat;
  sarfiyat : list Sarfiyat
}.

(** [ORDER BY gecerlilik_tarihi DESC, fiyat_id DESC]: does [a] come before [b]? *)
Definition once_gelir (a b : Fiyat) : bool :=
  match String.compare (gecerlilik_tarihi a) (gecerlilik_tarihi b) with
  | Gt => true
  | Lt => false
  | Eq => (fiyat_id b <? fiyat_id a)%Z
  end.

(** [... LIMIT 1]: the first row of that order. *)
Definition guncel_fiyat (rows : list Fiyat) : option Fiyat :=
  fold_left (fun best f =>
               match best with
               | None => Some f
               | Some b => if once_gelir f b then Some f else Some b
               end) rows None.

Definition malzeme_bilgisi_getir (db : Veritabani)
    (malzeme_adi_veya_kategori : string) : option MalzemeBilgisi :=
  let malzeme_data :=
    match filter (fun m => String.eqb (malzeme_adi m) malzeme_adi_veya_kategori)
                 (Malzemeler db) with
    | [] => filter (fun m => String.eqb (malzeme_kategori m) malzeme_adi_veya_kategori)
                   (Malzemeler db)
    | rows => rows
    end in
  match malzeme_data with
  | [] => None
  | m :: _ =>
      Some {| malzeme := m;
              fiyat := guncel_fiyat
                         (filter (fun f => (fiyat_malzeme_id f =? malzeme_id m)%Z)
                                 (Fiyatlar db));
              sarfiyat := filter (fun s => (sarfiyat_malzeme_id s =? malzeme_id m)%Z)
                                 (Sarfiyatlar db) |}
  end.

(** [veri_sorgula("UygulamaDetaylari", {"oda_tipi": o, "uygulama_alani": a})]. *)
Definition veri_sorgula_UygulamaDetaylari (db : Veritabani)
    (o a : string) : list UygulamaDetayi :=
  filter (fun d => String.eqb (oda_tipi d) o && String.eqb (uygulama_alani d) a)
         (UygulamaDetaylari db).

End Tablo.

(* ------------------------------------------------------------------ *)
(** ** The house description ([ev_data])                               *)
(* ------------------------------------------------------------------ *)

Record Oda : Type := {
  oda_adi : string;
  uzunluk : Q;
  genislik : Q;
  yukseklik : Q;
  zemin_kaplama_tipi : string;
  duvar_kaplama_tipi : string
}.

Record Pencere : Type := {
  pencere_genislik : Q;
  pencere_yukseklik : Q;
  pencere_adet : Z
}.

Record Kapi : Type := {
  kapi_adi : string;
  kapi_genislik : Q;
  kapi_yukseklik : Q;
  kapi_adet : Z
}.

Record EvBilgileri : Type := {
  ev_tipi : string;
  kat_sayisi : Z;
  cati_tipi : string;
  cati_egim_acisi : Q;
  oda_listesi : list Oda;
  pencere_listesi : list Pencere;
  kapi_listesi : list Kapi
}.

(** The areas of one room, as stored in [oda_alanlari]. *)
Record OdaAlani : Type := {
  zemin : Q;
  duvar : Q
}.

(** The fields [_alan_hesapla] sets on the calculator. *)
Record Alanlar : Type := {
  toplam_pencere_alani : Q;
  toplam_kapi_alani : Q;
  oda_alanlari : Py.dict OdaAlani;
  toplam_taban_alani : Q;
  toplam_duvar_alani_brut : Q;
  cati_alani_taban : Q;
  cati_alani : Q
}.

(** A cell of an output line: a number, or a marker such as ["N/A"]. *)
Inductive Deger : Type :=
| Sayi (q : Q)
| Metin (s : string).

(** One entry of [malzeme_ihtiyaclari]. *)
Record Kalem : Type := {
  net_miktar : Deger;
  gerekli_miktar : Deger;
  birim_olcu : string;
  birim_fiyat : Q;
  maliyet : Q
}.

(* ------------------------------------------------------------------ *)
(** ** [EvHesaplayici]                                                 *)
(* ------------------------------------------------------------------ *)

(** The running state of [malzeme_ihtiyacini_hesapla]: the dictionary
    under construction, the running total and the local variable
    [maliyet] ([None] until its first assignment). *)
Record Durum : Type := {
  malzeme_ihtiyaclari : Py.dict Kalem;
  toplam_maliyet_temp : Q;
  yerel_maliyet : option Q
}.

(** [maliyet = ...; self.malzeme_ihtiyaclari[etiket] = {...}] *)
Definition yaz (etiket : string) (k : Kalem) (st : Durum) : Durum :=
  {| malzeme_ihtiyaclari := Py.set etiket k (malzeme_ihtiyaclari st);
     toplam_maliyet_temp := toplam_maliyet_temp st;
     yerel_maliyet := Some (maliyet k) |}.

(** [toplam_maliyet_temp += m] *)
Definition topla (m : Q) (st : Durum) : Durum :=
  {| malzeme_ihtiyaclari := malzeme_ihtiyaclari st;
     toplam_maliyet_temp := toplam_maliyet_temp st + m;
     yerel_maliyet := yerel_maliyet st |}.

(** [if x < 0: x = 0] *)
Definition sifira_kirp (x : Q) : Q := if Py.lt x 0 then 0 else x.

Definition tesisat_baglanti_orani : Q := 15 # 100.

Definition tesisat_etiketi : string :=
  "Tesisat ve Bağlantı Elemanları (Tahmini)".

(** A message of the request handler: its type and its text; the text of
    the catch-all handler embeds the exception. *)
Record Mesaj : Type := {
  mesaj_type : string;
  mesaj_message : string;
  mesaj_hata : option Py.Error
}.

(** What [calculate_cost] hands to the template. *)
Inductive Yanit : Type :=
| Sonuc (ihtiyaclar : Py.dict Kalem) (toplam_maliyet : Q) (messages : list Mesaj)
| HataSayfasi (messages : list Mesaj).

Section Hesap.

Local Open Scope string_scope.

(** Python's library. [json_loads] is [None] on a [JSONDecodeError]. *)
Variable math_cos : Q -> Q.
Variable math_radians : Q -> Q.
Variable json_loads : string -> option (Py.dict Q).
Variable str_lower : string -> string.
Variable float_str : Q -> string.

(** [self.db] and [self.ev_bilgileri]. *)
Variable db : Tablo.Veritabani.
Variable ev_bilgileri : EvBilgileri.

(** The body of the room loop of [_alan_hesapla], on
    [(oda_alanlari, toplam_taban_alani, toplam_duvar_alani_brut)]. *)
Definition oda_alani_ekle (acc : Py.dict OdaAlani * Q * Q) (oda : Oda)
    : Py.dict OdaAlani * Q * Q :=
  let '(alanlar, taban, brut) := acc in
  let zemin_alani := uzunluk oda * genislik oda in
  let duvar_alani := 2 * (uzunluk oda + genislik oda) * yukseklik oda in
  (Py.set (oda_adi oda) {| zemin := zemin_alani; duvar := duvar_alani |} alanlar,
   taban + zemin_alani,
   brut + duvar_alani).

Definition taban_alani_her_kat (toplam_taban : Q) : Q :=
  if (0 <? kat_sayisi ev_bilgileri)%Z
  then toplam_taban / inject_Z (kat_sayisi ev_bilgileri)
  else toplam_taban.

Definition cati_alani_hesapla (taban : Q) : Q :=
  if negb (String.eqb (cati_tipi ev_bilgileri) "Düz")
     && Py.lt 0 (cati_egim_acisi ev_bilgileri)
  then
    let cos_angle := math_cos (math_radians (cati_egim_acisi ev_bilgileri)) in
    if Py.lt (Qabs cos_angle) (1 # 1000)
    then taban * 2
    else taban / cos_angle
  else taban.

Definition _alan_hesapla : Alanlar :=
  let pencere := Py.sum (map (fun p => pencere_genislik p * pencere_yukseklik p
                                        * inject_Z (pencere_adet p))
                             (pencere_listesi ev_bilgileri)) in
  let kapi := Py.sum (map (fun k => kapi_genislik k * kapi_yukseklik k
                                     * inject_Z (kapi_adet k))
                          (kapi_listesi ev_bilgileri)) in
  let '(alanlar, taban, brut) :=
    fold_left oda_alani_ekle (oda_listesi ev_bilgileri) ([], 0, 0) in
  let her_kat := taban_alani_her_kat taban in
  {| toplam_pencere_alani := pencere;
     toplam_kapi_alani := kapi;
     oda_alanlari := alanlar;
     toplam_taban_alani := taban;
     toplam_duvar_alani_brut := brut;
     cati_alani_taban := her_kat;
     cati_alani := cati_alani_hesapla her_kat |}.

(** [info = self.db.malzeme_bilgisi_getir(ad)] under the test
    [if info and info["fiyat"]]. *)
Definition fiyatli (ad : string) : option (Tablo.MalzemeBilgisi * Tablo.Fiyat) :=
  match Tablo.malzeme_bilgisi_getir db ad with
  | Some info =>
      match Tablo.fiyat info with
      | Some f => Some (info, f)
      | None => None
      end
  | None => None
  end.

(** The property bag of the first application detail of (room, surface):
    empty when there is no row, when the column is empty, and when the
    text does not parse. *)
Definition ek_ozellikler_getir (oda alan : string) : Py.dict Q :=
  match Tablo.veri_sorgula_UygulamaDetaylari db oda alan with
  | d :: _ =>
      match Tablo.ek_ozellikler d with
      | Some s =>
          if String.eqb s "" then []
          else match json_loads s with
               | Some bag => bag
               | None => []
               end
      | None => []
      end
  | [] => []
  end.

Definition net_duvar_alani_paneller_icin (a : Alanlar) : Q :=
  sifira_kirp (toplam_duvar_alani_brut a - toplam_pencere_alani a
               - toplam_kapi_alani a).

(** Wall panels. *)
Definition duvar_paneli (a : Alanlar) (st : Durum) : Durum :=
  match fiyatli "Duvar Paneli" with
  | Some (info, fiyat) =>
      let malzeme := Tablo.malzeme info in
      let net := net_duvar_alani_paneller_icin a in
      let gerekli := net * (1 + Tablo.varsayilan_fire_orani malzeme) in
      let m := gerekli * Tablo.birim_fiyat fiyat in
      topla m
        (yaz "Duvar Paneli (Toplam)"
             {| net_miktar := Sayi net;
                gerekli_miktar := Sayi gerekli;
                birim_olcu := Tablo.birim_olcu_tipi malzeme;
                birim_fiyat := Tablo.birim_fiyat fiyat;
                maliyet := m |} st)
  | None => st
  end.

(** Roof covering. *)
Definition cati_kaplama (a : Alanlar) (st : Durum) : Durum :=
  match fiyatli "Çatı Paneli" with
  | Some (info, fiyat) =>
      let malzeme := Tablo.malzeme info in
      let gerekli := cati_alani a * (1 + Tablo.varsayilan_fire_orani malzeme) in
      let m := gerekli * Tablo.birim_fiyat fiyat in
      topla m
        (yaz "Çatı Kaplama (Toplam)"
             {| net_miktar := Sayi (cati_alani a);
                gerekli_miktar := Sayi gerekli;
                birim_olcu := Tablo.birim_olcu_tipi malzeme;
                birim_fiyat := Tablo.birim_fiyat fiyat;
                maliyet := m |} st)
  | None => st
  end.

Definition zemin_etiketi (oda malzeme_adi : string) : string :=
  oda ++ " Zemin (" ++ malzeme_adi ++ ")".

Definition duvar_etiketi (oda malzeme_adi : string) : string :=
  oda ++ " Duvar (" ++ malzeme_adi ++ ")".

(** The tile test of the floor covering:
    [malzeme_adi == "Fayans" and "fayans_boyut_m2" in ek and ek[...] > 0]. *)
Definition fayans_boyutu (malzeme : Tablo.Malzeme) (ek : Py.dict Q) : option Q :=
  if String.eqb (Tablo.malzeme_adi malzeme) "Fayans" then
    match Py.get "fayans_boyut_m2" ek with
    | Some b => if Py.lt 0 b then Some b else None
    | None => None
    end
  else None.

(** Floor covering of one room. *)
Definition zemin_kaplama (oda : Oda) (zemin_alani_net : Q) (st : Durum) : Durum :=
  match fiyatli (zemin_kaplama_tipi oda) with
  | Some (info, fiyat) =>
      let malzeme := Tablo.malzeme info in
      let ek := ek_ozellikler_getir (oda_adi oda) "Zemin" in
      let etiket := zemin_etiketi (oda_adi oda) (Tablo.malzeme_adi malzeme) in
      match fayans_boyutu malzeme ek with
      | Some fayans_m2 =>
          let gerekli_adet :=
            (zemin_alani_net / fayans_m2)
            * (1 + Tablo.varsayilan_fire_orani malzeme) in
          let m := gerekli_adet * Tablo.birim_fiyat fiyat in
          topla m
            (yaz etiket
                 {| net_miktar := Sayi zemin_alani_net;
                    gerekli_miktar := Sayi gerekli_adet;
                    birim_olcu := "adet";
                    birim_fiyat := Tablo.birim_fiyat fiyat;
                    maliyet := m |} st)
      | None =>
          let gerekli := zemin_alani_net
                         * (1 + Tablo.varsayilan_fire_orani malzeme) in
          let m := gerekli * Tablo.birim_fiyat fiyat in
          topla m
            (yaz etiket
                 {| net_miktar := Sayi zemin_alani_net;
                    gerekli_miktar := Sayi gerekli;
                    birim_olcu := Tablo.birim_olcu_tipi malzeme;
                    birim_fiyat := Tablo.birim_fiyat fiyat;
                    maliyet := m |} st)
      end
  | None => st
  end.

(** [ek_ozellikler.get("kat_sayisi", 1)] *)
Definition boya_kat_sayisi (ek : Py.dict Q) : Q :=
  match Py.get "kat_sayisi" ek with
  | Some k => k
  | None => 1
  end.

(** The paint line of one room. *)
Definition boya_kalemi (oda : Oda) (duvar_alani_net : Q)
    (malzeme : Tablo.Malzeme) (fiyat : Tablo.Fiyat) (s : Tablo.Sarfiyat) : Kalem :=
  let sarfiyat_degeri := Tablo.sarfiyat_degeri s in
  let kat := boya_kat_sayisi (ek_ozellikler_getir (oda_adi oda) "Duvar") in
  let gerekli_litre :=
    duvar_alani_net * sarfiyat_degeri * kat
    * (1 + Tablo.varsayilan_fire_orani malzeme) in
  {| net_miktar := Sayi duvar_alani_net;
     gerekli_miktar := Sayi gerekli_litre;
     birim_olcu := "litre";
     birim_fiyat := Tablo.birim_fiyat fiyat;
     maliyet := gerekli_litre * Tablo.birim_fiyat fiyat |}.

(** The wall covering line of a material other than paint. *)
Definition duvar_kalemi (duvar_alani_net : Q)
    (malzeme : Tablo.Malzeme) (fiyat : Tablo.Fiyat) : Kalem :=
  let gerekli := duvar_alani_net * (1 + Tablo.varsayilan_fire_orani malzeme) in
  {| net_miktar := Sayi duvar_alani_net;
     gerekli_miktar := Sayi gerekli;
     birim_olcu := Tablo.birim_olcu_tipi malzeme;
     birim_fiyat := Tablo.birim_fiyat fiyat;
     maliyet := gerekli * Tablo.birim_fiyat fiyat |}.

Definition duvar_sarfiyati (info : Tablo.MalzemeBilgisi) : list Tablo.Sarfiyat :=
  filter (fun s => String.eqb (Tablo.uygulama_turu s) "Duvar") (Tablo.sarfiyat info).

(** Wall covering of one room.  The paint branch adds its cost to the
    running total, and the statement after the [if]/[else] adds the local
    [maliyet] once more, whatever branch ran. *)
Definition duvar_kaplama (oda : Oda) (duvar_alani_net : Q) (st : Durum)
    : Py.Exc Durum :=
  match fiyatli (duvar_kaplama_tipi oda) with
  | Some (info, fiyat) =>
      let malzeme := Tablo.malzeme info in
      let etiket := duvar_etiketi (oda_adi oda) (Tablo.malzeme_adi malzeme) in
      let st' :=
        if String.eqb (Tablo.malzeme_adi malzeme) "Boya" then
          match duvar_sarfiyati info with
          | s :: _ =>
              let k := boya_kalemi oda duvar_alani_net malzeme fiyat s in
              topla (maliyet k) (yaz etiket k st)
          | [] => st
          end
        else
          yaz etiket (duvar_kalemi duvar_alani_net malzeme fiyat) st in
      match yerel_maliyet st' with
      | Some m => Py.Ok (topla m st')
      | None => Py.Raise (Py.UnboundLocalError "maliyet")
      end
  | None => Py.Ok st
  end.

(** The net wall area of one room: its share of the openings removed. *)
Definition oda_duvar_alani_net (a : Alanlar) (oda_duvar_alani_brut : Q) : Q :=
  let pencere_kapi_bosluk_orani :=
    if Py.lt 0 (toplam_duvar_alani_brut a)
    then (oda_duvar_alani_brut / toplam_duvar_alani_brut a)
         * (toplam_pencere_alani a + toplam_kapi_alani a)
    else 0 in
  sifira_kirp (oda_duvar_alani_brut - pencere_kapi_bosluk_orani).

(** The body of the room loop. *)
Definition oda_adimi (a : Alanlar) (st : Durum) (oda : Oda) : Py.Exc Durum :=
  alan <- Py.index (oda_adi oda) (oda_alanlari a) ;;
  let zemin_alani_net := zemin alan in
  let duvar_alani_net := oda_duvar_alani_net a (duvar alan) in
  duvar_kaplama oda duvar_alani_net (zemin_kaplama oda zemin_alani_net st).

Definition pencere_etiketi (i : nat) (pencere : Pencere) : string :=
  "Pencere " ++ Py.str_nat (i + 1) ++ " (" ++ float_str (pencere_genislik pencere)
  ++ "x" ++ float_str (pencere_yukseklik pencere) ++ "m)".

Definition adet_kalemi (adet : Z) (fiyat : Tablo.Fiyat) : Kalem :=
  {| net_miktar := Sayi (inject_Z adet);
     gerekli_miktar := Sayi (inject_Z adet);
     birim_olcu := "adet";
     birim_fiyat := Tablo.birim_fiyat fiyat;
     maliyet := inject_Z adet * Tablo.birim_fiyat fiyat |}.

(** The body of the window loop. *)
Definition pencere_adimi (st : Durum) (ip : nat * Pencere) : Durum :=
  let '(i, pencere) := ip in
  match fiyatli "PVC Pencere" with
  | Some (info, fiyat) =>
      let k := adet_kalemi (pencere_adet pencere) fiyat in
      topla (maliyet k) (yaz (pencere_etiketi i pencere) k st)
  | None => st
  end.

(** ["Dış Kapı" if "ana giriş" in kapi["kapi_adi"].lower() else "İç Kapı"] *)
Definition kategori_kapi (kapi : Kapi) : string :=
  if Py.contains "ana giriş" (str_lower (kapi_adi kapi))
  then "Dış Kapı" else "İç Kapı".

Definition kapi_etiketi (i : nat) (kapi : Kapi) : string :=
  "Kapı " ++ Py.str_nat (i + 1) ++ " (" ++ float_str (kapi_genislik kapi)
  ++ "x" ++ float_str (kapi_yukseklik kapi) ++ "m)".

(** The body of the door loop. *)
Definition kapi_adimi (st : Durum) (ik : nat * Kapi) : Durum :=
  let '(i, kapi) := ik in
  match fiyatli (kategori_kapi kapi) with
  | Some (info, fiyat) =>
      let k := adet_kalemi (kapi_adet kapi) fiyat in
      topla (maliyet k) (yaz (kapi_etiketi i kapi) k st)
  | None => st
  end.

Definition tesisat_kalemi (toplam : Q) : Kalem :=
  {| net_miktar := Metin "N/A";
     gerekli_miktar := Metin "N/A";
     birim_olcu := "TL";
     birim_fiyat := 1;
     maliyet := toplam * tesisat_baglanti_orani |}.

(** The overhead line and the returned pair. *)
Definition tesisat (st : Durum) : Py.dict Kalem * Q :=
  let tahmini_tesisat_maliyeti := toplam_maliyet_temp st * tesisat_baglanti_orani in
  (Py.set tesisat_etiketi (tesisat_kalemi (toplam_maliyet_temp st))
          (malzeme_ihtiyaclari st),
   toplam_maliyet_temp st + tahmini_tesisat_maliyeti).

Definition baslangic : Durum :=
  {| malzeme_ihtiyaclari := []; toplam_maliyet_temp := 0; yerel_maliyet := None |}.

(** The state after the steps before the overhead line. *)
Definition adimlar : Py.Exc Durum :=
  let a := _alan_hesapla in
  let st := cati_kaplama a (duvar_paneli a baslangic) in
  st <- Py.for_each (oda_adimi a) (oda_listesi ev_bilgileri) st ;;
  let st := fold_left pencere_adimi (Py.enumerate (pencere_listesi ev_bilgileri)) st in
  let st := fold_left kapi_adimi (Py.enumerate (kapi_listesi ev_bilgileri)) st in
  Py.Ok st.

Definition malzeme_ihtiyacini_hesapla : Py.Exc (Py.dict Kalem * Q) :=
  st <- adimlar ;;
  Py.Ok (tesisat st).

(** [calculate_cost], from the construction of the calculator on: the
    message list is empty when the estimator returns, and holds the one
    message of the catch-all handler when it raises. *)
Definition calculate_cost : Yanit :=
  match malzeme_ihtiyacini_hesapla with
  | Py.Ok (ihtiyaclar, toplam) => Sonuc ihtiyaclar toplam []
  | Py.Raise e =>
      HataSayfasi [ {| mesaj_type := "danger";
                       mesaj_message := "Beklenmedik bir hata oluştu: ";
                       mesaj_hata := Some e |} ]
  end.

End Hesap.

(* ------------------------------------------------------------------ *)
(** ** A concrete library and the catalog of [startup_event]           *)
(* ------------------------------------------------------------------ *)

Module Ornek.

Local Open Scope string_scope.

(** [math.radians] and [math.cos] by rational approximation: pi as
    355/113 and the Taylor polynomial of degree 8. *)
Definition radians (x : Q) : Q := x * (355 # 113) / 180.

Definition cos (x : Q) : Q :=
  let x2 := x * x in
  1 - x2 / 2 + x2 * x2 / 24 - x2 * x2 * x2 / 720 + x2 * x2 * x2 * x2 / 40320.

(** [str.lower] on the letters A-Z; other bytes are unchanged. *)
Definition lower_char (c : ascii) : ascii :=
  let n := nat_of_ascii c in
  if (65 <=? n)%nat && (n <=? 90)%nat then ascii_of_nat (n + 32) else c.

Fixpoint lower (s : string) : string :=
  match s with
  | EmptyString => EmptyString
  | String c s' => String (lower_char c) (lower s')
  end.

(** The text of a float with a short decimal expansion: the integer
    part, a point, and the digits up to the last one that is not zero. *)
Fixpoint basamaklar (fuel : nat) (r d : Z) : string :=
  match fuel with
  | O => ""
  | S fuel' =>
      if (r =? 0)%Z then ""
      else String (ascii_of_nat (48 + Z.to_nat (r * 10 / d)))
                  (basamaklar fuel' (r * 10 mod d) d)
  end.

Definition float_str (q : Q) : string :=
  let n := Z.abs (Qnum q) in
  let d := Z.pos (Qden q) in
  let kesir := basamaklar 17 (n mod d) d in
  (if (Qnum q <? 0)%Z then "-" else "")
  ++ Py.str_nat (Z.to_nat (n / d))
  ++ "." ++ (if String.eqb kesir "" then "0" else kesir).

(** [json.loads] on flat objects whose members are decimal numbers;
    every other text is rejected. *)
Definition tirnak : ascii := ascii_of_nat 34.

Definition rakam (c : ascii) : option Z :=
  let n := nat_of_ascii c in
  if (48 <=? n)%nat && (n <=? 57)%nat then Some (Z.of_nat (n - 48)) else None.

Fixpoint bosluk_atla (s : string) : string :=
  match s with
  | String c s' => if Ascii.eqb c " " then bosluk_atla s' else s
  | EmptyString => s
  end.

(** Leading digits: their value, the power of ten of their count, the rest. *)
Fixpoint rakamlari_oku (s : string) (deger us : Z) : Z * Z * string :=
  match s with
  | String c s' =>
      match rakam c with
      | Some r => rakamlari_oku s' (deger * 10 + r)%Z (us * 10)%Z
      | None => (deger, us, s)
      end
  | EmptyString => (deger, us, s)
  end.

Definition sayi_oku (s : string) : option (Q * string) :=
  let '(eksi, s) := match s with
                    | String "-" s' => (true, s')
                    | _ => (false, s)
                    end in
  let '(tam, us, s) := rakamlari_oku s 0%Z 1%Z in
  if (us =? 1)%Z then None
  else
    let '(pay, payda, s) :=
      match s with
      | String "." s' =>
          let '(k, us', s'') := rakamlari_oku s' 0%Z 1%Z in
          ((tam * us' + k)%Z, us', s'')
      | _ => (tam, 1%Z, s)
      end in
    Some (Qred ((if eksi then - pay else pay)%Z # Z.to_pos payda), s).

Fixpoint anahtar_oku (s : string) : option (string * string) :=
  match s with
  | String c s' =>
      if Ascii.eqb c tirnak then Some ("", s')
      else match anahtar_oku s' with
           | Some (k, rest) => Some (String c k, rest)
           | None => None
           end
  | EmptyString => None
  end.

Fixpoint uyeleri_oku (fuel : nat) (s : string) (acc : Py.dict Q) : option (Py.dict Q) :=
  match fuel with
  | O => None
  | S fuel' =>
      match bosluk_atla s with
      | String c s1 =>
          if Ascii.eqb c tirnak then
            match anahtar_oku s1 with
            | Some (k, s2) =>
                match bosluk_atla s2 with
                | String ":" s3 =>
                    match sayi_oku (bosluk_atla s3) with
                    | Some (v, s4) =>
                        match bosluk_atla s4 with
                        | String "," s5 => uyeleri_oku fuel' s5 (Py.set k v acc)
                        | String "}" s5 =>
                            if String.eqb (bosluk_atla s5) "" then Some (Py.set k v acc)
                            else None
                        | _ => None
                        end
                    | None => None
                    end
                | _ => None
                end
            | None => None
            end
          else None
      | EmptyString => None
      end
  end.

Definition json_loads (s : string) : option (Py.dict Q) :=
  match bosluk_atla s with
  | String "{" s1 =>
      match bosluk_atla s1 with
      | String "}" s2 => if String.eqb (bosluk_atla s2) "" then Some [] else None
      | _ => uyeleri_oku (String.length s1) s1 []
      end
  | _ => None
  end.

(** [json.dumps({key: value})] for one member. *)
Definition json_uye (key value : string) : string :=
  "{" ++ String tirnak key ++ String tirnak (": " ++ value ++ "}").

(** The sample rows inserted at start-up. *)
Definition current_date : string := "2025-01-01".

Definition mlz (id : Z) (ad kategori birim : string) (fire : Q) (acik : string)
    : Tablo.Malzeme :=
  {| Tablo.malzeme_id := id; Tablo.malzeme_adi := ad;
     Tablo.malzeme_kategori := kategori; Tablo.birim_olcu_tipi := birim;
     Tablo.varsayilan_fire_orani := fire; Tablo.aciklama := acik |}.

Definition fyt (id mid : Z) (f : Q) (t : string) : Tablo.Fiyat :=
  {| Tablo.fiyat_id := id; Tablo.fiyat_malzeme_id := mid;
     Tablo.birim_fiyat := f; Tablo.gecerlilik_tarihi := current_date;
     Tablo.tedarikci := Some t |}.

Definition dty (id : Z) (oda alan kategori : string) (mid : Z) (ek : string)
    : Tablo.UygulamaDetayi :=
  {| Tablo.detay_id := id; Tablo.oda_tipi := oda; Tablo.uygulama_alani := alan;
     Tablo.varsayilan_malzeme_kategori := kategori;
     Tablo.varsayilan_malzeme_id := Some mid;
     Tablo.ek_ozellikler := Some ek |}.

Definition malzemeler : list Tablo.Malzeme :=
  [ mlz 1 "Duvar Paneli" "Yapısal" "m2" (5 # 100) "Prefabric ev duvar paneli";
    mlz 2 "Çatı Paneli" "Yapısal" "m2" (7 # 100) "Prefabric ev çatı paneli";
    mlz 3 "Fayans" "Zemin Kaplama" "m2" (10 # 100) "Standart seramik fayans";
    mlz 4 "Laminat Parke" "Zemin Kaplama" "m2" (7 # 100) "8mm laminat parke";
    mlz 5 "Boya" "Duvar Kaplama" "litre" (5 # 100) "Su bazlı iç cephe boyası";
    mlz 6 "PVC Pencere" "Doğrama" "adet" 0 "Isıcamlı PVC pencere";
    mlz 7 "İç Kapı" "Doğrama" "adet" 0 "Panel iç oda kapısı";
    mlz 8 "Dış Kapı" "Doğrama" "adet" 0 "Çelik dış kapı" ].

Definition fiyatlar : list Tablo.Fiyat :=
  [ fyt 1 1 120 "A Panel"; fyt 2 2 150 "B Çatı"; fyt 3 3 50 "C Yapı";
    fyt 4 4 80 "D Zemin"; fyt 5 5 50 "E Boya"; fyt 6 6 1500 "F Pencere";
    fyt 7 7 800 "G Kapı"; fyt 8 8 2000 "G Kapı" ].

Definition sarfiyatlar : list Tablo.Sarfiyat :=
  [ {| Tablo.sarfiyat_id := 1; Tablo.sarfiyat_malzeme_id := 5;
       Tablo.uygulama_turu := "Duvar"; Tablo.sarfiyat_degeri := 15 # 100;
       Tablo.sarfiyat_birimi := "litre/m2" |} ].

Definition detaylar : list Tablo.UygulamaDetayi :=
  [ dty 1 "Banyo" "Zemin" "Fayans" 3 (json_uye "fayans_boyut_m2" "0.09");
    dty 2 "Mutfak" "Zemin" "Fayans" 3 (json_uye "fayans_boyut_m2" "0.09");
    dty 3 "Salon" "Duvar" "Boya" 5 (json_uye "kat_sayisi" "2");
    dty 4 "Yatak Odası" "Duvar" "Boya" 5 (json_uye "kat_sayisi" "2");
    dty 5 "Salon" "Zemin" "Laminat Parke" 4 "{}" ].

Definition katalog : Tablo.Veritabani :=
  {| Tablo.Malzemeler := malzemeler; Tablo.Fiyatlar := fiyatlar;
     Tablo.Sarfiyatlar := sarfiyatlar; Tablo.UygulamaDetaylari := detaylar |}.

Definition bos_katalog : Tablo.Veritabani :=
  {| Tablo.Malzemeler := []; Tablo.Fiyatlar := [];
     Tablo.Sarfiyatlar := []; Tablo.UygulamaDetaylari := [] |}.

Definition oda (ad : string) (u g y : Q) (z d : string) : Oda :=
  {| oda_adi := ad; uzunluk := u; genislik := g; yukseklik := y;
     zemin_kaplama_tipi := z; duvar_kaplama_tipi := d |}.

Definition ev (kat : Z) (cati : string) (egim : Q) (odalar : list Oda)
    (pencereler : list Pencere) (kapilar : list Kapi) : EvBilgileri :=
  {| ev_tipi := "Tek Katlı"; kat_sayisi := kat; cati_tipi := cati;
     cati_egim_acisi := egim; oda_listesi := odalar;
     pencere_listesi := pencereler; kapi_listesi := kapilar |}.

(** The estimator and the handler on the concrete library. *)
Definition hesapla := malzeme_ihtiyacini_hesapla cos radians json_loads lower float_str.
Definition alanlar := _alan_hesapla cos radians.
Definition yanit := calculate_cost cos radians json_loads lower float_str.

End Ornek.

(* ------------------------------------------------------------------ *)
(** ** Concrete houses and catalogs                                    *)
(* ------------------------------------------------------------------ *)

Module Evler.

Import Ornek.
Local Open Scope string_scope.

Definition pencere (g y : Q) (adet : Z) : Pencere :=
  {| pencere_genislik := g; pencere_yukseklik := y; pencere_adet := adet |}.

Definition kapi (ad : string) (g y : Q) (adet : Z) : Kapi :=
  {| kapi_adi := ad; kapi_genislik := g; kapi_yukseklik := y; kapi_adet := adet |}.

(** A pitched roof of 60 degrees over one room of 10 by 10. *)
Definition egimli : EvBilgileri :=
  ev 1 "Beşik" 60 [oda "Salon" 10 10 3 "Laminat Parke" "Boya"] [] [].

(** The same room under a roof pitched at a right angle. *)
Definition dik_catili : EvBilgileri :=
  ev 1 "Beşik" 90 [oda "Salon" 10 10 3 "Laminat Parke" "Boya"] [] [].

(** The same room under a flat roof, with a floor count of zero. *)
Definition duz_katsiz : EvBilgileri :=
  ev 0 "Düz" 60 [oda "Salon" 10 10 3 "Laminat Parke" "Boya"] [] [].

(** Gross wall area 10, windows 6, doors 6. *)
Definition cok_acikli : EvBilgileri :=
  ev 1 "Düz" 0 [oda "Salon" (3 # 2) 1 2 "Laminat Parke" "Boya"]
     [pencere 2 3 1] [kapi "Oda" 2 3 1].

(** A bathroom of 3 by 3, tiled. *)
Definition banyolu : EvBilgileri :=
  ev 1 "Düz" 0 [oda "Banyo" 3 3 2 "Fayans" "Yok"] [] [].

(** A living room with 20 square metres of wall, painted. *)
Definition salonlu : EvBilgileri :=
  ev 1 "Düz" 0 [oda "Salon" 3 2 2 "Laminat Parke" "Boya"] [] [].

(** Two rooms under one name. *)
Definition cift_salon : EvBilgileri :=
  ev 1 "Düz" 0 [oda "Salon" 3 2 2 "Laminat Parke" "Yok";
                oda "Salon" 5 4 3 "Laminat Parke" "Yok"] [] [].

Definition bos_ev : EvBilgileri := ev 1 "Düz" 0 [] [] [].

(** The start-up catalog with other application details. *)
Definition katalog_detayli (d : list Tablo.UygulamaDetayi) : Tablo.Veritabani :=
  {| Tablo.Malzemeler := malzemeler; Tablo.Fiyatlar := fiyatlar;
     Tablo.Sarfiyatlar := sarfiyatlar; Tablo.UygulamaDetaylari := d |}.



(** Paint with a price and no consumption rate, and nothing else. *)
Definition yalniz_boya : Tablo.Veritabani :=
  {| Tablo.Malzemeler := [mlz 5 "Boya" "Duvar Kaplama" "litre" (5 # 100) ""];
     Tablo.Fiyatlar := [fyt 5 5 50 "E Boya"];
     Tablo.Sarfiyatlar := [];
     Tablo.UygulamaDetaylari := [] |}.

End Evler.

(* ------------------------------------------------------------------ *)
(** ** Notions used to state the properties                            *)
(* ------------------------------------------------------------------ *)

(** The last room of a list that carries a given name. *)
Fixpoint son_oda (ad : string) (odalar : list Oda) : option Oda :=
  match odalar with
  | [] => None
  | o :: kalan =>
      match son_oda ad kalan with
      | Some o' => Some o'
      | None => if String.eqb (oda_adi o) ad then Some o else None
      end
  end.

(** The entry of [oda_alanlari] computed from a room. *)
Definition oda_alani (o : Oda) : OdaAlani :=
  {| zemin := uzunluk o * genislik o;
     duvar := 2 * (uzunluk o + genislik o) * yukseklik o |}.

(** The floor line of one room, as [zemin_kaplama] writes it. *)
Definition zemin_kalemi (zemin_alani_net : Q) (malzeme : Tablo.Malzeme)
    (fiyat : Tablo.Fiyat) (ek : Py.dict Q) : Kalem :=
  match fayans_boyutu malzeme ek with
  | Some fayans_m2 =>
      let gerekli_adet := (zemin_alani_net / fayans_m2)
                          * (1 + Tablo.varsayilan_fire_orani malzeme) in
      {| net_miktar := Sayi zemin_alani_net;
         gerekli_miktar := Sayi gerekli_adet;
         birim_olcu := "adet";
         birim_fiyat := Tablo.birim_fiyat fiyat;
         maliyet := gerekli_adet * Tablo.birim_fiyat fiyat |}
  | None =>
      let gerekli := zemin_alani_net * (1 + Tablo.varsayilan_fire_orani malzeme) in
      {| net_miktar := Sayi zemin_alani_net;
         gerekli_miktar := Sayi gerekli;
         birim_olcu := Tablo.birim_olcu_tipi malzeme;
         birim_fiyat := Tablo.birim_fiyat fiyat;
         maliyet := gerekli * Tablo.birim_fiyat fiyat |}
  end.

(** Every label but the one of the overhead line holds one of the
    letters Z, D, P, K. *)
Definition isaret (c : ascii) : bool :=
  existsb (Ascii.eqb c) ["Z"; "D"; "P"; "K"]%char.

Fixpoint isaretli (s : string) : bool :=
  match s with
  | EmptyString => false
  | String c s' => isaret c || isaretli s'
  end.

(** What a label stands for. *)
Inductive Anahtar : Type :=
| ADuvarPaneli
| ACatiKaplama
| AZemin (oda : string)
| ADuvar (oda : string)
| APencere (i : nat)
| AKapi (i : nat).

Module Etiket.

Local Open Scope string_scope.

(** The text of a label before its first opening parenthesis. *)
Definition parantez (c : ascii) : bool := Ascii.eqb c "(".

Fixpoint govde (s : string) : string :=
  match s with
  | EmptyString => EmptyString
  | String c s' => if parantez c then EmptyString else String c (govde s')
  end.

Fixpoint parantezsiz (s : string) : bool :=
  match s with
  | EmptyString => true
  | String c s' => negb (parantez c) && parantezsiz s'
  end.

(** The text before the parenthesis, for each kind of label. *)
Definition kod (d : Anahtar) : string :=
  match d with
  | ADuvarPaneli => "Duvar Paneli "
  | ACatiKaplama => "Çatı Kaplama "
  | AZemin oda => oda ++ " Zemin "
  | ADuvar oda => oda ++ " Duvar "
  | APencere i => "Pencere " ++ Py.str_nat (i + 1) ++ " "
  | AKapi i => "Kapı " ++ Py.str_nat (i + 1) ++ " "
  end.

(** Decimal numerals. *)
Definition rakam_mi (c : ascii) : bool :=
  let n := nat_of_ascii c in (48 <=? n)%nat && (n <=? 57)%nat.

(** The last character but one. *)
Definition sondan_ikinci (s : string) : option ascii :=
  nth_error (rev (list_ascii_of_string s)) 1.

End Etiket.

(** The cost of a line is its required quantity times its unit price. *)
Definition tutarli (k : Kalem) : Prop :=
  exists q, gerekli_miktar k = Sayi q /\ maliyet k = q * birim_fiyat k.

(** Every line of the state has a marked label and such a cost. *)
Definition kalem_degismezi (st : Durum) : Prop :=
  Forall (fun ek => isaretli (fst ek) = true /\ tutarli (snd ek))
         (malzeme_ihtiyaclari st).

(** The running total is the sum of the costs of the lines written. *)
Definition toplam_tutar (st : Durum) : Prop :=
  toplam_maliyet_temp st
  == Py.sum (map maliyet (Py.values (malzeme_ihtiyaclari st))).

(** A state whose total is the sum of its lines and whose labels stand
    for things of the set [A]. *)
Definition saglikli (A : Anahtar -> Prop) (st : Durum) : Prop :=
  toplam_tutar st
  /\ Forall (fun e => exists d, Etiket.govde e = Etiket.kod d /\ A d)
            (Py.keys (malzeme_ihtiyaclari st)).

(** What the labels may stand for after the rooms named [adlar]; after
    [i] windows as well; after [np] windows and [i] doors as well. *)
Definition A_oda (adlar : list string) (d : Anahtar) : Prop :=
  d = ADuvarPaneli \/ d = ACatiKaplama
  \/ exists n, In n adlar /\ (d = AZemin n \/ d = ADuvar n).

Definition A_pencere (adlar : list string) (i : nat) (d : Anahtar) : Prop :=
  A_oda adlar d \/ exists j, (j < i)%nat /\ d = APencere j.

Definition A_kapi (adlar : list string) (np i : nat) (d : Anahtar) : Prop :=
  A_pencere adlar np d \/ exists j, (j < i)%nat /\ d = AKapi j.

(* ------------------------------------------------------------------ *)
(** ** Notions used for the rest of the code                           *)
(* ------------------------------------------------------------------ *)

(** [g] is not after [f] in the order of the price query: it is dated
    earlier, or on the same day with an identifier that is not larger. *)
Definition geride (g f : Tablo.Fiyat) : Prop :=
  String.compare (Tablo.gecerlilik_tarihi g) (Tablo.gecerlilik_tarihi f) = Lt
  \/ (Tablo.gecerlilik_tarihi g = Tablo.gecerlilik_tarihi f
      /\ (Tablo.fiyat_id g <= Tablo.fiyat_id f)%Z).



(** The number of lines written so far. *)
Definition boy (st : Durum) : nat := List.length (malzeme_ihtiyaclari st).

(** No negative amount: in the running total, in the local [maliyet],
    in the lines. *)
Definition negatifsiz (st : Durum) : Prop :=
  0 <= toplam_maliyet_temp st
  /\ (forall m, yerel_maliyet st = Some m -> 0 <= m)
  /\ Forall (fun ek => 0 <= maliyet (snd ek)) (malzeme_ihtiyaclari st).

(* ------------------------------------------------------------------ *)
(** ** The request handler: the covering names and the form            *)
(* ------------------------------------------------------------------ *)

(** Python's [set] of strings and [sorted].  A set is kept as the list
    of its elements in the order they were first added; [sorted]
    compares by code point, which on UTF-8 text is the order of the
    bytes. *)
Module Kume.

Definition add (x : string) (s : list string) : list string :=
  if existsb (String.eqb x) s then s else (s ++ [x])%list.

Fixpoint yerlestir (x : string) (l : list string) : list string :=
  match l with
  | [] => [x]
  | y :: l' => if String.leb x y then x :: y :: l' else y :: yerlestir x l'
  end.

Definition sorted (l : list string) : list string := fold_right yerlestir [] l.

(** Strictly increasing. *)
Definition artan (l : list string) : Prop :=
  StronglySorted (fun a b => String.compare a b = Lt) l.

End Kume.

(** [get_oda_kaplama_tipleri]: [veri_sorgula("Malzemeler", {})] is every
    row of the table. *)
Definition get_oda_kaplama_tipleri (db : Tablo.Veritabani) : list string :=
  let kaplama_tipleri :=
    fold_left
      (fun s row =>
         if String.eqb (Tablo.malzeme_kategori row) "Zemin Kaplama"
            || String.eqb (Tablo.malzeme_kategori row) "Duvar Kaplama"
         then Kume.add (Tablo.malzeme_adi row) s else s)
      (Tablo.Malzemeler db) [] in
  Kume.sorted kaplama_tipleri.

(* ------------------------------------------------------------------ *)
(** ** Python's dynamic checks around the estimator                    *)
(* ------------------------------------------------------------------ *)

(** The section [Hesap] is the estimator on property bags that are
    objects of numbers and on a pitch that is a finite number.  What
    follows is the same code on what [json.loads] and the form can hand
    over: any JSON value, and a pitch that can be an infinity or not a
    number, with the exceptions Python raises on them.  Numbers stay
    exact rationals, so the tokens [NaN] and [Infinity] of a property
    bag and numbers beyond the range of a float are outside. *)

(** A float of the form. *)
Inductive PyFloat : Type :=
| Sonlu (q : Q)
| ArtiSonsuz
| EksiSonsuz
| SayiDegil.

(** A JSON value as [json.loads] returns it: [None], a [bool], a number,
    a [str], a [list], a [dict]. *)
#[warnings="-register-all"]
Inductive Json : Type :=
| JNull
| JBool (b : bool)
| JSayi (q : Q)
| JMetin (s : string)
| JListe (l : list Json)
| JNesne (uyeler : list (string * Json)).

(** The exceptions met in the handlers. *)
Inductive Istisna : Type :=
| Temel (e : Py.Error)
| IndexError
| AttributeError
| TypeError
| ValueError
| OverflowError.

Module Dinamik.

Inductive Exc (A : Type) : Type :=
| Ok (a : A)
| Raise (e : Istisna).
Arguments Ok {A} a.
Arguments Raise {A} e.

Definition bind {A B} (m : Exc A) (f : A -> Exc B) : Exc B :=
  match m with
  | Ok a => f a
  | Raise e => Raise e
  end.

(** An exception of the section [Hesap], among the others. *)
Definition yukselt {A} (m : Py.Exc A) : Exc A :=
  match m with
  | Py.Ok a => Ok a
  | Py.Raise e => Raise (Temel e)
  end.

Fixpoint for_each {A S} (body : S -> A -> Exc S) (l : list A) (s : S) : Exc S :=
  match l with
  | [] => Ok s
  | a :: l' => bind (body s a) (for_each body l')
  end.

(** A number in arithmetic and comparisons: an [int], a [float], and a
    [bool] as 1 or 0. *)
Definition sayi_degeri (j : Json) : option Q :=
  match j with
  | JSayi q => Some q
  | JBool b => Some (if b then 1 else 0)
  | _ => None
  end.

(** [k in x]: a key of a [dict], an element of a [list], a part of a
    [str]; the other values are not containers. *)
Definition py_in (k : string) (x : Json) : Exc bool :=
  match x with
  | JNesne d => Ok (match Py.get k d with Some _ => true | None => false end)
  | JListe l =>
      Ok (existsb (fun y => match y with
                            | JMetin s => String.eqb s k
                            | _ => false
                            end) l)
  | JMetin s => Ok (Py.contains k s)
  | _ => Raise TypeError
  end.

(** [x[k]] for a [str] k. *)
Definition py_getitem (k : string) (x : Json) : Exc Json :=
  match x with
  | JNesne d =>
      match Py.get k d with
      | Some v => Ok v
      | None => Raise (Temel (Py.KeyError k))
      end
  | _ => Raise TypeError
  end.

(** [v > 0]. *)
Definition py_gt0 (v : Json) : Exc bool :=
  match sayi_degeri v with
  | Some q => Ok (Py.lt 0 q)
  | None => Raise TypeError
  end.

(** [x.get(k, varsayilan)]. *)
Definition py_get (k : string) (varsayilan : Json) (x : Json) : Exc Json :=
  match x with
  | JNesne d => Ok (match Py.get k d with Some v => v | None => varsayilan end)
  | _ => Raise AttributeError
  end.

(** [x * v] for a float [x]. *)
Definition py_carp (x : Q) (v : Json) : Exc Q :=
  match sayi_degeri v with
  | Some q => Ok (x * q)
  | None => Raise TypeError
  end.

(** [ev_data] as the handler passes it. *)
Record EvVerisi : Type := {
  ev_tipi : string;
  kat_sayisi : Z;
  cati_tipi : string;
  cati_egim_acisi : PyFloat;
  oda_listesi : list Oda;
  pencere_listesi : list Pencere;
  kapi_listesi : list Kapi
}.

(** [x > 0] on a float: false for not a number. *)
Definition pozitif (x : PyFloat) : bool :=
  match x with
  | Sonlu q => Py.lt 0 q
  | ArtiSonsuz => true
  | EksiSonsuz => false
  | SayiDegil => false
  end.

Section Hesap.

Local Open Scope string_scope.

(** Python's library.  [json_loads] is [None] on a [JSONDecodeError]. *)
Variable math_cos : Q -> Q.
Variable math_radians : Q -> Q.
Variable json_loads : string -> option Json.
Variable str_lower : string -> string.
Variable float_str : Q -> string.

Variable db : Tablo.Veritabani.
Variable ev_bilgileri : EvVerisi.

(** [math.cos(math.radians(x))]: [math.cos] raises [ValueError] on an
    infinity.  The call is made under [x > 0], which is false for not a
    number. *)
Definition cos_angle (x : PyFloat) : Exc Q :=
  match x with
  | Sonlu q => Ok (math_cos (math_radians q))
  | _ => Raise ValueError
  end.

Definition cati_alani_hesapla (taban : Q) : Exc Q :=
  if negb (String.eqb (cati_tipi ev_bilgileri) "Düz")
     && pozitif (cati_egim_acisi ev_bilgileri)
  then
    bind (cos_angle (cati_egim_acisi ev_bilgileri)) (fun c =>
    Ok (if Py.lt (Qabs c) (1 # 1000) then taban * 2 else taban / c))
  else Ok taban.

Definition _alan_hesapla : Exc Alanlar :=
  let pencere := Py.sum (map (fun p => pencere_genislik p * pencere_yukseklik p
                                        * inject_Z (pencere_adet p))
                             (pencere_listesi ev_bilgileri)) in
  let kapi := Py.sum (map (fun k => kapi_genislik k * kapi_yukseklik k
                                     * inject_Z (kapi_adet k))
                          (kapi_listesi ev_bilgileri)) in
  let '(alanlar, taban, brut) :=
    fold_left oda_alani_ekle (oda_listesi ev_bilgileri) ([], 0, 0) in
  let her_kat :=
    if (0 <? kat_sayisi ev_bilgileri)%Z
    then taban / inject_Z (kat_sayisi ev_bilgileri)
    else taban in
  bind (cati_alani_hesapla her_kat) (fun cati =>
  Ok {| toplam_pencere_alani := pencere;
        toplam_kapi_alani := kapi;
        oda_alanlari := alanlar;
        toplam_taban_alani := taban;
        toplam_duvar_alani_brut := brut;
        cati_alani_taban := her_kat;
        cati_alani := cati |}).

(** [ek_ozellikler] after the [try]: the empty [dict] when there is no
    row, when the column is empty and when the text does not parse;
    otherwise whatever the text parses to. *)
Definition ek_ozellikler (oda alan : string) : Json :=
  match Tablo.veri_sorgula_UygulamaDetaylari db oda alan with
  | d :: _ =>
      match Tablo.ek_ozellikler d with
      | Some s =>
          if String.eqb s "" then JNesne []
          else match json_loads s with
               | Some j => j
               | None => JNesne []
               end
      | None => JNesne []
      end
  | [] => JNesne []
  end.

(** [malzeme_adi == "Fayans" and "fayans_boyut_m2" in ek and
    ek["fayans_boyut_m2"] > 0], with the size when the test holds; [and]
    stops at the first operand that is false. *)
Definition fayans_boyutu (malzeme : Tablo.Malzeme) (ek : Json) : Exc (option Q) :=
  if String.eqb (Tablo.malzeme_adi malzeme) "Fayans" then
    bind (py_in "fayans_boyut_m2" ek) (fun icinde =>
    if icinde then
      bind (py_getitem "fayans_boyut_m2" ek) (fun v =>
      bind (py_gt0 v) (fun buyuk =>
      Ok (if buyuk then sayi_degeri v else None)))
    else Ok None)
  else Ok None.

(** Floor covering of one room. *)
Definition zemin_kaplama (oda : Oda) (zemin_alani_net : Q) (st : Durum)
    : Exc Durum :=
  match fiyatli db (zemin_kaplama_tipi oda) with
  | Some (info, fiyat) =>
      let malzeme := Tablo.malzeme info in
      let ek := ek_ozellikler (oda_adi oda) "Zemin" in
      let etiket := zemin_etiketi (oda_adi oda) (Tablo.malzeme_adi malzeme) in
      bind (fayans_boyutu malzeme ek) (fun fayans =>
      match fayans with
      | Some fayans_m2 =>
          let gerekli_adet :=
            (zemin_alani_net / fayans_m2)
            * (1 + Tablo.varsayilan_fire_orani malzeme) in
          let m := gerekli_adet * Tablo.birim_fiyat fiyat in
          Ok (topla m
                (yaz etiket
                     {| net_miktar := Sayi zemin_alani_net;
                        gerekli_miktar := Sayi gerekli_adet;
                        birim_olcu := "adet";
                        birim_fiyat := Tablo.birim_fiyat fiyat;
                        maliyet := m |} st))
      | None =>
          let gerekli := zemin_alani_net
                         * (1 + Tablo.varsayilan_fire_orani malzeme) in
          let m := gerekli * Tablo.birim_fiyat fiyat in
          Ok (topla m
                (yaz etiket
                     {| net_miktar := Sayi zemin_alani_net;
                        gerekli_miktar := Sayi gerekli;
                        birim_olcu := Tablo.birim_olcu_tipi malzeme;
                        birim_fiyat := Tablo.birim_fiyat fiyat;
                        maliyet := m |} st))
      end)
  | None => Ok st
  end.

(** The paint line of one room: [ek_ozellikler.get("kat_sayisi", 1)] and
    the product with it. *)
Definition boya_kalemi (oda : Oda) (duvar_alani_net : Q)
    (malzeme : Tablo.Malzeme) (fiyat : Tablo.Fiyat) (s : Tablo.Sarfiyat)
    : Exc Kalem :=
  let sarfiyat_degeri := Tablo.sarfiyat_degeri s in
  bind (py_get "kat_sayisi" (JSayi 1) (ek_ozellikler (oda_adi oda) "Duvar"))
       (fun kat_sayisi =>
  bind (py_carp (duvar_alani_net * sarfiyat_degeri) kat_sayisi) (fun carpim =>
  let gerekli_litre := carpim * (1 + Tablo.varsayilan_fire_orani malzeme) in
  Ok {| net_miktar := Sayi duvar_alani_net;
        gerekli_miktar := Sayi gerekli_litre;
        birim_olcu := "litre";
        birim_fiyat := Tablo.birim_fiyat fiyat;
        maliyet := gerekli_litre * Tablo.birim_fiyat fiyat |})).

(** Wall covering of one room. *)
Definition duvar_kaplama (oda : Oda) (duvar_alani_net : Q) (st : Durum)
    : Exc Durum :=
  match fiyatli db (duvar_kaplama_tipi oda) with
  | Some (info, fiyat) =>
      let malzeme := Tablo.malzeme info in
      let etiket := duvar_etiketi (oda_adi oda) (Tablo.malzeme_adi malzeme) in
      bind
        (if String.eqb (Tablo.malzeme_adi malzeme) "Boya" then
           match duvar_sarfiyati info with
           | s :: _ =>
               bind (boya_kalemi oda duvar_alani_net malzeme fiyat s) (fun k =>
               Ok (topla (maliyet k) (yaz etiket k st)))
           | [] => Ok st
           end
         else
           Ok (yaz etiket (duvar_kalemi duvar_alani_net malzeme fiyat) st))
        (fun st' =>
         match yerel_maliyet st' with
         | Some m => Ok (topla m st')
         | None => Raise (Temel (Py.UnboundLocalError "maliyet"))
         end)
  | None => Ok st
  end.

(** The body of the room loop. *)
Definition oda_adimi (a : Alanlar) (st : Durum) (oda : Oda) : Exc Durum :=
  bind (yukselt (Py.index (oda_adi oda) (oda_alanlari a))) (fun alan =>
  let zemin_alani_net := zemin alan in
  let duvar_alani_net := oda_duvar_alani_net a (duvar alan) in
  bind (zemin_kaplama oda zemin_alani_net st) (fun st' =>
  duvar_kaplama oda duvar_alani_net st')).

(** The state after the steps before the overhead line; the panels, the
    windows and the doors are the steps of the section [Hesap]. *)
Definition adimlar : Exc Durum :=
  bind _alan_hesapla (fun a =>
  let st := cati_kaplama db a (duvar_paneli db a baslangic) in
  bind (for_each (oda_adimi a) (oda_listesi ev_bilgileri) st) (fun st =>
  let st := fold_left (pencere_adimi float_str db)
                      (Py.enumerate (pencere_listesi ev_bilgileri)) st in
  let st := fold_left (kapi_adimi str_lower float_str db)
                      (Py.enumerate (kapi_listesi ev_bilgileri)) st in
  Ok st)).

Definition malzeme_ihtiyacini_hesapla : Exc (Py.dict Kalem * Q) :=
  bind adimlar (fun st => Ok (tesisat st)).

End Hesap.

(** A message of [calculate_cost]: its type, the text before the
    exception, and the exception the text embeds. *)
Record Bildirim : Type := {
  bildirim_type : string;
  bildirim_message : string;
  bildirim_hata : Istisna
}.

(** The context [calculate_cost] hands to the template. *)
Inductive Sayfa : Type :=
| SonucSayfasi (ev_data : EvVerisi) (ihtiyaclar : Py.dict Kalem)
               (toplam_maliyet : Q) (oda_kaplama_tipleri : list string)
               (messages : list Bildirim)
| HataliSayfa (oda_kaplama_tipleri : list string) (messages : list Bildirim).

(** The message of [except ValueError] and of [except Exception]. *)
Definition gecersiz_giris (e : Istisna) : Bildirim :=
  {| bildirim_type := "danger";
     bildirim_message :=
       "Geçersiz giriş: Lütfen sayısal alanlara doğru değerler girin. Hata: ";
     bildirim_hata := e |}.

Definition beklenmedik (e : Istisna) : Bildirim :=
  {| bildirim_type := "danger";
     bildirim_message := "Beklenmedik bir hata oluştu: ";
     bildirim_hata := e |}.

(** What either [except] clause answers. *)
Definition hata_sayfasi (db : Tablo.Veritabani) (e : Istisna) : Sayfa :=
  HataliSayfa (get_oda_kaplama_tipleri db)
              [match e with
               | ValueError => gecersiz_giris e
               | _ => beklenmedik e
               end].

(** [calculate_cost], from the construction of the calculator on. *)
Definition calculate_cost (math_cos math_radians : Q -> Q)
    (json_loads : string -> option Json) (str_lower : string -> string)
    (float_str : Q -> string) (db : Tablo.Veritabani) (ev_data : EvVerisi)
    : Sayfa :=
  match malzeme_ihtiyacini_hesapla math_cos math_radians json_loads str_lower
                                   float_str db ev_data with
  | Ok (ihtiyaclar, toplam) =>
      SonucSayfasi ev_data ihtiyaclar toplam (get_oda_kaplama_tipleri db) []
  | Raise e => hata_sayfasi db e
  end.






End Dinamik.



(** The house of the section [Hesap] as [ev_data]. *)
Definition ham (ev : EvBilgileri) (egim : PyFloat) : Dinamik.EvVerisi :=
  {| Dinamik.ev_tipi := ev_tipi ev; Dinamik.kat_sayisi := kat_sayisi ev;
     Dinamik.cati_tipi := cati_tipi ev; Dinamik.cati_egim_acisi := egim;
     Dinamik.oda_listesi := oda_listesi ev;
     Dinamik.pencere_listesi := pencere_listesi ev;
     Dinamik.kapi_listesi := kapi_listesi ev |}.

(** The form fields of [calculate_cost], under the names of its
    parameters; the framework has converted the numbers.  The pitch is
    any float the text of the field denotes; the measures of the rooms,
    windows and doors are finite. *)
Module Istek.

Record Form : Type := {
  ev_tipi : string;
  kat_sayisi : Z;
  cati_tipi : string;
  cati_egim_acisi : PyFloat;
  oda_adi : list string;
  oda_uzunluk : list Q;
  oda_genislik : list Q;
  oda_yukseklik : list Q;
  oda_zemin_kaplama : list string;
  oda_duvar_kaplama : list string;
  pencere_genislik : list Q;
  pencere_yukseklik : list Q;
  pencere_adet : list Z;
  kapi_adi : list string;
  kapi_genislik : list Q;
  kapi_yukseklik : list Q;
  kapi_adet : list Z
}.

End Istek.

(** [l[i]] followed by [k]; [None] is the [IndexError]. *)
Definition al {A B} (l : list A) (i : nat) (k : A -> option B) : option B :=
  match nth_error l i with
  | Some a => k a
  | None => None
  end.

(** [for i in range(...)] with a body that may raise. *)
Fixpoint her_indeks {S} (govde : S -> nat -> option S) (idx : list nat)
    (s : S) : option S :=
  match idx with
  | [] => Some s
  | i :: idx' =>
      match govde s i with
      | Some s' => her_indeks govde idx' s'
      | None => None
      end
  end.

Section FormdanEve.

(** [str.strip]. *)
Variable str_strip : string -> string.

Variable f : Istek.Form.

Definition oda_ekle (odalar : list Oda) (i : nat) : option (list Oda) :=
  al (Istek.oda_adi f) i (fun ad =>
  if negb (String.eqb (str_strip ad) "") then
    al (Istek.oda_uzunluk f) i (fun u =>
    al (Istek.oda_genislik f) i (fun g =>
    al (Istek.oda_yukseklik f) i (fun y =>
    al (Istek.oda_zemin_kaplama f) i (fun z =>
    al (Istek.oda_duvar_kaplama f) i (fun d =>
    Some (odalar ++ [ {| oda_adi := str_strip ad; uzunluk := u;
                         genislik := g; yukseklik := y;
                         zemin_kaplama_tipi := z;
                         duvar_kaplama_tipi := d |} ])%list)))))
  else Some odalar).

(** The name [f"Pencere {i+1}"] of the entry is not read by the
    estimator and is left out, as in [Pencere]. *)
Definition pencere_ekle (pencereler : list Pencere) (i : nat)
    : option (list Pencere) :=
  al (Istek.pencere_adet f) i (fun adet =>
  if (0 <? adet)%Z then
    al (Istek.pencere_genislik f) i (fun g =>
    al (Istek.pencere_yukseklik f) i (fun y =>
    Some (pencereler ++ [ {| pencere_genislik := g; pencere_yukseklik := y;
                             pencere_adet := adet |} ])%list))
  else Some pencereler).

Definition kapi_ekle (kapilar : list Kapi) (i : nat) : option (list Kapi) :=
  al (Istek.kapi_adet f) i (fun adet =>
  if (0 <? adet)%Z then
    al (Istek.kapi_adi f) i (fun ad =>
    al (Istek.kapi_genislik f) i (fun g =>
    al (Istek.kapi_yukseklik f) i (fun y =>
    Some (kapilar ++ [ {| kapi_adi := str_strip ad; kapi_genislik := g;
                          kapi_yukseklik := y; kapi_adet := adet |} ])%list)))
  else Some kapilar).

(** The three loops that fill [ev_data]. *)
Definition ev_data_olustur : option Dinamik.EvVerisi :=
  match her_indeks oda_ekle (seq 0 (List.length (Istek.oda_adi f))) [] with
  | None => None
  | Some odalar =>
  match her_indeks pencere_ekle
                   (seq 0 (List.length (Istek.pencere_adet f))) [] with
  | None => None
  | Some pencereler =>
  match her_indeks kapi_ekle (seq 0 (List.length (Istek.kapi_adet f))) [] with
  | None => None
  | Some kapilar =>
      Some {| Dinamik.ev_tipi := Istek.ev_tipi f;
              Dinamik.kat_sayisi := Istek.kat_sayisi f;
              Dinamik.cati_tipi := Istek.cati_tipi f;
              Dinamik.cati_egim_acisi := Istek.cati_egim_acisi f;
              Dinamik.oda_listesi := odalar;
              Dinamik.pencere_listesi := pencereler;
              Dinamik.kapi_listesi := kapilar |}
  end end end.

Variable math_cos : Q -> Q.
Variable math_radians : Q -> Q.
Variable json_loads : string -> option Json.
Variable str_lower : string -> string.
Variable float_str : Q -> string.
Variable db : Tablo.Veritabani.


End FormdanEve.

(** The rooms of a form whose lists have one length, read as rows. *)
Definition oda_satirlari (f : Istek.Form)
    : list (string * (Q * (Q * (Q * (string * string))))) :=
  combine (Istek.oda_adi f)
    (combine (Istek.oda_uzunluk f)
      (combine (Istek.oda_genislik f)
        (combine (Istek.oda_yukseklik f)
          (combine (Istek.oda_zemin_kaplama f) (Istek.oda_duvar_kaplama f))))).

Definition pencere_satirlari (f : Istek.Form) : list (Z * (Q * Q)) :=
  combine (Istek.pencere_adet f)
    (combine (Istek.pencere_genislik f) (Istek.pencere_yukseklik f)).

Definition kapi_satirlari (f : Istek.Form) : list (Z * (string * (Q * Q))) :=
  combine (Istek.kapi_adet f)
    (combine (Istek.kapi_adi f)
      (combine (Istek.kapi_genislik f) (Istek.kapi_yukseklik f))).

(** A row of the form as the entry the handler appends, and whether the
    handler keeps the row. *)
Definition satirdan_oda (str_strip : string -> string)
    (r : string * (Q * (Q * (Q * (string * string))))) : Oda :=
  let '(ad, (u, (g, (y, (z, d))))) := r in
  {| oda_adi := str_strip ad; uzunluk := u; genislik := g; yukseklik := y;
     zemin_kaplama_tipi := z; duvar_kaplama_tipi := d |}.

Definition adi_dolu (str_strip : string -> string) {A} (r : string * A) : bool :=
  negb (String.eqb (str_strip (fst r)) "").

Definition satirdan_pencere (r : Z * (Q * Q)) : Pencere :=
  let '(adet, (g, y)) := r in
  {| pencere_genislik := g; pencere_yukseklik := y; pencere_adet := adet |}.

Definition adetli {A} (r : Z * A) : bool := (0 <? fst r)%Z.

Definition satirdan_kapi (str_strip : string -> string)
    (r : Z * (string * (Q * Q))) : Kapi :=
  let '(adet, (ad, (g, y))) := r in
  {| kapi_adi := str_strip ad; kapi_genislik := g; kapi_yukseklik := y;
     kapi_adet := adet |}.

(** One of the lists, given by their lengths, has no element at the index. *)
Definition eksik (i : nat) (boylar : list nat) : Prop :=
  Exists (fun n => (n <= i)%nat) boylar.


(* ------------------------------------------------------------------ *)
(** ** Writing to the catalog                                          *)
(* ------------------------------------------------------------------ *)

(** The database file: the tables and, for each table, the largest row
    identifier [AUTOINCREMENT] has handed out (the table
    [sqlite_sequence]).  Row identifiers are unbounded: a table does not
    run out of them.  The foreign keys of the schema are declared and
    not enforced: the connection never turns them on. *)
Record Depo : Type := {
  tablolar : Tablo.Veritabani;
  sira_Malzemeler : Z;
  sira_Fiyatlar : Z;
  sira_Sarfiyatlar : Z;
  sira_UygulamaDetaylari : Z
}.

(** The identifier [AUTOINCREMENT] gives to a new row: one more than the
    largest identifier in the table and than the largest handed out. *)
Definition yeni_id (ids : list Z) (sira : Z) : Z :=
  Z.max (match ids with
         | [] => 1
         | i :: rest => fold_left Z.max rest i + 1
         end)
        (sira + 1).

(** [veri_ekle("Malzemeler", ...)]: the name is [UNIQUE]; [None] is the
    [IntegrityError] the method turns into [None]. *)
Definition veri_ekle_Malzemeler (malzeme_adi malzeme_kategori birim_olcu_tipi : string)
    (varsayilan_fire_orani : Q) (aciklama : string) (d : Depo) : Depo * option Z :=
  let db := tablolar d in
  if existsb (fun m => String.eqb (Tablo.malzeme_adi m) malzeme_adi)
             (Tablo.Malzemeler db)
  then (d, None)
  else
    let id := yeni_id (map Tablo.malzeme_id (Tablo.Malzemeler db))
                      (sira_Malzemeler d) in
    ({| tablolar :=
          {| Tablo.Malzemeler :=
               (Tablo.Malzemeler db
                ++ [ {| Tablo.malzeme_id := id;
                        Tablo.malzeme_adi := malzeme_adi;
                        Tablo.malzeme_kategori := malzeme_kategori;
                        Tablo.birim_olcu_tipi := birim_olcu_tipi;
                        Tablo.varsayilan_fire_orani := varsayilan_fire_orani;
                        Tablo.aciklama := aciklama |} ])%list;
             Tablo.Fiyatlar := Tablo.Fiyatlar db;
             Tablo.Sarfiyatlar := Tablo.Sarfiyatlar db;
             Tablo.UygulamaDetaylari := Tablo.UygulamaDetaylari db |};
        sira_Malzemeler := id;
        sira_Fiyatlar := sira_Fiyatlar d;
        sira_Sarfiyatlar := sira_Sarfiyatlar d;
        sira_UygulamaDetaylari := sira_UygulamaDetaylari d |},
     Some id).

(** A Python [int] bound to a statement has to fit the 64-bit integer of
    SQLite: [sqlite3] raises [OverflowError] otherwise, which is no
    [sqlite3.Error] and leaves the method that runs the statement. *)
Definition int64_mi (n : Z) : bool := (- 2 ^ 63 <=? n)%Z && (n <? 2 ^ 63)%Z.

(** A float bound to a price: a finite number, or not a number, which
    SQLite stores as [NULL].  The infinities are outside: the price
    column holds exact rationals. *)
Inductive Okunan : Type :=
| Tutar (q : Q)
| Belirsiz.

(** The file after [INSERT INTO Fiyatlar] has written a row, and the
    identifier of the row. *)
Definition fiyat_yaz (malzeme_id : Z) (birim_fiyat : Q)
    (gecerlilik_tarihi : string) (tedarikci : option string) (d : Depo)
    : Depo * Z :=
  let db := tablolar d in
  let id := yeni_id (map Tablo.fiyat_id (Tablo.Fiyatlar db)) (sira_Fiyatlar d) in
  ({| tablolar :=
        {| Tablo.Malzemeler := Tablo.Malzemeler db;
           Tablo.Fiyatlar :=
             (Tablo.Fiyatlar db
              ++ [ {| Tablo.fiyat_id := id;
                      Tablo.fiyat_malzeme_id := malzeme_id;
                      Tablo.birim_fiyat := birim_fiyat;
                      Tablo.gecerlilik_tarihi := gecerlilik_tarihi;
                      Tablo.tedarikci := tedarikci |} ])%list;
           Tablo.Sarfiyatlar := Tablo.Sarfiyatlar db;
           Tablo.UygulamaDetaylari := Tablo.UygulamaDetaylari db |};
      sira_Malzemeler := sira_Malzemeler d;
      sira_Fiyatlar := id;
      sira_Sarfiyatlar := sira_Sarfiyatlar d;
      sira_UygulamaDetaylari := sira_UygulamaDetaylari d |},
   id).

(** [veri_ekle("Fiyatlar", ...)]: the identifier of the material is
    bound first; the price column is [NOT NULL], and [None] is the
    [IntegrityError] the method turns into [None], with nothing
    written. *)
Definition veri_ekle_Fiyatlar (malzeme_id : Z) (birim_fiyat : Okunan)
    (gecerlilik_tarihi : string) (tedarikci : option string) (d : Depo)
    : Dinamik.Exc (Depo * option Z) :=
  if negb (int64_mi malzeme_id) then Dinamik.Raise OverflowError
  else
    match birim_fiyat with
    | Belirsiz => Dinamik.Ok (d, None)
    | Tutar q =>
        let '(d', id) := fiyat_yaz malzeme_id q gecerlilik_tarihi tedarikci d in
        Dinamik.Ok (d', Some id)
    end.

(** [veri_ekle("Sarfiyatlar", ...)]. *)
Definition veri_ekle_Sarfiyatlar (malzeme_id : Z) (uygulama_turu : string)
    (sarfiyat_degeri : Q) (sarfiyat_birimi : string) (d : Depo)
    : Dinamik.Exc (Depo * option Z) :=
  if negb (int64_mi malzeme_id) then Dinamik.Raise OverflowError
  else
    let db := tablolar d in
    let id := yeni_id (map Tablo.sarfiyat_id (Tablo.Sarfiyatlar db))
                      (sira_Sarfiyatlar d) in
    Dinamik.Ok
      ({| tablolar :=
            {| Tablo.Malzemeler := Tablo.Malzemeler db;
               Tablo.Fiyatlar := Tablo.Fiyatlar db;
               Tablo.Sarfiyatlar :=
                 (Tablo.Sarfiyatlar db
                  ++ [ {| Tablo.sarfiyat_id := id;
                          Tablo.sarfiyat_malzeme_id := malzeme_id;
                          Tablo.uygulama_turu := uygulama_turu;
                          Tablo.sarfiyat_degeri := sarfiyat_degeri;
                          Tablo.sarfiyat_birimi := sarfiyat_birimi |} ])%list;
               Tablo.UygulamaDetaylari := Tablo.UygulamaDetaylari db |};
          sira_Malzemeler := sira_Malzemeler d;
          sira_Fiyatlar := sira_Fiyatlar d;
          sira_Sarfiyatlar := id;
          sira_UygulamaDetaylari := sira_UygulamaDetaylari d |},
       Some id).

(** [veri_ekle("UygulamaDetaylari", ...)]. *)
Definition veri_ekle_UygulamaDetaylari (oda_tipi uygulama_alani
    varsayilan_malzeme_kategori : string) (varsayilan_malzeme_id : Z)
    (ek_ozellikler : string) (d : Depo) : Dinamik.Exc (Depo * option Z) :=
  if negb (int64_mi varsayilan_malzeme_id) then Dinamik.Raise OverflowError
  else
    let db := tablolar d in
    let id := yeni_id (map Tablo.detay_id (Tablo.UygulamaDetaylari db))
                      (sira_UygulamaDetaylari d) in
    Dinamik.Ok
      ({| tablolar :=
            {| Tablo.Malzemeler := Tablo.Malzemeler db;
               Tablo.Fiyatlar := Tablo.Fiyatlar db;
               Tablo.Sarfiyatlar := Tablo.Sarfiyatlar db;
               Tablo.UygulamaDetaylari :=
                 (Tablo.UygulamaDetaylari db
                  ++ [ {| Tablo.detay_id := id;
                          Tablo.oda_tipi := oda_tipi;
                          Tablo.uygulama_alani := uygulama_alani;
                          Tablo.varsayilan_malzeme_kategori :=
                            varsayilan_malzeme_kategori;
                          Tablo.varsayilan_malzeme_id :=
                            Some varsayilan_malzeme_id;
                          Tablo.ek_ozellikler := Some ek_ozellikler |} ])%list |};
          sira_Malzemeler := sira_Malzemeler d;
          sira_Fiyatlar := sira_Fiyatlar d;
          sira_Sarfiyatlar := sira_Sarfiyatlar d;
          sira_UygulamaDetaylari := id |},
       Some id).

(** [UPDATE Fiyatlar SET birim_fiyat = ? WHERE fiyat_id = ?] on one row. *)
Definition satir_guncelle (birim_fiyat : Q) (fiyat_id : Z) (f : Tablo.Fiyat)
    : Tablo.Fiyat :=
  if (Tablo.fiyat_id f =? fiyat_id)%Z
  then {| Tablo.fiyat_id := Tablo.fiyat_id f;
          Tablo.fiyat_malzeme_id := Tablo.fiyat_malzeme_id f;
          Tablo.birim_fiyat := birim_fiyat;
          Tablo.gecerlilik_tarihi := Tablo.gecerlilik_tarihi f;
          Tablo.tedarikci := Tablo.tedarikci f |}
  else f.

(** [veri_guncelle("Fiyatlar", {"birim_fiyat": p}, {"fiyat_id": id})]:
    every row with the identifier is updated; the result tells whether
    there was one.  A price that is not a number meets [NOT NULL] on a
    row with the identifier, and no row without one: the method returns
    [False] either way, with nothing written.  The identifier is one
    read from the table, which fits 64 bits. *)
Definition veri_guncelle_Fiyatlar (birim_fiyat : Okunan) (fiyat_id : Z) (d : Depo)
    : Depo * bool :=
  match birim_fiyat with
  | Belirsiz => (d, false)
  | Tutar q =>
      let db := tablolar d in
      ({| tablolar :=
            {| Tablo.Malzemeler := Tablo.Malzemeler db;
               Tablo.Fiyatlar :=
                 map (satir_guncelle q fiyat_id) (Tablo.Fiyatlar db);
               Tablo.Sarfiyatlar := Tablo.Sarfiyatlar db;
               Tablo.UygulamaDetaylari := Tablo.UygulamaDetaylari db |};
          sira_Malzemeler := sira_Malzemeler d;
          sira_Fiyatlar := sira_Fiyatlar d;
          sira_Sarfiyatlar := sira_Sarfiyatlar d;
          sira_UygulamaDetaylari := sira_UygulamaDetaylari d |},
       existsb (fun f => (Tablo.fiyat_id f =? fiyat_id)%Z) (Tablo.Fiyatlar db))
  end.

(** [if x: ...] on the result of an insert, around a statement that uses
    it: [None] and [0] are false. *)
Definition varsa (x : option Z) (k : Z -> Depo -> Dinamik.Exc Depo) (d : Depo)
    : Dinamik.Exc Depo :=
  match x with
  | Some id => if (id =? 0)%Z then Dinamik.Ok d else k id d
  | None => Dinamik.Ok d
  end.

(** The guarded statements of [startup_event]: an insert of a price, of
    a consumption rate, of an application detail, for the identifier of
    the material; what the insert returns is dropped. *)
Definition fiyat_ekle (current_date : string) (birim_fiyat : Q)
    (tedarikci : string) (id : Z) (d : Depo) : Dinamik.Exc Depo :=
  Dinamik.bind (veri_ekle_Fiyatlar id (Tutar birim_fiyat) current_date
                                   (Some tedarikci) d)
               (fun r => Dinamik.Ok (fst r)).

Definition sarfiyat_ekle (uygulama_turu : string) (sarfiyat_degeri : Q)
    (sarfiyat_birimi : string) (id : Z) (d : Depo) : Dinamik.Exc Depo :=
  Dinamik.bind (veri_ekle_Sarfiyatlar id uygulama_turu sarfiyat_degeri
                                      sarfiyat_birimi d)
               (fun r => Dinamik.Ok (fst r)).

Definition detay_ekle (oda_tipi uygulama_alani varsayilan_malzeme_kategori
    ek_ozellikler : string) (id : Z) (d : Depo) : Dinamik.Exc Depo :=
  Dinamik.bind (veri_ekle_UygulamaDetaylari oda_tipi uygulama_alani
                  varsayilan_malzeme_kategori id ek_ozellikler d)
               (fun r => Dinamik.Ok (fst r)).

(** Statements in a row: an exception ends the start there, and the
    file holds what the statements before it have committed. *)
Fixpoint sirayla (ks : list (Depo -> Dinamik.Exc Depo)) (d : Depo) : Depo :=
  match ks with
  | [] => d
  | k :: ks' =>
      match k d with
      | Dinamik.Ok d' => sirayla ks' d'
      | Dinamik.Raise _ => d
      end
  end.

(** [startup_event], after the tables exist: the sample rows.  The date
    is the day of the start; the result is the file after the start. *)
Definition startup_event (current_date : string) (d : Depo) : Depo :=
  let '(d, duvar_paneli) :=
    veri_ekle_Malzemeler "Duvar Paneli" "Yapısal" "m2" (5 # 100)
                         "Prefabric ev duvar paneli" d in
  let '(d, cati_paneli) :=
    veri_ekle_Malzemeler "Çatı Paneli" "Yapısal" "m2" (7 # 100)
                         "Prefabric ev çatı paneli" d in
  let '(d, fayans) :=
    veri_ekle_Malzemeler "Fayans" "Zemin Kaplama" "m2" (10 # 100)
                         "Standart seramik fayans" d in
  let '(d, laminat_parke) :=
    veri_ekle_Malzemeler "Laminat Parke" "Zemin Kaplama" "m2" (7 # 100)
                         "8mm laminat parke" d in
  let '(d, boya) :=
    veri_ekle_Malzemeler "Boya" "Duvar Kaplama" "litre" (5 # 100)
                         "Su bazlı iç cephe boyası" d in
  let '(d, pvc_pencere) :=
    veri_ekle_Malzemeler "PVC Pencere" "Doğrama" "adet" 0
                         "Isıcamlı PVC pencere" d in
  let '(d, ic_kapi) :=
    veri_ekle_Malzemeler "İç Kapı" "Doğrama" "adet" 0
                         "Panel iç oda kapısı" d in
  let '(d, dis_kapi) :=
    veri_ekle_Malzemeler "Dış Kapı" "Doğrama" "adet" 0 "Çelik dış kapı" d in
  sirayla
    [ varsa duvar_paneli (fiyat_ekle current_date 120 "A Panel");
      varsa cati_paneli (fiyat_ekle current_date 150 "B Çatı");
      varsa fayans (fiyat_ekle current_date 50 "C Yapı");
      varsa laminat_parke (fiyat_ekle current_date 80 "D Zemin");
      varsa boya (fiyat_ekle current_date 50 "E Boya");
      varsa pvc_pencere (fiyat_ekle current_date 1500 "F Pencere");
      varsa ic_kapi (fiyat_ekle current_date 800 "G Kapı");
      varsa dis_kapi (fiyat_ekle current_date 2000 "G Kapı");
      varsa boya (sarfiyat_ekle "Duvar" (15 # 100) "litre/m2");
      varsa fayans
            (detay_ekle "Banyo" "Zemin" "Fayans"
                        (Ornek.json_uye "fayans_boyut_m2" "0.09"));
      varsa fayans
            (detay_ekle "Mutfak" "Zemin" "Fayans"
                        (Ornek.json_uye "fayans_boyut_m2" "0.09"));
      varsa boya
            (detay_ekle "Salon" "Duvar" "Boya"
                        (Ornek.json_uye "kat_sayisi" "2"));
      varsa boya
            (detay_ekle "Yatak Odası" "Duvar" "Boya"
                        (Ornek.json_uye "kat_sayisi" "2"));
      varsa laminat_parke
            (detay_ekle "Salon" "Zemin" "Laminat Parke" "{}") ]
    d.

(** The file before the first start: empty tables, no identifier handed
    out. *)
Definition bos_depo : Depo :=
  {| tablolar := Ornek.bos_katalog;
     sira_Malzemeler := 0; sira_Fiyatlar := 0;
     sira_Sarfiyatlar := 0; sira_UygulamaDetaylari := 0 |}.

(** [str.replace(old, new)] for an [old] that is not empty: the
    occurrences from the left that do not overlap. *)
Fixpoint replace_from (old new : string) (atla : nat) (s : string) : string :=
  match s with
  | EmptyString => EmptyString
  | String c s' =>
      match atla with
      | S k => replace_from old new k s'
      | O =>
          if String.prefix old s
          then (new ++ replace_from old new (String.length old - 1) s')
          else String c (replace_from old new 0 s')
      end
  end.

Definition str_replace (old new s : string) : string := replace_from old new 0 s.

(** A row of the price page. *)
Record FiyatSatiri : Type := {
  satir_malzeme_id : Z;
  satir_malzeme_adi : string;
  satir_birim_olcu_tipi : string;
  satir_birim_fiyat : option Q;
  satir_gecerlilik_tarihi : option string
}.

(** [ROW_NUMBER() OVER (PARTITION BY malzeme_id ORDER BY
    gecerlilik_tarihi DESC, fiyat_id DESC)]: the rows of a partition in
    the order of the window. *)
Fixpoint pencereye_ekle (f : Tablo.Fiyat) (l : list Tablo.Fiyat)
    : list Tablo.Fiyat :=
  match l with
  | [] => [f]
  | g :: l' =>
      if Tablo.once_gelir g f then g :: pencereye_ekle f l' else f :: g :: l'
  end.

Definition pencere_sirasi (rows : list Tablo.Fiyat) : list Tablo.Fiyat :=
  fold_right pencereye_ekle [] rows.

(** The row of a material with [rn = 1], if it has a price row. *)
Definition birinci (db : Tablo.Veritabani) (malzeme_id : Z) : option Tablo.Fiyat :=
  hd_error (pencere_sirasi
              (filter (fun f => (Tablo.fiyat_malzeme_id f =? malzeme_id)%Z)
                      (Tablo.Fiyatlar db))).

(** [M LEFT JOIN F ON M.malzeme_id = F.malzeme_id AND F.rn = 1] for one
    material. *)
Definition fiyat_satiri (db : Tablo.Veritabani) (m : Tablo.Malzeme) : FiyatSatiri :=
  {| satir_malzeme_id := Tablo.malzeme_id m;
     satir_malzeme_adi := Tablo.malzeme_adi m;
     satir_birim_olcu_tipi := Tablo.birim_olcu_tipi m;
     satir_birim_fiyat :=
       option_map Tablo.birim_fiyat (birinci db (Tablo.malzeme_id m));
     satir_gecerlilik_tarihi :=
       option_map Tablo.gecerlilik_tarihi (birinci db (Tablo.malzeme_id m)) |}.

(** [ORDER BY M.malzeme_adi]. *)
Fixpoint ada_gore_ekle (r : FiyatSatiri) (l : list FiyatSatiri) : list FiyatSatiri :=
  match l with
  | [] => [r]
  | s :: l' =>
      if String.leb (satir_malzeme_adi r) (satir_malzeme_adi s)
      then r :: s :: l' else s :: ada_gore_ekle r l'
  end.

(** The query of [get_admin_fiyatlar], which [post_admin_fiyatlar]
    repeats when it shows the page again. *)
Definition malzemeler_ve_fiyatlar (db : Tablo.Veritabani) : list FiyatSatiri :=
  fold_right ada_gore_ekle [] (map (fiyat_satiri db) (Tablo.Malzemeler db)).

(** What [post_admin_fiyatlar] answers: the redirect to the price page,
    or the page again, with its rows, under the message of a
    [ValueError] or under the message of another exception. *)
Inductive FiyatYaniti : Type :=
| Yonlendirme
| GecersizFiyat (malzemeler : list FiyatSatiri)
| FiyatHatasi (e : Istisna) (malzemeler : list FiyatSatiri).

(** A value of the form: a text, or an uploaded file. *)
Inductive FormDegeri : Type :=
| Yazi (s : string)
| Dosya.

(** [form_data.items()]: the fields as sent may repeat a name; the
    items hold each name once, at the place of its first field, with
    the value of its last. *)
Definition form_items (alanlar : list (string * FormDegeri))
    : list (string * FormDegeri) :=
  fold_left (fun d kv => Py.set (fst kv) (snd kv) d) alanlar [].

Section FiyatGuncelleme.

(** [float(text)] and [int(text)]; [None] is the [ValueError]. *)
Variable float_of_str : string -> option Okunan.
Variable int_of_str : string -> option Z.

(** The integer a text bound to [malzeme_id = ?] is compared as: the
    column has integer affinity, so SQLite converts a text that looks
    like a number; a text that does not equals no row. *)
Variable sqlite_tamsayi : string -> option Z.

(** The day of the request. *)
Variable today_date : string.

(** [float(value)]: a file is no text and no number. *)
Definition float_of (value : FormDegeri) : Dinamik.Exc Okunan :=
  match value with
  | Yazi s =>
      match float_of_str s with
      | Some x => Dinamik.Ok x
      | None => Dinamik.Raise ValueError
      end
  | Dosya => Dinamik.Raise TypeError
  end.

(** The row of the material for the day, if there is one: the first the
    query returns. *)
Definition existing_price_for_today (malzeme_id : string) (d : Depo)
    : option Tablo.Fiyat :=
  find (fun f =>
          match sqlite_tamsayi malzeme_id with
          | Some n => (Tablo.fiyat_malzeme_id f =? n)%Z
          | None => false
          end
          && String.eqb (Tablo.gecerlilik_tarihi f) today_date)
       (Tablo.Fiyatlar (tablolar d)).

(** One item of the form.  An exception is raised before anything is
    written for the item. *)
Definition fiyat_adimi (d : Depo) (kv : string * FormDegeri)
    : Dinamik.Exc Depo :=
  let '(key, value) := kv in
  if String.prefix "birim_fiyat_" key then
    let malzeme_id := str_replace "birim_fiyat_" "" key in
    Dinamik.bind (float_of value) (fun birim_fiyat =>
    match existing_price_for_today malzeme_id d with
    | Some existing =>
        Dinamik.Ok (fst (veri_guncelle_Fiyatlar birim_fiyat
                                                (Tablo.fiyat_id existing) d))
    | None =>
        match int_of_str malzeme_id with
        | None => Dinamik.Raise ValueError
        | Some mid =>
            Dinamik.bind (veri_ekle_Fiyatlar mid birim_fiyat today_date None d)
                         (fun r => Dinamik.Ok (fst r))
        end
    end)
  else Dinamik.Ok d.

(** The loop over [form_data.items()]: every write is committed when it
    is made, so an item that raises leaves the writes of the items
    before it. *)
Fixpoint fiyat_dongusu (items : list (string * FormDegeri)) (d : Depo)
    : Depo * option Istisna :=
  match items with
  | [] => (d, None)
  | kv :: rest =>
      match fiyat_adimi d kv with
      | Dinamik.Ok d' => fiyat_dongusu rest d'
      | Dinamik.Raise e => (d, Some e)
      end
  end.

(** [post_admin_fiyatlar] on a connection that opens and a body that
    parses, from the fields of the form as sent. *)
Definition post_admin_fiyatlar (form_data : list (string * FormDegeri))
    (d : Depo) : Depo * FiyatYaniti :=
  let '(d', hata) := fiyat_dongusu (form_items form_data) d in
  (d', match hata with
       | None => Yonlendirme
       | Some ValueError => GecersizFiyat (malzemeler_ve_fiyatlar (tablolar d'))
       | Some e => FiyatHatasi e (malzemeler_ve_fiyatlar (tablolar d'))
       end).

End FiyatGuncelleme.

(** At most one price row for a material and a day. *)
Definition tekil_gun (db : Tablo.Veritabani) : Prop :=
  NoDup (map (fun f => (Tablo.fiyat_malzeme_id f, Tablo.gecerlilik_tarihi f))
             (Tablo.Fiyatlar db)).

(** The names in the material table. *)
Definition adlar (d : Depo) : list string :=
  map Tablo.malzeme_adi (Tablo.Malzemeler (tablolar d)).

(** What a price update leaves alone in a price row. *)
Definition degismeyen (f : Tablo.Fiyat) : Z * Z * string * option string :=
  (Tablo.fiyat_id f, Tablo.fiyat_malzeme_id f, Tablo.gecerlilik_tarihi f,
   Tablo.tedarikci f).

(** The material has a price row of the day with the price. *)
Definition bugunku (today : string) (db : Tablo.Veritabani) (mid : Z) (q : Q)
    : Prop :=
  exists f, In f (Tablo.Fiyatlar db) /\ Tablo.fiyat_malzeme_id f = mid
            /\ Tablo.gecerlilik_tarihi f = today /\ Tablo.birim_fiyat f = q.

(** No price row of the material is dated after the day. *)
Definition gecmis (today : string) (db : Tablo.Veritabani) (mid : Z) : Prop :=
  forall g, In g (Tablo.Fiyatlar db) -> Tablo.fiyat_malzeme_id g = mid ->
            String.compare (Tablo.gecerlilik_tarihi g) today <> Gt.

(** The material a form key names, as the price query reads it. *)
Definition anahtar_malzemesi (sqlite_tamsayi : string -> option Z)
    (key : string) : option Z :=
  if String.prefix "birim_fiyat_" key
  then sqlite_tamsayi (str_replace "birim_fiyat_" "" key)
  else None.

(** The material a form key names has a price row of the day. *)
Definition bugun_var (sqlite_tamsayi : string -> option Z) (today : string)
    (db : Tablo.Veritabani) (key : string) : Prop :=
  exists f, In f (Tablo.Fiyatlar db)
            /\ sqlite_tamsayi (str_replace "birim_fiyat_" "" key)
               = Some (Tablo.fiyat_malzeme_id f)
            /\ Tablo.gecerlilik_tarihi f = today.

(** [int] and the price query read the identifier text of a form key
    alike, when [int] reads it. *)
Definition anahtar_uyumlu (int_of_str sqlite_tamsayi : string -> option Z)
    (key : string) : Prop :=
  forall n, int_of_str (str_replace "birim_fiyat_" "" key) = Some n ->
            sqlite_tamsayi (str_replace "birim_fiyat_" "" key) = Some n.

(** The same as a test. *)
Definition anahtar_uyumlu_mu (int_of_str sqlite_tamsayi : string -> option Z)
    (key : string) : bool :=
  match int_of_str (str_replace "birim_fiyat_" "" key) with
  | Some n =>
      match sqlite_tamsayi (str_replace "birim_fiyat_" "" key) with
      | Some m => (m =? n)%Z
      | None => false
      end
  | None => true
  end.

(** Concrete inputs for the properties of the rest of the code. *)
Module Ornekler.

Import Ornek Evler.
Local Open Scope string_scope.

(** The start-up catalog after two later prices for paint, entered out
    of order of their dates. *)
Definition zamli : Tablo.Veritabani :=
  {| Tablo.Malzemeler := malzemeler;
     Tablo.Fiyatlar :=
       fiyatlar
       ++ [ {| Tablo.fiyat_id := 9; Tablo.fiyat_malzeme_id := 5;
               Tablo.birim_fiyat := 60;
               Tablo.gecerlilik_tarihi := "2025-03-01";
               Tablo.tedarikci := None |};
            {| Tablo.fiyat_id := 10; Tablo.fiyat_malzeme_id := 5;
               Tablo.birim_fiyat := 55;
               Tablo.gecerlilik_tarihi := "2025-02-01";
               Tablo.tedarikci := None |} ];
     Tablo.Sarfiyatlar := sarfiyatlar;
     Tablo.UygulamaDetaylari := detaylar |}.

(** One room of 10 by 10 under a roof pitched at 120 degrees. *)
Definition genis_acili : EvBilgileri :=
  ev 1 "Beşik" 120 [oda "Salon" 10 10 3 "Laminat Parke" "Boya"] [] [].

(** [json.loads] on the literals, decimal numbers, texts without an
    escape, lists and objects; every other text is rejected. *)
Fixpoint on_ek_at (on s : string) : option string :=
  match on, s with
  | EmptyString, _ => Some s
  | String a on', String b s' => if Ascii.eqb a b then on_ek_at on' s' else None
  | String _ _, EmptyString => None
  end.

Fixpoint deger_oku (fuel : nat) (s : string) : option (Json * string) :=
  match fuel with
  | O => None
  | S n =>
      match bosluk_atla s with
      | String "[" s1 =>
          match bosluk_atla s1 with
          | String "]" s2 => Some (JListe [], s2)
          | _ =>
              (fix elemanlar (k : nat) (s : string) (acc : list Json)
                 : option (Json * string) :=
                 match k with
                 | O => None
                 | S k' =>
                     match deger_oku n s with
                     | Some (v, s') =>
                         match bosluk_atla s' with
                         | String "," s'' => elemanlar k' s'' (acc ++ [v])%list
                         | String "]" s'' => Some (JListe (acc ++ [v])%list, s'')
                         | _ => None
                         end
                     | None => None
                     end
                 end) n s1 []
          end
      | String "{" s1 =>
          match bosluk_atla s1 with
          | String "}" s2 => Some (JNesne [], s2)
          | _ =>
              (fix uyeler (k : nat) (s : string) (acc : list (string * Json))
                 : option (Json * string) :=
                 match k with
                 | O => None
                 | S k' =>
                     match bosluk_atla s with
                     | String c s1 =>
                         if Ascii.eqb c tirnak then
                           match anahtar_oku s1 with
                           | Some (key, s2) =>
                               match bosluk_atla s2 with
                               | String ":" s3 =>
                                   match deger_oku n s3 with
                                   | Some (v, s4) =>
                                       match bosluk_atla s4 with
                                       | String "," s5 =>
                                           uyeler k' s5 (Py.set key v acc)
                                       | String "}" s5 =>
                                           Some (JNesne (Py.set key v acc), s5)
                                       | _ => None
                                       end
                                   | None => None
                                   end
                               | _ => None
                               end
                           | None => None
                           end
                         else None
                     | EmptyString => None
                     end
                 end) n s1 []
          end
      | String c s1 as s0 =>
          if Ascii.eqb c tirnak then
            match anahtar_oku s1 with
            | Some (t, s2) => Some (JMetin t, s2)
            | None => None
            end
          else
            match on_ek_at "null" s0, on_ek_at "true" s0, on_ek_at "false" s0 with
            | Some r, _, _ => Some (JNull, r)
            | _, Some r, _ => Some (JBool true, r)
            | _, _, Some r => Some (JBool false, r)
            | _, _, _ =>
                match sayi_oku s0 with
                | Some (q, r) => Some (JSayi q, r)
                | None => None
                end
            end
      | EmptyString => None
      end
  end.

Definition json_oku (s : string) : option Json :=
  match deger_oku (S (String.length s)) s with
  | Some (v, r) => if String.eqb (bosluk_atla r) "" then Some v else None
  | None => None
  end.

(** The start-up catalog with a wall bag of the living room that is a
    list, and with a floor bag of the bathroom whose tile size is a
    text. *)
Definition katalog_liste : Tablo.Veritabani :=
  katalog_detayli [dty 3 "Salon" "Duvar" "Boya" 5 "[1, 2]"].

Definition katalog_metin : Tablo.Veritabani :=
  katalog_detayli
    [dty 1 "Banyo" "Zemin" "Fayans" 3
         (json_uye "fayans_boyut_m2" (String tirnak ("0.09" ++ String tirnak "")))].

(** The estimator and the handler under the dynamic checks, on the
    concrete library. *)
Definition ham_hesapla :=
  Dinamik.malzeme_ihtiyacini_hesapla cos radians json_oku lower float_str.
Definition ham_yanit :=
  Dinamik.calculate_cost cos radians json_oku lower float_str.

(** Two rooms with their own names, two windows and an entrance door. *)
Definition iki_odali : EvBilgileri :=
  ev 1 "Düz" 0
     [oda "Salon" 5 4 3 "Laminat Parke" "Boya";
      oda "Banyo" 3 3 2 "Fayans" "Yok"]
     [pencere 1 1 2] [kapi "Ana Giriş Kapısı" 1 2 1].

(** [str.strip] on ASCII text: blanks are the space and the characters
    9 to 13. *)
Definition bosluk_mu (c : ascii) : bool :=
  let n := nat_of_ascii c in
  (n =? 32)%nat || ((9 <=? n)%nat && (n <=? 13)%nat).

Fixpoint lstrip (s : string) : string :=
  match s with
  | EmptyString => EmptyString
  | String c s' => if bosluk_mu c then lstrip s' else s
  end.

Fixpoint rstrip (s : string) : string :=
  match s with
  | EmptyString => EmptyString
  | String c s' =>
      match rstrip s' with
      | EmptyString => if bosluk_mu c then EmptyString else String c EmptyString
      | r => String c r
      end
  end.

Definition strip (s : string) : string := rstrip (lstrip s).

(** A form with a blank room name, a window entry with count zero and a
    door entry with a negative count. *)
Definition form_ornek : Istek.Form :=
  {| Istek.ev_tipi := "Tek Katlı"; Istek.kat_sayisi := 1;
     Istek.cati_tipi := "Düz"; Istek.cati_egim_acisi := Sonlu 0;
     Istek.oda_adi := [" Salon "; "   "; "Banyo"];
     Istek.oda_uzunluk := [5; 1; 3];
     Istek.oda_genislik := [4; 1; 3];
     Istek.oda_yukseklik := [3; 1; 2];
     Istek.oda_zemin_kaplama := ["Laminat Parke"; "Fayans"; "Fayans"];
     Istek.oda_duvar_kaplama := ["Boya"; "Boya"; "Yok"];
     Istek.pencere_genislik := [1; 2];
     Istek.pencere_yukseklik := [1; 2];
     Istek.pencere_adet := [2; 0]%Z;
     Istek.kapi_adi := ["Ana Giriş Kapısı"; "Oda"];
     Istek.kapi_genislik := [1; 1];
     Istek.kapi_yukseklik := [2; 2];
     Istek.kapi_adet := [1; -1]%Z |}.

(** The same form without the heights of the rooms. *)
Definition form_eksik : Istek.Form :=
  {| Istek.ev_tipi := "Tek Katlı"; Istek.kat_sayisi := 1;
     Istek.cati_tipi := "Düz"; Istek.cati_egim_acisi := Sonlu 0;
     Istek.oda_adi := [" Salon "; "   "; "Banyo"];
     Istek.oda_uzunluk := [5; 1; 3];
     Istek.oda_genislik := [4; 1; 3];
     Istek.oda_yukseklik := [];
     Istek.oda_zemin_kaplama := ["Laminat Parke"; "Fayans"; "Fayans"];
     Istek.oda_duvar_kaplama := ["Boya"; "Boya"; "Yok"];
     Istek.pencere_genislik := [1; 2];
     Istek.pencere_yukseklik := [1; 2];
     Istek.pencere_adet := [2; 0]%Z;
     Istek.kapi_adi := ["Ana Giriş Kapısı"; "Oda"];
     Istek.kapi_genislik := [1; 1];
     Istek.kapi_yukseklik := [2; 2];
     Istek.kapi_adet := [1; -1]%Z |}.


(** [float] on plain decimal text and on [nan].  [int] on decimal
    digits, with single underscores between them as Python allows;
    SQLite reads plain decimal digits as an integer, and no other
    text. *)
Definition float_of_str (s : string) : option Okunan :=
  if String.eqb s "nan" then Some Belirsiz
  else match sayi_oku s with
       | Some (q, EmptyString) => Some (Tutar q)
       | _ => None
       end.

Fixpoint tamsayi_oku (s : string) (deger : Z) (rakamdan_sonra : bool)
    : option Z :=
  match s with
  | EmptyString => if rakamdan_sonra then Some deger else None
  | String c s' =>
      match rakam c with
      | Some r => tamsayi_oku s' (deger * 10 + r)%Z true
      | None =>
          if Ascii.eqb c "_" && rakamdan_sonra
          then tamsayi_oku s' deger false
          else None
      end
  end.

Definition int_of_str (s : string) : option Z := tamsayi_oku s 0%Z false.

Definition sqlite_tamsayi (s : string) : option Z :=
  match rakamlari_oku s 0%Z 1%Z with
  | (n, us, EmptyString) => if (us =? 1)%Z then None else Some n
  | _ => None
  end.

(** The file after a first start, and a price form sent the day after:
    a price for paint, a field that is not a price, a price for the
    wall panel, and the field of the paint once more. *)
Definition ilk_depo : Depo := startup_event current_date bos_depo.

Definition ertesi_gun : string := "2025-01-02".

Definition fiyat_formu : list (string * FormDegeri) :=
  [("birim_fiyat_5", Yazi "60"); ("csrf_token", Yazi "x");
   ("birim_fiyat_1", Yazi "130"); ("birim_fiyat_5", Yazi "65")].

(** A form with a price that is not a number in the middle. *)
Definition bozuk_fiyat_formu : list (string * FormDegeri) :=
  [("birim_fiyat_5", Yazi "65"); ("birim_fiyat_1", Yazi "yüz");
   ("birim_fiyat_2", Yazi "160")].

(** Forms with a file for a price, with an identifier beyond 64 bits,
    with an identifier [int] reads and SQLite does not, and with a
    price that reads [nan]. *)
Definition dosyali_form : list (string * FormDegeri) :=
  [("birim_fiyat_5", Yazi "65"); ("birim_fiyat_1", Dosya)].

Definition tasan_form : list (string * FormDegeri) :=
  [("birim_fiyat_9223372036854775808", Yazi "65")].

Definition alt_cizgili_form : list (string * FormDegeri) :=
  [("birim_fiyat_0_5", Yazi "70")].

Definition belirsiz_form : list (string * FormDegeri) :=
  [("birim_fiyat_5", Yazi "nan")].

Definition fiyat_gonder :=
  post_admin_fiyatlar float_of_str int_of_str sqlite_tamsayi ertesi_gun.

End Ornekler.

(* ------------------------------------------------------------------ *)
(** ** Dictionaries and strings: basic facts                           *)
(* ------------------------------------------------------------------ *)

Module PyFacts.

Import Py.

Lemma lt_spec (x y : Q) : lt x y = true <-> x < y.
Proof.
  unfold lt. rewrite negb_true_iff. split; intros H.
  - apply Qnot_le_lt. intros Hle. apply Qle_bool_iff in Hle. congruence.
  - destruct (Qle_bool y x) eqn:E; [|reflexivity].
    apply Qle_bool_iff in E. exfalso. apply (Qlt_not_le _ _ H E).
Qed.

Lemma lt_false (x y : Q) : lt x y = false <-> y <= x.
Proof.
  unfold lt. rewrite negb_false_iff. apply Qle_bool_iff.
Qed.

Lemma get_set_same {V} (k : string) (v : V) (d : dict V) :
  get k (set k v d) = Some v.
Proof.
  induction d as [|[k' v'] d IH]; simpl.
  - now rewrite String.eqb_refl.
  - destruct (String.eqb k' k) eqn:E; simpl; rewrite E; auto.
Qed.

Lemma get_set_other {V} (k k0 : string) (v : V) (d : dict V) :
  k <> k0 -> get k0 (set k v d) = get k0 d.
Proof.
  intros Hne. induction d as [|[k' v'] d IH]; simpl.
  - destruct (String.eqb_spec k k0); congruence.
  - destruct (String.eqb_spec k' k) as [->|Hk]; simpl.
    + destruct (String.eqb_spec k k0); congruence.
    + destruct (String.eqb k' k0); auto.
Qed.

Lemma get_None_keys {V} (k : string) (d : dict V) :
  get k d = None <-> ~ In k (keys d).
Proof.
  induction d as [|[k' v'] d IH]; simpl.
  - tauto.
  - destruct (String.eqb_spec k' k) as [->|Hk].
    + split; [discriminate | tauto].
    + rewrite IH. tauto.
Qed.

(** Assigning to a new key appends. *)
Lemma set_new {V} (k : string) (v : V) (d : dict V) :
  ~ In k (keys d) -> set k v d = (d ++ [(k, v)])%list.
Proof.
  induction d as [|[k' v'] d IH]; simpl; intros Hn.
  - reflexivity.
  - destruct (String.eqb_spec k' k) as [->|Hk]; [tauto|].
    rewrite IH; tauto.
Qed.

(** Assigning never changes the keys already there, nor their order. *)
Lemma keys_set {V} (k : string) (v : V) (d : dict V) :
  keys (set k v d) = if in_dec string_dec k (keys d) then keys d
                     else (keys d ++ [k])%list.
Proof.
  induction d as [|[k' v'] d IH]; simpl.
  - reflexivity.
  - destruct (String.eqb_spec k' k) as [->|Hk]; simpl.
    + destruct (string_dec k k); [reflexivity | congruence].
    + rewrite IH. destruct (string_dec k' k); [congruence|].
      destruct (in_dec string_dec k (keys d)); reflexivity.
Qed.

Lemma in_set {V} (k : string) (v : V) (d : dict V) (e : string * V) :
  In e (set k v d) -> e = (k, v) \/ In e d.
Proof.
  induction d as [|[k' v'] d IH]; simpl.
  - intuition auto.
  - destruct (String.eqb_spec k' k) as [->|Hk]; simpl; intuition auto.
Qed.

Lemma Forall_set {V} (P : string * V -> Prop) (k : string) (v : V) (d : dict V) :
  P (k, v) -> Forall P d -> Forall P (set k v d).
Proof.
  intros Hk Hd. apply Forall_forall. intros e He.
  destruct (in_set _ _ _ _ He) as [->|Hin]; [assumption|].
  rewrite Forall_forall in Hd. now apply Hd.
Qed.

Lemma prefix_spec (p s : string) :
  String.prefix p s = true <-> exists r, s = (p ++ r)%string.
Proof.
  revert s. induction p as [|c p IH]; intros s.
  - split; [intros _; now exists s | destruct s; reflexivity].
  - destruct s as [|c' s]; simpl.
    + split; [discriminate | intros [r Hr]; discriminate].
    + destruct (Ascii.ascii_dec c c') as [->|Hc].
      * rewrite IH. split; intros [r Hr]; exists r; congruence.
      * split; [discriminate | intros [r Hr]; congruence].
Qed.

Lemma contains_eq (needle hay : string) :
  contains needle hay =
  if String.prefix needle hay then true
  else match hay with
       | EmptyString => false
       | String _ hay' => contains needle hay'
       end.
Proof. destruct hay; reflexivity. Qed.

(** [needle in hay] holds exactly when [hay] is some text, the needle,
    some text. *)
Lemma contains_spec (needle hay : string) :
  contains needle hay = true <-> exists a b, hay = (a ++ needle ++ b)%string.
Proof.
  induction hay as [|c hay IH]; rewrite contains_eq.
  - destruct (String.prefix needle "") eqn:E.
    + split; [intros _|reflexivity].
      apply prefix_spec in E. destruct E as [r Hr]. now exists ""%string, r.
    + split; [discriminate|]. intros [a [b Hab]].
      assert (String.prefix needle "" = true); [|congruence].
      apply prefix_spec. exists b. destruct a; [assumption|discriminate].
  - destruct (String.prefix needle (String c hay)) eqn:E.
    + split; [intros _|reflexivity].
      apply prefix_spec in E. destruct E as [r Hr]. now exists ""%string, r.
    + rewrite IH. split.
      * intros [a [b Hab]]. exists (String c a), b. simpl. now rewrite Hab.
      * intros [a [b Hab]]. destruct a as [|c' a].
        -- assert (String.prefix needle (String c hay) = true); [|congruence].
           apply prefix_spec. now exists b.
        -- simpl in Hab. injection Hab as _ Hab. now exists a, b.
Qed.

Lemma sum_app (l1 l2 : list Q) : sum (l1 ++ l2) == sum l1 + sum l2.
Proof.
  unfold sum. rewrite fold_left_app. generalize (fold_left Qplus l1 0). 
  induction l2 as [|x l2 IH]; intros acc; simpl.
  - lra.
  - rewrite IH. rewrite (IH (0 + x)). lra.
Qed.

End PyFacts.

(** When the catalog lookup finds nothing. *)
Module TabloFacts.

Import Tablo.

Lemma filter_bos {A} (f : A -> bool) (l : list A) :
  filter f l = [] <-> Forall (fun x => f x = false) l.
Proof.
  induction l as [|x l IH]; simpl.
  - split; auto.
  - destruct (f x) eqn:E.
    + split; [discriminate|]. intros H. inversion H; congruence.
    + rewrite IH. split; intros H; [now constructor | now inversion H].
Qed.


Lemma guncel_fiyat_yok (rows : list Fiyat) :
  guncel_fiyat rows = None <-> rows = [].
Proof.
  unfold guncel_fiyat. destruct rows as [|f rows]; simpl.
  - split; reflexivity.
  - split; [|discriminate]. intros H. exfalso. revert f H.
    induction rows as [|g rows IH]; intros f; simpl; [discriminate|].
    destruct (once_gelir g f); apply IH.
Qed.

(** No current price: no price row belongs to the material. *)
Lemma fiyat_yok (db : Veritabani) (ad : string) (info : MalzemeBilgisi) :
  malzeme_bilgisi_getir db ad = Some info ->
  (fiyat info = None <->
   Forall (fun f => fiyat_malzeme_id f <> malzeme_id (malzeme info)) (Fiyatlar db)).
Proof.
  unfold malzeme_bilgisi_getir.
  destruct (match filter _ (Malzemeler db) with [] => _ | _ => _ end) as [|m r];
    [discriminate|].
  intros [= <-]. simpl. rewrite guncel_fiyat_yok, filter_bos.
  split; intros H; apply Forall_impl with (2 := H); intros f Hf.
  - now apply Z.eqb_neq.
  - now apply Z.eqb_neq.
Qed.

End TabloFacts.

(* ------------------------------------------------------------------ *)
(** ** Geometry                                                        *)
(* ------------------------------------------------------------------ *)

Section Geometri.

Local Open Scope string_scope.

Variable math_cos : Q -> Q.
Variable math_radians : Q -> Q.

Local Abbreviation alan_hesapla := (_alan_hesapla math_cos math_radians).

Lemma son_oda_None (ad : string) (odalar : list Oda) :
  son_oda ad odalar = None <-> Forall (fun o => oda_adi o <> ad) odalar.
Proof.
  induction odalar as [|x l IH]; simpl.
  - split; auto.
  - destruct (son_oda ad l) as [o'|].
    + split; [discriminate|]. intros H. inversion H; subst.
      assert (Some o' = None) by (now apply IH). discriminate.
    + destruct (String.eqb_spec (oda_adi x) ad) as [Hx|Hx].
      * split; [discriminate|]. intros H. inversion H; subst. tauto.
      * split; [|reflexivity]. intros _. constructor; [assumption|now apply IH].
Qed.

Lemma son_oda_app (ad : string) (l1 l2 : list Oda) :
  son_oda ad (l1 ++ l2) =
  match son_oda ad l2 with
  | Some o => Some o
  | None => son_oda ad l1
  end.
Proof.
  induction l1 as [|x l1 IH]; simpl.
  - destruct (son_oda ad l2); reflexivity.
  - rewrite IH. destruct (son_oda ad l2); reflexivity.
Qed.

(** [son_oda] is the room after which no room of the list has the name. *)
Lemma son_oda_spec (ad : string) (odalar : list Oda) (o : Oda) :
  son_oda ad odalar = Some o <->
  exists once sonra, odalar = (once ++ o :: sonra)%list /\ oda_adi o = ad
                     /\ Forall (fun o' => oda_adi o' <> ad) sonra.
Proof.
  split.
  - revert o. induction odalar as [|x l IH]; intros o; simpl; [discriminate|].
    destruct (son_oda ad l) as [o'|] eqn:E.
    + intros [= <-]. destruct (IH o' eq_refl) as (l1 & l2 & -> & Hn & Hf).
      now exists (x :: l1)%list, l2.
    + destruct (String.eqb_spec (oda_adi x) ad) as [Hx|Hx]; [|discriminate].
      intros [= <-]. exists []%list, l. repeat split; auto.
      now apply son_oda_None.
  - intros (l1 & l2 & -> & Hn & Hf). rewrite son_oda_app. simpl.
    apply son_oda_None in Hf. rewrite Hf.
    apply String.eqb_eq in Hn. now rewrite Hn.
Qed.

Lemma son_oda_In (odalar : list Oda) (o : Oda) :
  In o odalar -> exists o', son_oda (oda_adi o) odalar = Some o'.
Proof.
  induction odalar as [|x l IH]; simpl; [tauto|].
  intros [->|Hin].
  - destruct (son_oda (oda_adi o) l); eauto. rewrite String.eqb_refl. eauto.
  - destruct (IH Hin) as [o' ->]. eauto.
Qed.

(** The room loop of [_alan_hesapla], from any accumulator. *)
Lemma oda_dongusu (odalar : list Oda) (d : Py.dict OdaAlani) (t b : Q) :
  fold_left oda_alani_ekle odalar (d, t, b) =
  (fold_left (fun d o => Py.set (oda_adi o) (oda_alani o) d) odalar d,
   fold_left Qplus (map (fun o => uzunluk o * genislik o) odalar) t,
   fold_left Qplus
     (map (fun o => 2 * (uzunluk o + genislik o) * yukseklik o) odalar) b).
Proof.
  revert d t b. induction odalar as [|o l IH]; intros d t b; simpl.
  - reflexivity.
  - apply IH.
Qed.

Lemma oda_sozlugu (ad : string) (odalar : list Oda) (d : Py.dict OdaAlani) :
  Py.get ad (fold_left (fun d o => Py.set (oda_adi o) (oda_alani o) d) odalar d) =
  match son_oda ad odalar with
  | Some o => Some (oda_alani o)
  | None => Py.get ad d
  end.
Proof.
  revert d. induction odalar as [|o l IH]; intros d; simpl.
  - reflexivity.
  - rewrite IH. destruct (son_oda ad l); [reflexivity|].
    destruct (String.eqb_spec (oda_adi o) ad) as [<-|Hne].
    + apply PyFacts.get_set_same.
    + now apply PyFacts.get_set_other.
Qed.

Lemma alanlar_eq (ev : EvBilgileri) :
  let odalar := oda_listesi ev in
  let taban := fold_left Qplus (map (fun o => uzunluk o * genislik o) odalar) 0 in
  alan_hesapla ev =
  {| toplam_pencere_alani :=
       Py.sum (map (fun p => pencere_genislik p * pencere_yukseklik p
                             * inject_Z (pencere_adet p)) (pencere_listesi ev));
     toplam_kapi_alani :=
       Py.sum (map (fun k => kapi_genislik k * kapi_yukseklik k
                             * inject_Z (kapi_adet k)) (kapi_listesi ev));
     oda_alanlari :=
       fold_left (fun d o => Py.set (oda_adi o) (oda_alani o) d) odalar [];
     toplam_taban_alani := taban;
     toplam_duvar_alani_brut :=
       fold_left Qplus
         (map (fun o => 2 * (uzunluk o + genislik o) * yukseklik o) odalar) 0;
     cati_alani_taban := taban_alani_her_kat ev taban;
     cati_alani :=
       cati_alani_hesapla math_cos math_radians ev (taban_alani_her_kat ev taban) |}.
Proof.
  unfold _alan_hesapla. rewrite oda_dongusu. reflexivity.
Qed.

Lemma oda_alanlari_get (ev : EvBilgileri) (ad : string) :
  Py.get ad (oda_alanlari (alan_hesapla ev)) =
  option_map oda_alani (son_oda ad (oda_listesi ev)).
Proof.
  rewrite alanlar_eq. simpl. rewrite oda_sozlugu.
  destruct (son_oda ad (oda_listesi ev)); reflexivity.
Qed.

(** C9. The roof footprint is the total floor area divided by the floor
    count, and the total floor area itself when the floor count is not
    positive.  The roof area is the footprint when the roof type is
    ["Düz"] (flat) or the pitch is not positive; otherwise it is the
    footprint divided by the cosine of the pitch in radians, and twice
    the footprint when the absolute value of that cosine is below
    0.001. *)
Theorem C9_cati_alani (ev : EvBilgileri) :
  let a := alan_hesapla ev in
  let taban := cati_alani_taban a in
  let c := math_cos (math_radians (cati_egim_acisi ev)) in
  ((0 < kat_sayisi ev)%Z ->
     taban = toplam_taban_alani a / inject_Z (kat_sayisi ev)) /\
  ((kat_sayisi ev <= 0)%Z -> taban = toplam_taban_alani a) /\
  (cati_tipi ev = "Düz" \/ cati_egim_acisi ev <= 0 -> cati_alani a = taban) /\
  (cati_tipi ev <> "Düz" -> 0 < cati_egim_acisi ev ->
     Qabs c < 1 # 1000 -> cati_alani a = taban * 2) /\
  (cati_tipi ev <> "Düz" -> 0 < cati_egim_acisi ev ->
     1 # 1000 <= Qabs c -> cati_alani a = taban / c).
Proof.
  rewrite alanlar_eq. cbn [cati_alani_taban toplam_taban_alani cati_alani].
  unfold taban_alani_her_kat, cati_alani_hesapla.
  repeat split.
  - intros H. apply Z.ltb_lt in H. now rewrite H.
  - intros H. apply Z.ltb_ge in H. now rewrite H.
  - intros [H|H].
    + rewrite H, String.eqb_refl. reflexivity.
    + apply PyFacts.lt_false in H. rewrite H, andb_false_r. reflexivity.
  - intros Ht He Hc. apply String.eqb_neq in Ht. apply PyFacts.lt_spec in He, Hc.
    now rewrite Ht, He, Hc.
  - intros Ht He Hc. apply String.eqb_neq in Ht. apply PyFacts.lt_spec in He.
    apply PyFacts.lt_false in Hc. now rewrite Ht, He, Hc.
Qed.

End Geometri.

(* ------------------------------------------------------------------ *)
(** ** The lines of the estimator                                      *)
(* ------------------------------------------------------------------ *)

Lemma fayans_boyutu_spec (malzeme : Tablo.Malzeme) (ek : Py.dict Q) (b : Q) :
  fayans_boyutu malzeme ek = Some b <->
  Tablo.malzeme_adi malzeme = "Fayans"%string
  /\ Py.get "fayans_boyut_m2" ek = Some b /\ 0 < b.
Proof.
  unfold fayans_boyutu.
  destruct (String.eqb_spec (Tablo.malzeme_adi malzeme) "Fayans"%string) as [Hn|Hn].
  - destruct (Py.get "fayans_boyut_m2" ek) as [b'|].
    + destruct (Py.lt 0 b') eqn:E.
      * apply PyFacts.lt_spec in E. split.
        -- intros [= <-]. auto.
        -- intros (_ & [= <-] & _). reflexivity.
      * apply PyFacts.lt_false in E. split; [discriminate|].
        intros (_ & [= <-] & Hb). exfalso. apply (Qlt_not_le _ _ Hb E).
    + split; [discriminate | intros (_ & H & _); discriminate].
  - split; [discriminate | tauto].
Qed.

Section Kalemler.

Local Open Scope string_scope.

Variable json_loads : string -> option (Py.dict Q).
Variable db : Tablo.Veritabani.

Local Abbreviation ek_ozellikler := (ek_ozellikler_getir json_loads db).

Lemma zemin_kaplama_eq (oda : Oda) (z : Q) (st : Durum) info fiyat :
  fiyatli db (zemin_kaplama_tipi oda) = Some (info, fiyat) ->
  let k := zemin_kalemi z (Tablo.malzeme info) fiyat
                        (ek_ozellikler (oda_adi oda) "Zemin") in
  zemin_kaplama json_loads db oda z st =
  topla (maliyet k)
        (yaz (zemin_etiketi (oda_adi oda) (Tablo.malzeme_adi (Tablo.malzeme info)))
             k st).
Proof.
  intros H. unfold zemin_kaplama, zemin_kalemi. rewrite H.
  destruct (fayans_boyutu _ _); reflexivity.
Qed.



End Kalemler.

Section Kapilar.

Local Open Scope string_scope.

Variable str_lower : string -> string.
Variable float_str : Q -> string.
Variable db : Tablo.Veritabani.

(** C8 (amended). A door is in the exterior category ["Dış Kapı"] exactly
    when its lower-cased name contains ["ana giriş"], and in the interior
    category ["İç Kapı"] otherwise; the door line is priced from the
    material of that category. *)
Theorem C8_kapi_kategorisi (kapi : Kapi) :
  let dis := exists a b, str_lower (kapi_adi kapi) = a ++ "ana giriş" ++ b in
  (kategori_kapi str_lower kapi = "Dış Kapı" <-> dis)
  /\ (kategori_kapi str_lower kapi = "İç Kapı" <-> ~ dis)
  /\ (forall i st info fiyat,
        fiyatli db (kategori_kapi str_lower kapi) = Some (info, fiyat) ->
        Py.get (kapi_etiketi float_str i kapi)
               (malzeme_ihtiyaclari (kapi_adimi str_lower float_str db st (i, kapi)))
        = Some (adet_kalemi (kapi_adet kapi) fiyat)).
Proof.
  cbv zeta.
  assert (Hstep : forall i st info fiyat,
             fiyatli db (kategori_kapi str_lower kapi) = Some (info, fiyat) ->
             Py.get (kapi_etiketi float_str i kapi)
                    (malzeme_ihtiyaclari (kapi_adimi str_lower float_str db st (i, kapi)))
             = Some (adet_kalemi (kapi_adet kapi) fiyat)).
  { intros i st info fiyat H. unfold kapi_adimi. rewrite H.
    apply PyFacts.get_set_same. }
  split; [|split; [|exact Hstep]]; clear Hstep; unfold kategori_kapi;
    pose proof (PyFacts.contains_spec "ana giriş" (str_lower (kapi_adi kapi))) as Hc;
    destruct (Py.contains "ana giriş" (str_lower (kapi_adi kapi))).
  - split; [intros _; now apply Hc | reflexivity].
  - split; [discriminate | intros H; apply Hc in H; discriminate].
  - split; [discriminate | intros Hn; exfalso; apply Hn; now apply Hc].
  - split; [intros _ H; apply Hc in H; discriminate | reflexivity].
Qed.

End Kapilar.

Section NetAlanlar.

Local Open Scope string_scope.

Variable math_cos : Q -> Q.
Variable math_radians : Q -> Q.
Variable json_loads : string -> option (Py.dict Q).
Variable db : Tablo.Veritabani.

Local Abbreviation alan_hesapla := (_alan_hesapla math_cos math_radians).

(** C10. With rooms that share a name the totals still add every room of
    the list, the per-room dictionary holds under a name the areas of
    the last room of that name (the one after which no room of the list
    has the name), and the body of the room loop computes the floor and
    the wall covering of every room of that name from the areas of that
    last room. *)
Theorem C10_ayni_adli_odalar (ev : EvBilgileri) :
  let a := alan_hesapla ev in
  let odalar := oda_listesi ev in
  toplam_taban_alani a = Py.sum (map (fun o => uzunluk o * genislik o) odalar)
  /\ toplam_duvar_alani_brut a
     = Py.sum (map (fun o => 2 * (uzunluk o + genislik o) * yukseklik o) odalar)
  /\ (forall ad, Py.get ad (oda_alanlari a) = option_map oda_alani (son_oda ad odalar))
  /\ (forall ad o,
        son_oda ad odalar = Some o <->
        exists once sonra,
          odalar = (once ++ o :: sonra)%list /\ oda_adi o = ad
          /\ Forall (fun o' => oda_adi o' <> ad) sonra)
  /\ (forall o st, In o odalar ->
        exists son,
          son_oda (oda_adi o) odalar = Some son
          /\ oda_adimi json_loads db a st o =
             duvar_kaplama json_loads db o
               (oda_duvar_alani_net a (2 * (uzunluk son + genislik son) * yukseklik son))
               (zemin_kaplama json_loads db o (uzunluk son * genislik son) st)).
Proof.
  cbv zeta. split; [|split; [|split; [|split]]].
  - rewrite alanlar_eq. reflexivity.
  - rewrite alanlar_eq. reflexivity.
  - intros ad. apply oda_alanlari_get.
  - intros ad o. apply son_oda_spec.
  - intros o st Hin. destruct (son_oda_In _ _ Hin) as [son Hson].
    exists son. split; [assumption|].
    unfold oda_adimi, Py.index. rewrite oda_alanlari_get, Hson. reflexivity.
Qed.

(** C5 (amended). The net wall area of the panels is the gross wall area
    less the window and door areas, and zero when that difference is
    negative; the net wall area of a room is its gross area less its
    share of the openings, and zero when the share exceeds the gross
    area.  Neither is ever negative, and they are the net quantities of
    the wall panel line and of the wall covering lines.  The other net
    quantities are not clamped: the roof line carries the roof area as
    it is, and a floor line the floor area of the room as it is. *)
Theorem C5_net_alanlar (ev : EvBilgileri) :
  let a := alan_hesapla ev in
  let acik := toplam_duvar_alani_brut a - toplam_pencere_alani a
              - toplam_kapi_alani a in
  let pay brut :=
    if Py.lt 0 (toplam_duvar_alani_brut a)
    then (brut / toplam_duvar_alani_brut a)
         * (toplam_pencere_alani a + toplam_kapi_alani a)
    else 0 in
  0 <= net_duvar_alani_paneller_icin a
  /\ net_duvar_alani_paneller_icin a == Qmax 0 acik
  /\ (forall brut, 0 <= oda_duvar_alani_net a brut
                   /\ oda_duvar_alani_net a brut == Qmax 0 (brut - pay brut))
  /\ (forall st info fiyat,
        fiyatli db "Duvar Paneli" = Some (info, fiyat) ->
        exists k,
          Py.get "Duvar Paneli (Toplam)" (malzeme_ihtiyaclari (duvar_paneli db a st))
          = Some k
          /\ net_miktar k = Sayi (net_duvar_alani_paneller_icin a))
  /\ (forall oda net malzeme fiyat s,
        net_miktar (duvar_kalemi net malzeme fiyat) = Sayi net
        /\ net_miktar (boya_kalemi json_loads db oda net malzeme fiyat s) = Sayi net)
  /\ (forall st info fiyat,
        fiyatli db "Çatı Paneli" = Some (info, fiyat) ->
        exists k,
          Py.get "Çatı Kaplama (Toplam)" (malzeme_ihtiyaclari (cati_kaplama db a st))
          = Some k
          /\ net_miktar k = Sayi (cati_alani a))
  /\ (forall oda z st info fiyat,
        fiyatli db (zemin_kaplama_tipi oda) = Some (info, fiyat) ->
        exists k,
          Py.get (zemin_etiketi (oda_adi oda)
                                (Tablo.malzeme_adi (Tablo.malzeme info)))
                 (malzeme_ihtiyaclari (zemin_kaplama json_loads db oda z st))
          = Some k
          /\ net_miktar k = Sayi z).
Proof.
  assert (Hk : forall x, 0 <= sifira_kirp x /\ sifira_kirp x == Qmax 0 x).
  { intros x. unfold sifira_kirp. destruct (Py.lt x 0) eqn:E.
    - apply PyFacts.lt_spec in E. split; [lra|].
      rewrite Q.max_l; [reflexivity | lra].
    - apply PyFacts.lt_false in E. split; [assumption|].
      rewrite Q.max_r; [reflexivity | assumption]. }
  cbv zeta. split; [|split; [|split; [|split; [|split; [|split]]]]].
  - apply Hk.
  - apply Hk.
  - intros brut. split; apply Hk.
  - intros st info fiyat H. unfold duvar_paneli. rewrite H. eexists. split.
    + apply PyFacts.get_set_same.
    + reflexivity.
  - intros oda net malzeme fiyat s. split; reflexivity.
  - intros st info fiyat H. unfold cati_kaplama. rewrite H. eexists. split.
    + apply PyFacts.get_set_same.
    + reflexivity.
  - intros oda z st info fiyat H. unfold zemin_kaplama. rewrite H.
    destruct (fayans_boyutu _ _); eexists;
      (split; [apply PyFacts.get_set_same | reflexivity]).
Qed.

End NetAlanlar.

(* ------------------------------------------------------------------ *)
(** ** Labels: when two of them can coincide                           *)
(* ------------------------------------------------------------------ *)

Module EtiketFacts.

Import Etiket.
Local Open Scope string_scope.

Local Abbreviation L := list_ascii_of_string.

Lemma L_app (a b : string) : L (a ++ b) = (L a ++ L b)%list.
Proof. induction a as [|c a IH]; simpl; congruence. Qed.

Lemma L_inj (a b : string) : L a = L b -> a = b.
Proof.
  intros H. rewrite <- (string_of_list_ascii_of_string a),
    <- (string_of_list_ascii_of_string b). now rewrite H.
Qed.

Lemma append_inv_tail (a b c : string) : a ++ c = b ++ c -> a = b.
Proof.
  intros H. apply L_inj. apply (f_equal L) in H. rewrite !L_app in H.
  now apply app_inv_tail in H.
Qed.

Lemma govde_app (a b : string) :
  parantezsiz a = true -> govde (a ++ b) = a ++ govde b.
Proof.
  induction a as [|c a IH]; simpl; [reflexivity|].
  destruct (parantez c); simpl; [discriminate|].
  intros H. now rewrite IH.
Qed.

Lemma rakamlar (d : Decimal.uint) :
  Forall (fun c => rakam_mi c = true) (L (NilEmpty.string_of_uint d)).
Proof. induction d; simpl; constructor; auto. Qed.

Lemma to_uint_dolu (n : nat) : Nat.to_uint n <> Decimal.Nil.
Proof.
  rewrite <- (DecimalNat.Unsigned.of_to n) at 1.
  rewrite DecimalNat.Unsigned.to_of. apply DecimalFacts.unorm_nonnil.
Qed.

Lemma str_nat_eq (n : nat) :
  Py.str_nat n = NilEmpty.string_of_uint (Nat.to_uint n).
Proof.
  unfold Py.str_nat, NilZero.string_of_uint.
  pose proof (to_uint_dolu n). destruct (Nat.to_uint n); congruence.
Qed.

Lemma str_nat_rakamlar (n : nat) :
  Forall (fun c => rakam_mi c = true) (L (Py.str_nat n)).
Proof. rewrite str_nat_eq. apply rakamlar. Qed.

Lemma str_nat_dolu (n : nat) : Py.str_nat n <> "".
Proof.
  rewrite str_nat_eq. pose proof (to_uint_dolu n).
  destruct (Nat.to_uint n); simpl; congruence.
Qed.

Lemma str_nat_inj (n m : nat) : Py.str_nat n = Py.str_nat m -> n = m.
Proof.
  intros H. apply DecimalNat.Unsigned.to_uint_inj.
  assert (Hs : forall k, NilZero.uint_of_string (Py.str_nat k) = Some (Nat.to_uint k))
    by (intros k; apply NilZero.usu, to_uint_dolu).
  pose proof (Hs n) as Hn. rewrite H, Hs in Hn. congruence.
Qed.

Lemma str_nat_parantezsiz (n : nat) : parantezsiz (Py.str_nat n) = true.
Proof.
  pose proof (str_nat_rakamlar n) as H.
  induction (Py.str_nat n) as [|c s IH]; simpl; [reflexivity|].
  inversion H as [|? ? Hc Hs]; subst. rewrite IH by assumption.
  destruct (Ascii.eqb_spec c "(") as [->|Hne].
  - vm_compute in Hc. discriminate.
  - unfold parantez. apply Ascii.eqb_neq in Hne. now rewrite Hne.
Qed.

Lemma sondan_ikinci_app (a b : string) (x y : ascii) (kalan : list ascii) :
  rev (L b) = x :: y :: kalan -> sondan_ikinci (a ++ b) = Some y.
Proof.
  intros H. unfold sondan_ikinci. rewrite L_app, rev_app_distr, H. reflexivity.
Qed.

Lemma sondan_ikinci_sayi (a : string) (n : nat) :
  exists c, sondan_ikinci (a ++ Py.str_nat n ++ " ") = Some c /\ rakam_mi c = true.
Proof.
  unfold sondan_ikinci. rewrite !L_app, !rev_app_distr. simpl.
  pose proof (str_nat_rakamlar n) as Hr. pose proof (str_nat_dolu n) as Hd.
  apply Forall_rev in Hr.
  destruct (rev (L (Py.str_nat n))) as [|c l] eqn:E.
  - exfalso. apply Hd. apply L_inj. simpl.
    apply (f_equal (@rev ascii)) in E. rewrite rev_involutive in E. exact E.
  - exists c. split; [reflexivity|]. now inversion Hr.
Qed.

(** Labels of different kinds, rooms or positions differ before the
    parenthesis. *)
Lemma kod_inj (d d' : Anahtar) : kod d = kod d' -> d = d'.
Proof.
  assert (Hz : forall n, sondan_ikinci (kod (AZemin n)) = Some "n"%char)
    by (intros n; now apply sondan_ikinci_app with (x := " "%char) (kalan := L "imeZ ")).
  assert (Hd : forall n, sondan_ikinci (kod (ADuvar n)) = Some "r"%char)
    by (intros n; now apply sondan_ikinci_app with (x := " "%char) (kalan := L "avuD ")).
  assert (Hp : forall i, exists c, sondan_ikinci (kod (APencere i)) = Some c
                                   /\ rakam_mi c = true)
    by (intros i; apply sondan_ikinci_sayi).
  assert (Hk : forall i, exists c, sondan_ikinci (kod (AKapi i)) = Some c
                                   /\ rakam_mi c = true)
    by (intros i; apply sondan_ikinci_sayi).
  intros H.
  destruct d as [| |n|n|i|i], d' as [| |n'|n'|i'|i']; try reflexivity;
    try discriminate H;
    try (exfalso; apply (f_equal sondan_ikinci) in H;
         rewrite ?Hz, ?Hd in H;
         try (destruct (Hp i) as (c & Hc & Hr); rewrite Hc in H);
         try (destruct (Hk i) as (c & Hc & Hr); rewrite Hc in H);
         try (destruct (Hp i') as (c & Hc & Hr); rewrite Hc in H);
         try (destruct (Hk i') as (c & Hc & Hr); rewrite Hc in H);
         vm_compute in H; try discriminate H;
         injection H as H; subst; vm_compute in Hr; discriminate Hr).
  - f_equal. now apply append_inv_tail in H.
  - f_equal. now apply append_inv_tail in H.
  - f_equal. simpl in H. injection H as H.
    apply append_inv_tail, str_nat_inj in H. lia.
  - f_equal. simpl in H. injection H as H.
    apply append_inv_tail, str_nat_inj in H. lia.
Qed.

End EtiketFacts.

(* ------------------------------------------------------------------ *)
(** ** The whole run                                                   *)
(* ------------------------------------------------------------------ *)

Module Donguler.

Import Py.

Lemma for_each_inv {A S} (I : S -> Prop) (body : S -> A -> Exc S) (l : list A) :
  (forall s a s', In a l -> I s -> body s a = Ok s' -> I s') ->
  forall s s', I s -> for_each body l s = Ok s' -> I s'.
Proof.
  induction l as [|a l IH]; intros Hb s s' Hs; simpl.
  - intros [= <-]. assumption.
  - destruct (body s a) as [s1|e] eqn:E; simpl; [|discriminate].
    apply IH.
    + intros s0 a0 s0' Hin. apply Hb. now right.
    + apply (Hb s a s1); auto. now left.
Qed.


Lemma fold_left_inv {A S} (I : S -> Prop) (f : S -> A -> S) (l : list A) :
  (forall s a, In a l -> I s -> I (f s a)) ->
  forall s, I s -> I (fold_left f l s).
Proof.
  induction l as [|a l IH]; intros Hf s Hs; simpl.
  - assumption.
  - apply IH.
    + intros s0 a0 Hin. apply Hf. now right.
    + apply Hf; auto. now left.
Qed.

(** A loop with an invariant that knows the elements already visited. *)
Lemma for_each_prefix {A S} (I : list A -> S -> Prop)
    (body : S -> A -> Exc S) (l : list A) :
  (forall done a rest s,
     l = (done ++ a :: rest)%list -> I done s ->
     exists s', body s a = Ok s' /\ I (done ++ [a])%list s') ->
  forall s, I [] s -> exists s', for_each body l s = Ok s' /\ I l s'.
Proof.
  intros Hb.
  assert (H : forall rest done s,
             l = (done ++ rest)%list -> I done s ->
             exists s', for_each body rest s = Ok s' /\ I l s').
  { induction rest as [|a rest IH]; intros done s Hl Hs; simpl.
    - rewrite app_nil_r in Hl. subst. eauto.
    - destruct (Hb done a rest s Hl Hs) as (s1 & -> & Hs1). simpl.
      apply (IH (done ++ [a])%list); [|assumption].
      rewrite <- app_assoc. exact Hl. }
  intros s Hs. now apply (H l []).
Qed.

Lemma fold_left_enumerate {A S} (I : nat -> S -> Prop)
    (f : S -> nat * A -> S) (l : list A) :
  (forall i a s, I i s -> I (Datatypes.S i) (f s (i, a))) ->
  forall i s, I i s ->
              I (i + List.length l)%nat (fold_left f (enumerate_from i l) s).
Proof.
  intros Hf. induction l as [|a l IH]; intros i s Hs; simpl.
  - now rewrite Nat.add_0_r.
  - rewrite Nat.add_succ_r. apply (IH (Datatypes.S i)). now apply Hf.
Qed.

End Donguler.

Lemma isaretli_app (a b : string) :
  isaretli (a ++ b) = isaretli a || isaretli b.
Proof.
  induction a as [|c a IH]; simpl.
  - reflexivity.
  - now rewrite IH, orb_assoc.
Qed.

Lemma saglikli_genis (A A' : Anahtar -> Prop) (st : Durum) :
  (forall d, A d -> A' d) -> saglikli A st -> saglikli A' st.
Proof.
  intros HA [Ht Hk]. split; [assumption|].
  apply Forall_impl with (2 := Hk). intros e (d & He & Hd). eauto.
Qed.

(** Writing a line under a label that stands for something new appends
    it, and adding its cost keeps the total the sum of the lines. *)
Lemma saglikli_ekle (A A' : Anahtar -> Prop) (st : Durum)
    (e : string) (k : Kalem) (d : Anahtar) :
  saglikli A st -> Etiket.govde e = Etiket.kod d -> ~ A d ->
  (forall x, A x \/ x = d -> A' x) ->
  saglikli A' (topla (maliyet k) (yaz e k st)).
Proof.
  intros [Ht Hk] He Hd HA.
  assert (Hnew : ~ In e (Py.keys (malzeme_ihtiyaclari st))).
  { intros Hin. rewrite Forall_forall in Hk.
    destruct (Hk e Hin) as (d0 & He0 & Hd0).
    assert (d = d0) by (apply EtiketFacts.kod_inj; congruence). now subst. }
  unfold saglikli, toplam_tutar, topla, yaz. simpl.
  rewrite PyFacts.set_new by assumption. split.
  - unfold Py.values. rewrite !map_app, PyFacts.sum_app. simpl.
    unfold toplam_tutar, Py.values in Ht. rewrite Ht. unfold Py.sum. simpl. lra.
  - unfold Py.keys. rewrite map_app. apply Forall_app. split.
    + apply Forall_impl with (2 := Hk). intros e0 (d0 & He0 & Hd0).
      exists d0. split; [assumption|]. apply HA. now left.
    + constructor; [|constructor]. exists d. split; [assumption|].
      apply HA. now right.
Qed.

Section Kosu.

Local Open Scope string_scope.

Variable math_cos : Q -> Q.
Variable math_radians : Q -> Q.
Variable json_loads : string -> option (Py.dict Q).
Variable str_lower : string -> string.
Variable float_str : Q -> string.
Variable db : Tablo.Veritabani.
Variable ev : EvBilgileri.

Local Abbreviation alan := (_alan_hesapla math_cos math_radians ev).
Local Abbreviation adimlar_ :=
  (adimlar math_cos math_radians json_loads str_lower float_str db ev).
Local Abbreviation hesapla_ :=
  (malzeme_ihtiyacini_hesapla math_cos math_radians json_loads str_lower
                              float_str db ev).

Lemma yaz_degismez (e : string) (k : Kalem) (st : Durum) :
  isaretli e = true -> tutarli k -> kalem_degismezi st ->
  kalem_degismezi (yaz e k st).
Proof.
  intros He Hk Hst. unfold kalem_degismezi, yaz. simpl.
  apply PyFacts.Forall_set; auto.
Qed.

Lemma topla_degismez (m : Q) (st : Durum) :
  kalem_degismezi st -> kalem_degismezi (topla m st).
Proof. auto. Qed.

Lemma zemin_etiketi_isaretli (oda malzeme_adi : string) :
  isaretli (zemin_etiketi oda malzeme_adi) = true.
Proof.
  unfold zemin_etiketi. rewrite isaretli_app. simpl. apply orb_true_r.
Qed.

Lemma duvar_etiketi_isaretli (oda malzeme_adi : string) :
  isaretli (duvar_etiketi oda malzeme_adi) = true.
Proof.
  unfold duvar_etiketi. rewrite isaretli_app. simpl. apply orb_true_r.
Qed.

Lemma zemin_kalemi_tutarli z malzeme fiyat ek :
  tutarli (zemin_kalemi z malzeme fiyat ek).
Proof.
  unfold zemin_kalemi, tutarli. destruct (fayans_boyutu malzeme ek);
    eexists; split; reflexivity.
Qed.

Lemma adet_kalemi_tutarli adet fiyat : tutarli (adet_kalemi adet fiyat).
Proof. eexists; split; reflexivity. Qed.

Lemma duvar_paneli_degismez a st :
  kalem_degismezi st -> kalem_degismezi (duvar_paneli db a st).
Proof.
  intros H. unfold duvar_paneli. destruct (fiyatli db _) as [[info f]|]; auto.
  apply topla_degismez, yaz_degismez; auto.
  eexists; split; reflexivity.
Qed.

Lemma cati_kaplama_degismez a st :
  kalem_degismezi st -> kalem_degismezi (cati_kaplama db a st).
Proof.
  intros H. unfold cati_kaplama. destruct (fiyatli db _) as [[info f]|]; auto.
  apply topla_degismez, yaz_degismez; auto.
  eexists; split; reflexivity.
Qed.

Lemma zemin_kaplama_degismez oda z st :
  kalem_degismezi st -> kalem_degismezi (zemin_kaplama json_loads db oda z st).
Proof.
  intros H. destruct (fiyatli db (zemin_kaplama_tipi oda)) as [[info f]|] eqn:E.
  - rewrite (zemin_kaplama_eq _ _ _ _ _ _ _ E).
    apply topla_degismez, yaz_degismez; auto using zemin_etiketi_isaretli,
      zemin_kalemi_tutarli.
  - unfold zemin_kaplama. now rewrite E.
Qed.

Lemma duvar_kaplama_degismez oda n st st' :
  kalem_degismezi st ->
  duvar_kaplama json_loads db oda n st = Py.Ok st' -> kalem_degismezi st'.
Proof.
  intros H. unfold duvar_kaplama.
  destruct (fiyatli db (duvar_kaplama_tipi oda)) as [[info f]|].
  - match goal with
    | |- context [yerel_maliyet ?s] =>
        assert (Hs : kalem_degismezi s); [|destruct (yerel_maliyet s)]
    end.
    + destruct (String.eqb _ "Boya").
      * destruct (duvar_sarfiyati info); auto.
        apply topla_degismez, yaz_degismez; auto using duvar_etiketi_isaretli.
        eexists; split; reflexivity.
      * apply yaz_degismez; auto using duvar_etiketi_isaretli.
        eexists; split; reflexivity.
    + intros [= <-]. now apply topla_degismez.
    + discriminate.
  - now intros [= <-].
Qed.

Lemma oda_adimi_degismez a st oda st' :
  kalem_degismezi st ->
  oda_adimi json_loads db a st oda = Py.Ok st' -> kalem_degismezi st'.
Proof.
  intros H. unfold oda_adimi, Py.index.
  destruct (Py.get (oda_adi oda) (oda_alanlari a)); simpl; [|discriminate].
  apply duvar_kaplama_degismez. now apply zemin_kaplama_degismez.
Qed.

Lemma pencere_adimi_degismez st ip :
  kalem_degismezi st -> kalem_degismezi (pencere_adimi float_str db st ip).
Proof.
  intros H. destruct ip as [i p]. unfold pencere_adimi.
  destruct (fiyatli db _) as [[info f]|]; auto.
  apply topla_degismez, yaz_degismez; auto using adet_kalemi_tutarli.
Qed.

Lemma kapi_adimi_degismez st ik :
  kalem_degismezi st -> kalem_degismezi (kapi_adimi str_lower float_str db st ik).
Proof.
  intros H. destruct ik as [i k]. unfold kapi_adimi.
  destruct (fiyatli db _) as [[info f]|]; auto.
  apply topla_degismez, yaz_degismez; auto using adet_kalemi_tutarli.
Qed.

(** Every line written before the overhead line has a marked label and a
    cost that is its required quantity times its unit price. *)
Lemma adimlar_degismez (st : Durum) :
  adimlar_ = Py.Ok st -> kalem_degismezi st.
Proof.
  unfold adimlar.
  destruct (Py.for_each _ _ _) as [s1|e] eqn:E; simpl; [|discriminate].
  intros [= <-].
  apply Donguler.fold_left_inv; [intros; now apply kapi_adimi_degismez|].
  apply Donguler.fold_left_inv; [intros; now apply pencere_adimi_degismez|].
  revert E. apply Donguler.for_each_inv.
  - intros s a s' _. apply oda_adimi_degismez.
  - apply cati_kaplama_degismez, duvar_paneli_degismez. constructor.
Qed.

Lemma tesisat_yeni (st : Durum) :
  adimlar_ = Py.Ok st ->
  ~ In tesisat_etiketi (Py.keys (malzeme_ihtiyaclari st)).
Proof.
  intros H Hin. apply adimlar_degismez in H.
  unfold kalem_degismezi in H. rewrite Forall_forall in H.
  unfold Py.keys in Hin. apply in_map_iff in Hin.
  destruct Hin as ([e k] & He & Hin). simpl in He. subst e.
  destruct (H _ Hin) as [Hm _]. simpl in Hm. vm_compute in Hm. discriminate.
Qed.

Lemma hesapla_eq (m : Py.dict Kalem) (t : Q) :
  hesapla_ = Py.Ok (m, t) <->
  exists st,
    adimlar_ = Py.Ok st
    /\ m = (malzeme_ihtiyaclari st
            ++ [(tesisat_etiketi, tesisat_kalemi (toplam_maliyet_temp st))])%list
    /\ t = toplam_maliyet_temp st
           + toplam_maliyet_temp st * tesisat_baglanti_orani.
Proof.
  unfold malzeme_ihtiyacini_hesapla.
  destruct adimlar_ as [st|e] eqn:E; simpl.
  - unfold tesisat. rewrite PyFacts.set_new by now apply tesisat_yeni.
    split.
    + intros [= <- <-]. now exists st.
    + intros (st' & [= <-] & -> & ->). reflexivity.
  - split; [discriminate | intros (st' & H & _); discriminate].
Qed.

(** *** A run without overwritten labels and without paint *)

Lemma zemin_govde (oda malzeme_adi : string) :
  Etiket.parantezsiz oda = true ->
  Etiket.govde (zemin_etiketi oda malzeme_adi) = Etiket.kod (AZemin oda).
Proof.
  intros H. unfold zemin_etiketi. now rewrite EtiketFacts.govde_app.
Qed.

Lemma duvar_govde (oda malzeme_adi : string) :
  Etiket.parantezsiz oda = true ->
  Etiket.govde (duvar_etiketi oda malzeme_adi) = Etiket.kod (ADuvar oda).
Proof.
  intros H. unfold duvar_etiketi. now rewrite EtiketFacts.govde_app.
Qed.

Lemma pencere_govde (i : nat) (p : Pencere) :
  Etiket.govde (pencere_etiketi float_str i p) = Etiket.kod (APencere i).
Proof.
  unfold pencere_etiketi. simpl. do 8 f_equal.
  now rewrite EtiketFacts.govde_app by apply EtiketFacts.str_nat_parantezsiz.
Qed.

Lemma kapi_govde (i : nat) (k : Kapi) :
  Etiket.govde (kapi_etiketi float_str i k) = Etiket.kod (AKapi i).
Proof.
  unfold kapi_etiketi. simpl. do 6 f_equal.
  now rewrite EtiketFacts.govde_app by apply EtiketFacts.str_nat_parantezsiz.
Qed.

Lemma oda_adimi_saglikli (adlar : list string) (st : Durum) (o : Oda) :
  saglikli (A_oda adlar) st ->
  In o (oda_listesi ev) ->
  ~ In (oda_adi o) adlar ->
  Etiket.parantezsiz (oda_adi o) = true ->
  (forall info f, fiyatli db (duvar_kaplama_tipi o) = Some (info, f) ->
                  Tablo.malzeme_adi (Tablo.malzeme info) <> "Boya") ->
  exists st', oda_adimi json_loads db alan st o = Py.Ok st'
              /\ saglikli (A_oda (adlar ++ [oda_adi o])) st'.
Proof.
  intros Hs Hin Hyeni Hp Hb.
  unfold oda_adimi, Py.index. rewrite oda_alanlari_get.
  destruct (son_oda_In _ _ Hin) as [son ->]. simpl.
  set (z := zemin (oda_alani son)).
  set (n := oda_duvar_alani_net alan (duvar (oda_alani son))).
  assert (Hz : saglikli (fun x => A_oda adlar x \/ x = AZemin (oda_adi o))
                        (zemin_kaplama json_loads db o z st)).
  { destruct (fiyatli db (zemin_kaplama_tipi o)) as [[info f]|] eqn:E.
    - rewrite (zemin_kaplama_eq _ _ _ _ _ _ _ E).
      apply saglikli_ekle with (A := A_oda adlar) (d := AZemin (oda_adi o)); auto.
      + now apply zemin_govde.
      + intros [H|[H|(x & Hx & [H|H])]]; try discriminate. congruence.
    - unfold zemin_kaplama. rewrite E.
      apply saglikli_genis with (2 := Hs). auto. }
  assert (Hson : forall x, (A_oda adlar x \/ x = AZemin (oda_adi o))
                           \/ x = ADuvar (oda_adi o) ->
                           A_oda (adlar ++ [oda_adi o]) x).
  { intros x [[[H|[H|(y & Hy & H)]]|H]|H]; unfold A_oda; auto.
    - right. right. exists y. split; [apply in_or_app; now left | assumption].
    - right. right. exists (oda_adi o).
      split; [apply in_or_app; right; now left | now left].
    - right. right. exists (oda_adi o).
      split; [apply in_or_app; right; now left | now right]. }
  unfold duvar_kaplama.
  destruct (fiyatli db (duvar_kaplama_tipi o)) as [[info f]|] eqn:E.
  - pose proof (Hb info f eq_refl) as Hne. apply String.eqb_neq in Hne.
    rewrite Hne. simpl.
    eexists. split; [reflexivity|].
    apply saglikli_ekle with (1 := Hz) (d := ADuvar (oda_adi o)); auto.
    + now apply duvar_govde.
    + intros [[H|[H|(x & Hx & [H|H])]]|H]; try discriminate. congruence.
  - eexists. split; [reflexivity|].
    apply saglikli_genis with (2 := Hz). auto.
Qed.

Lemma pencere_adimi_saglikli (adlar : list string) (i : nat) (p : Pencere)
    (st : Durum) :
  saglikli (A_pencere adlar i) st ->
  saglikli (A_pencere adlar (S i)) (pencere_adimi float_str db st (i, p)).
Proof.
  intros Hs. unfold pencere_adimi.
  destruct (fiyatli db "PVC Pencere") as [[info f]|].
  - apply saglikli_ekle with (1 := Hs) (d := APencere i).
    + apply pencere_govde.
    + intros [[H|[H|(x & Hx & [H|H])]]|(j & Hj & H)]; try discriminate.
      injection H as ->. lia.
    + intros x [[H|(j & Hj & H)]|H]; unfold A_pencere; auto.
      * right. exists j. split; [lia | assumption].
      * right. exists i. split; [lia | assumption].
  - apply saglikli_genis with (2 := Hs).
    intros x [H|(j & Hj & H)]; unfold A_pencere; auto.
    right. exists j. split; [lia | assumption].
Qed.

Lemma kapi_adimi_saglikli (adlar : list string) (np i : nat) (k : Kapi)
    (st : Durum) :
  saglikli (A_kapi adlar np i) st ->
  saglikli (A_kapi adlar np (S i)) (kapi_adimi str_lower float_str db st (i, k)).
Proof.
  intros Hs. unfold kapi_adimi.
  destruct (fiyatli db (kategori_kapi str_lower k)) as [[info f]|].
  - apply saglikli_ekle with (1 := Hs) (d := AKapi i).
    + apply kapi_govde.
    + intros [[[H|[H|(x & Hx & [H|H])]]|(j & Hj & H)]|(j & Hj & H)];
        try discriminate.
      injection H as ->. lia.
    + intros x [[H|(j & Hj & H)]|H]; unfold A_kapi; auto.
      * right. exists j. split; [lia | assumption].
      * right. exists i. split; [lia | assumption].
  - apply saglikli_genis with (2 := Hs).
    intros x [H|(j & Hj & H)]; unfold A_kapi; auto.
    right. exists j. split; [lia | assumption].
Qed.

(** When the rooms have distinct names without an opening parenthesis
    and no wall covering resolves to paint, the steps before the
    overhead line return, and their running total is the sum of the
    costs of the lines of the dictionary. *)
Lemma saglikli_kosu :
  NoDup (map oda_adi (oda_listesi ev)) ->
  (forall o, In o (oda_listesi ev) -> Etiket.parantezsiz (oda_adi o) = true) ->
  (forall o info f,
     In o (oda_listesi ev) ->
     fiyatli db (duvar_kaplama_tipi o) = Some (info, f) ->
     Tablo.malzeme_adi (Tablo.malzeme info) <> "Boya") ->
  exists st, adimlar_ = Py.Ok st /\ toplam_tutar st.
Proof.
  intros Hnd Hp Hb. unfold adimlar.
  assert (H0 : saglikli (A_oda []) (cati_kaplama db alan (duvar_paneli db alan baslangic))).
  { assert (H1 : saglikli (fun x => x = ADuvarPaneli) (duvar_paneli db alan baslangic)).
    { unfold duvar_paneli. destruct (fiyatli db "Duvar Paneli") as [[info f]|].
      - apply saglikli_ekle with (A := fun _ => False) (d := ADuvarPaneli);
          [|reflexivity|tauto|intros x [[]|H]; exact H].
        split; [reflexivity | constructor].
      - split; [reflexivity | constructor]. }
    unfold cati_kaplama. destruct (fiyatli db "Çatı Paneli") as [[info f]|].
    - apply saglikli_ekle with (1 := H1) (d := ACatiKaplama);
        [reflexivity | discriminate |].
      intros x [H|H]; unfold A_oda; auto.
    - apply saglikli_genis with (2 := H1). unfold A_oda. auto. }
  match goal with
  | |- context [Py.for_each ?b ?l ?s0] =>
      assert (Hd : exists s1, Py.for_each b l s0 = Py.Ok s1
                              /\ saglikli (A_oda (map oda_adi l)) s1)
  end.
  { apply (Donguler.for_each_prefix
             (fun done s => saglikli (A_oda (map oda_adi done)) s)); [|exact H0].
    intros done o rest s Hl Hs.
    assert (Hin : In o (oda_listesi ev))
      by (rewrite Hl; apply in_or_app; right; now left).
    destruct (oda_adimi_saglikli (map oda_adi done) s o) as (s' & Hr & Hs'); auto.
    - rewrite Hl, map_app in Hnd. simpl in Hnd.
      apply NoDup_remove_2 in Hnd. intros Hc. apply Hnd.
      apply in_or_app. now left.
    - intros info f. now apply Hb.
    - exists s'. split; [assumption|]. now rewrite map_app. }
  destruct Hd as (s1 & -> & Hs1). simpl.
  set (adlar := map oda_adi (oda_listesi ev)) in *.
  eexists. split; [reflexivity|].
  assert (Hpen : saglikli (A_pencere adlar (0 + List.length (pencere_listesi ev)))
                   (fold_left (pencere_adimi float_str db)
                              (Py.enumerate (pencere_listesi ev)) s1)).
  { apply (Donguler.fold_left_enumerate
             (fun i s => saglikli (A_pencere adlar i) s)).
    - intros i a s. apply pencere_adimi_saglikli.
    - apply saglikli_genis with (2 := Hs1). unfold A_pencere. auto. }
  apply (Donguler.fold_left_enumerate
           (fun i s => saglikli (A_kapi adlar (0 + List.length (pencere_listesi ev)) i) s)
           (kapi_adimi str_lower float_str db) (kapi_listesi ev)) with (i := 0%nat).
  - intros i a s. apply kapi_adimi_saglikli.
  - apply saglikli_genis with (2 := Hpen). unfold A_kapi. auto.
Qed.

(** C4 (amended). In a returned result every line other than the
    overhead line has a numeric required quantity and a cost that is
    exactly that quantity times the unit price.  The overhead line has
    the marker ["N/A"] in place of its quantities, the unit price 1 and
    the cost 0.15 times the running total. *)
Theorem C4_kalem_maliyeti (m : Py.dict Kalem) (t : Q) :
  hesapla_ = Py.Ok (m, t) ->
  forall e k, In (e, k) m ->
    (e <> tesisat_etiketi ->
       exists q, gerekli_miktar k = Sayi q /\ maliyet k = q * birim_fiyat k)
    /\ (e = tesisat_etiketi ->
          net_miktar k = Metin "N/A" /\ gerekli_miktar k = Metin "N/A"
          /\ birim_fiyat k = 1
          /\ exists st, adimlar_ = Py.Ok st
                        /\ maliyet k = toplam_maliyet_temp st * (15 # 100)).
Proof.
  intros H e k Hin. apply hesapla_eq in H. destruct H as (st & Hst & -> & _).
  apply in_app_or in Hin. destruct Hin as [Hin|[[= <- <-]|[]]].
  - pose proof (adimlar_degismez _ Hst) as Hd. unfold kalem_degismezi in Hd.
    rewrite Forall_forall in Hd. destruct (Hd _ Hin) as [Hm Hk]. simpl in Hm, Hk.
    split; [intros _; exact Hk|].
    intros ->. vm_compute in Hm. discriminate.
  - split; [congruence|]. intros _. repeat split. now exists st.
Qed.

(** The same for the returned pair: without overwritten labels and
    without paint, the grand total is the sum of the costs of all lines
    of the result, the overhead line included. *)
Lemma saglikli_toplam :
  NoDup (map oda_adi (oda_listesi ev)) ->
  (forall o, In o (oda_listesi ev) -> Etiket.parantezsiz (oda_adi o) = true) ->
  (forall o info f,
     In o (oda_listesi ev) ->
     fiyatli db (duvar_kaplama_tipi o) = Some (info, f) ->
     Tablo.malzeme_adi (Tablo.malzeme info) <> "Boya") ->
  exists m t, hesapla_ = Py.Ok (m, t) /\ t == Py.sum (map maliyet (Py.values m)).
Proof.
  intros Hnd Hp Hb. destruct (saglikli_kosu Hnd Hp Hb) as (st & Hst & Ht).
  eexists. eexists. split.
  - apply hesapla_eq. exists st. repeat split. exact Hst.
  - unfold Py.values. rewrite !map_app, PyFacts.sum_app. simpl.
    unfold toplam_tutar, Py.values in Ht. rewrite <- Ht. unfold Py.sum. simpl.
    unfold tesisat_baglanti_orani. lra.
Qed.

(** C2 (amended). A returned result ends with the overhead line, and no
    other line has its label.  Its quantities are the marker ["N/A"], its
    unit price is 1, its cost is 0.15 times the running total of the
    costs added by the steps before it, and the grand total is that
    running total plus that cost.  When the rooms have distinct names
    without an opening parenthesis and no wall covering resolves to
    paint, that cost is 0.15 times the sum of the costs of all other
    lines of the result. *)
Theorem C2_tesisat_kalemi (m : Py.dict Kalem) (t : Q) :
  hesapla_ = Py.Ok (m, t) ->
  exists st k,
    adimlar_ = Py.Ok st
    /\ m = (malzeme_ihtiyaclari st ++ [(tesisat_etiketi, k)])%list
    /\ ~ In tesisat_etiketi (Py.keys (malzeme_ihtiyaclari st))
    /\ net_miktar k = Metin "N/A" /\ gerekli_miktar k = Metin "N/A"
    /\ birim_fiyat k = 1
    /\ maliyet k = toplam_maliyet_temp st * (15 # 100)
    /\ t = toplam_maliyet_temp st + maliyet k
    /\ (NoDup (map oda_adi (oda_listesi ev)) ->
        (forall o, In o (oda_listesi ev) ->
                   Etiket.parantezsiz (oda_adi o) = true) ->
        (forall o info f,
           In o (oda_listesi ev) ->
           fiyatli db (duvar_kaplama_tipi o) = Some (info, f) ->
           Tablo.malzeme_adi (Tablo.malzeme info) <> "Boya") ->
        maliyet k
        == (15 # 100) * Py.sum (map maliyet (Py.values (malzeme_ihtiyaclari st)))).
Proof.
  intros H. apply hesapla_eq in H. destruct H as (st & Hst & -> & ->).
  exists st, (tesisat_kalemi (toplam_maliyet_temp st)).
  split; [assumption|]. split; [reflexivity|].
  split; [now apply tesisat_yeni|].
  split; [reflexivity|]. split; [reflexivity|]. split; [reflexivity|].
  split; [reflexivity|]. split; [reflexivity|].
  intros Hnd Hp Hb. destruct (saglikli_kosu Hnd Hp Hb) as (st' & Hst' & Ht).
  assert (st' = st) by congruence. subst st'.
  unfold toplam_tutar in Ht. cbn [maliyet tesisat_kalemi].
  unfold tesisat_baglanti_orani. rewrite <- Ht. lra.
Qed.




End Kosu.

(* ------------------------------------------------------------------ *)
(** ** The estimator under Python's dynamic checks                     *)
(* ------------------------------------------------------------------ *)

Section Uyum.

Local Open Scope string_scope.

Variable math_cos : Q -> Q.
Variable math_radians : Q -> Q.
Variable json_loads : string -> option Json.
Variable str_lower : string -> string.
Variable float_str : Q -> string.
Variable db : Tablo.Veritabani.
















End Uyum.

Section DegerHatasi.

Local Open Scope string_scope.

Variable math_cos : Q -> Q.
Variable math_radians : Q -> Q.
Variable json_loads : string -> option Json.
Variable str_lower : string -> string.
Variable float_str : Q -> string.
Variable db : Tablo.Veritabani.





End DegerHatasi.

(* ------------------------------------------------------------------ *)
(** ** Missing catalog data                                            *)
(* ------------------------------------------------------------------ *)

Section Eksikler.

Local Open Scope string_scope.

Variable math_cos : Q -> Q.
Variable math_radians : Q -> Q.
Variable json_loads : string -> option Json.
Variable str_lower : string -> string.
Variable float_str : Q -> string.
Variable db : Tablo.Veritabani.
Variable e : Dinamik.EvVerisi.


End Eksikler.

(* ------------------------------------------------------------------ *)
(** ** The estimator on concrete houses                                *)
(* ------------------------------------------------------------------ *)

Import Ornek Evler.

Local Open Scope string_scope.

Lemma C9_witness :
  cati_alani (alanlar egimli)
  = cati_alani_taban (alanlar egimli) / Ornek.cos (radians 60)
  /\ cati_alani_taban (alanlar egimli)
     = toplam_taban_alani (alanlar egimli) / inject_Z 1
  /\ cati_alani (alanlar dik_catili) = cati_alani_taban (alanlar dik_catili) * 2
  /\ cati_alani (alanlar duz_katsiz) = cati_alani_taban (alanlar duz_katsiz)
  /\ cati_alani_taban (alanlar duz_katsiz) = toplam_taban_alani (alanlar duz_katsiz).
Proof.
  destruct (C9_cati_alani Ornek.cos radians egimli) as (H1 & _ & _ & _ & H5).
  destruct (C9_cati_alani Ornek.cos radians dik_catili) as (_ & _ & _ & H4 & _).
  destruct (C9_cati_alani Ornek.cos radians duz_katsiz) as (_ & H2 & H3 & _).
  split; [|split; [|split; [|split]]].
  - apply H5; [discriminate | reflexivity | vm_compute; discriminate].
  - apply H1. reflexivity.
  - apply H4; [discriminate | reflexivity | vm_compute; reflexivity].
  - apply H3. left. reflexivity.
  - apply H2. discriminate.
Defined.

Lemma C10_witness :
  exists son,
    son_oda "Salon" (oda_listesi cift_salon) = Some son
    /\ uzunluk son = 5
    /\ oda_adimi json_loads katalog (alanlar cift_salon) baslangic
                 (oda "Salon" 3 2 2 "Laminat Parke" "Yok")
       = duvar_kaplama json_loads katalog (oda "Salon" 3 2 2 "Laminat Parke" "Yok")
           (oda_duvar_alani_net (alanlar cift_salon)
              (2 * (uzunluk son + genislik son) * yukseklik son))
           (zemin_kaplama json_loads katalog (oda "Salon" 3 2 2 "Laminat Parke" "Yok")
              (uzunluk son * genislik son) baslangic).
Proof.
  destruct (C10_ayni_adli_odalar Ornek.cos radians json_loads katalog cift_salon)
    as (_ & _ & _ & _ & H).
  destruct (H (oda "Salon" 3 2 2 "Laminat Parke" "Yok") baslangic) as (son & Hs & Ha).
  - left. reflexivity.
  - exists son. split; [exact Hs|]. split; [|exact Ha].
    vm_compute in Hs. injection Hs as <-. reflexivity.
Defined.

(** Both rooms named "Salon" are priced from the areas of the second:
    its floor of 5 by 4 is the net quantity of the one floor line left,
    and the total floor area still counts the first room. *)
Example cift_salon_satirlari :
  exists m t k,
    hesapla katalog cift_salon = Py.Ok (m, t)
    /\ Py.get "Salon Zemin (Laminat Parke)" m = Some k
    /\ net_miktar k = Sayi (5 * 4)
    /\ toplam_taban_alani (alanlar cift_salon) == 3 * 2 + 5 * 4.
Proof.
  eexists. eexists. eexists.
  split; [vm_compute; reflexivity|].
  split; [vm_compute; reflexivity|].
  split; vm_compute; reflexivity.
Qed.

Lemma C5_witness :
  (exists k,
     Py.get "Duvar Paneli (Toplam)"
            (malzeme_ihtiyaclari (duvar_paneli katalog (alanlar cok_acikli) baslangic))
     = Some k
     /\ net_miktar k = Sayi (net_duvar_alani_paneller_icin (alanlar cok_acikli)))
  /\ toplam_duvar_alani_brut (alanlar cok_acikli) == 10
  /\ toplam_pencere_alani (alanlar cok_acikli) == 6
  /\ toplam_kapi_alani (alanlar cok_acikli) == 6
  /\ net_duvar_alani_paneller_icin (alanlar cok_acikli) == 0
  /\ oda_duvar_alani_net (alanlar cok_acikli) 10 == 0.
Proof.
  destruct (C5_net_alanlar Ornek.cos radians json_loads katalog cok_acikli)
    as (_ & _ & _ & H & _).
  split.
  - eapply H. vm_compute. reflexivity.
  - repeat split; vm_compute; reflexivity.
Defined.

(** C5 as stated fails: under a roof pitched at 120 degrees the cosine is
    negative, and the net quantity of the roof line, its required
    quantity and its cost are negative. *)
Lemma C5_counterexample :
  exists m t k q,
    hesapla katalog Ornekler.genis_acili = Py.Ok (m, t)
    /\ Ornek.cos (radians 120) < 0
    /\ Py.get "Çatı Kaplama (Toplam)" m = Some k
    /\ net_miktar k = Sayi q
    /\ q < 0
    /\ maliyet k < 0.
Proof.
  eexists. eexists. eexists. eexists.
  split; [vm_compute; reflexivity|].
  split; [vm_compute; reflexivity|].
  split; [vm_compute; reflexivity|].
  split; [vm_compute; reflexivity|].
  split; vm_compute; reflexivity.
Qed.




Lemma C8_witness :
  kategori_kapi lower (kapi "Ana Giriş Kapısı" (9 # 10) 2 1) = "Dış Kapı"
  /\ Py.get (kapi_etiketi float_str 0 (kapi "Ana Giriş Kapısı" (9 # 10) 2 1))
            (malzeme_ihtiyaclari
               (kapi_adimi lower float_str katalog baslangic
                           (0%nat, kapi "Ana Giriş Kapısı" (9 # 10) 2 1)))
     = Some (adet_kalemi 1 (fyt 8 8 2000 "G Kapı")).
Proof.
  destruct (C8_kapi_kategorisi lower float_str katalog
              (kapi "Ana Giriş Kapısı" (9 # 10) 2 1)) as (Hd & _ & Hs).
  split.
  - apply Hd. exists "", " kapısı". reflexivity.
  - eapply (Hs 0%nat baslangic). vm_compute. reflexivity.
Defined.

(** C8 as stated fails: a door named "Main Entrance" is an interior door. *)
Lemma C8_counterexample :
  let k := kapi "Main Entrance" (9 # 10) 2 1 in
  kategori_kapi lower k = "İç Kapı"
  /\ ~ (kategori_kapi lower k = "Dış Kapı" <->
        Py.contains "main entrance" (lower (kapi_adi k)) = true
        \/ Py.contains "ana giriş" (lower (kapi_adi k)) = true).
Proof.
  split; [reflexivity|].
  intros [_ H]. specialize (H (or_introl eq_refl)). vm_compute in H. discriminate.
Qed.

Lemma C4_witness :
  exists m t k q,
    hesapla katalog banyolu = Py.Ok (m, t)
    /\ In ("Banyo Zemin (Fayans)", k) m
    /\ gerekli_miktar k = Sayi q
    /\ maliyet k = q * birim_fiyat k.
Proof.
  destruct (hesapla katalog banyolu) as [[m t]|e] eqn:E;
    [|vm_compute in E; discriminate].
  pose proof (C4_kalem_maliyeti Ornek.cos radians json_loads lower float_str
                katalog banyolu m t E) as H.
  vm_compute in E. injection E as <- <-.
  match type of H with
  | forall e k, In (e, k) (_ :: _ :: (?e0, ?k0) :: _) -> _ =>
      destruct (H e0 k0) as [[q [Hq Hm]] _]
  end.
  - right. right. left. reflexivity.
  - discriminate.
  - eexists. eexists. eexists. exists q.
    split; [reflexivity|]. split; [right; right; left; reflexivity|].
    split; [exact Hq | exact Hm].
Defined.

(** C4 as stated fails on the overhead line: its required quantity is the
    text ["N/A"], so no number times the unit price gives its cost. *)
Lemma C4_counterexample :
  exists m t k,
    hesapla bos_katalog bos_ev = Py.Ok (m, t)
    /\ In (tesisat_etiketi, k) m
    /\ ~ (exists q, gerekli_miktar k = Sayi q
                    /\ Qabs (maliyet k - q * birim_fiyat k) <= 1 # 1000000000).
Proof.
  eexists. eexists. eexists.
  split; [vm_compute; reflexivity|].
  split; [left; reflexivity|].
  intros (q & Hq & _). discriminate.
Qed.

Lemma C2_witness :
  exists m t st k,
    hesapla katalog banyolu = Py.Ok (m, t)
    /\ m = (malzeme_ihtiyaclari st ++ [(tesisat_etiketi, k)])%list
    /\ ~ In tesisat_etiketi (Py.keys (malzeme_ihtiyaclari st))
    /\ gerekli_miktar k = Metin "N/A"
    /\ birim_fiyat k = 1
    /\ maliyet k = toplam_maliyet_temp st * (15 # 100)
    /\ t = toplam_maliyet_temp st + maliyet k
    /\ maliyet k
       == (15 # 100) * Py.sum (map maliyet (Py.values (malzeme_ihtiyaclari st))).
Proof.
  destruct (hesapla katalog banyolu) as [[m t]|e] eqn:E;
    [|vm_compute in E; discriminate].
  destruct (C2_tesisat_kalemi Ornek.cos radians json_loads lower float_str
              katalog banyolu m t E)
    as (st & k & _ & Hm & Hn & _ & Hg & Hb & Hc & Ht & Hs).
  exists m, t, st, k. repeat split; try assumption.
  apply Hs.
  - repeat constructor. simpl. tauto.
  - intros o [<-|[]]. reflexivity.
  - intros o info f [<-|[]] Hf. vm_compute in Hf. discriminate.
Defined.

(** C2 as stated fails: with two rooms of one name the cost of the first
    floor line stays in the running total, and the overhead is 0.15 times
    that total, not 0.15 times the costs of the lines of the result. *)
Lemma C2_counterexample :
  exists m t k,
    hesapla katalog cift_salon = Py.Ok (m, t)
    /\ Py.keys m = ["Duvar Paneli (Toplam)"; "Çatı Kaplama (Toplam)";
                    "Salon Zemin (Laminat Parke)"; tesisat_etiketi]
    /\ Py.get tesisat_etiketi m = Some k
    /\ ~ maliyet k ==
         (15 # 100)
         * Py.sum (map maliyet
                       (Py.values
                          (filter (fun ek => negb (String.eqb (fst ek) tesisat_etiketi))
                                  m))).
Proof.
  eexists. eexists. eexists.
  split; [vm_compute; reflexivity|].
  split; [vm_compute; reflexivity|].
  split; [vm_compute; reflexivity|].
  vm_compute. discriminate.
Qed.



(** C1 fails on the code.  One painted room: the cost of the paint line is
    added to the running total in the paint branch and once more after
    the branch, so the returned total exceeds the sum of the costs of the
    lines of the result by that cost. *)
Theorem C1_boya_iki_kez :
  exists m t k,
    hesapla katalog salonlu = Py.Ok (m, t)
    /\ Py.keys m = ["Duvar Paneli (Toplam)"; "Çatı Kaplama (Toplam)";
                    "Salon Zemin (Laminat Parke)"; "Salon Duvar (Boya)";
                    tesisat_etiketi]
    /\ Py.get "Salon Duvar (Boya)" m = Some k
    /\ maliyet k == 315
    /\ ~ t == Py.sum (map maliyet (Py.values m))
    /\ t == Py.sum (map maliyet (Py.values m)) + maliyet k.
Proof.
  eexists. eexists. eexists.
  split; [vm_compute; reflexivity|].
  split; [vm_compute; reflexivity|].
  split; [vm_compute; reflexivity|].
  split; [vm_compute; reflexivity|].
  split; [vm_compute; discriminate|].
  vm_compute. reflexivity.
Qed.

(* ------------------------------------------------------------------ *)
(** ** The statement after the wall covering branches                  *)
(* ------------------------------------------------------------------ *)

(** Whatever the state, the paint line of a room enters the running
    total twice. *)
Lemma boya_iki_kez_eklenir (json : string -> option (Py.dict Q))
    (db : Tablo.Veritabani) (o : Oda) (net : Q) (st : Durum) info fiyat s kalan :
  fiyatli db (duvar_kaplama_tipi o) = Some (info, fiyat) ->
  Tablo.malzeme_adi (Tablo.malzeme info) = "Boya" ->
  duvar_sarfiyati info = s :: kalan ->
  exists st',
    duvar_kaplama json db o net st = Py.Ok st'
    /\ toplam_maliyet_temp st'
       = toplam_maliyet_temp st
         + maliyet (boya_kalemi json db o net (Tablo.malzeme info) fiyat s)
         + maliyet (boya_kalemi json db o net (Tablo.malzeme info) fiyat s).
Proof.
  intros Hf Hn Hs. unfold duvar_kaplama. rewrite Hf, Hn, Hs. simpl.
  eexists. split; reflexivity.
Qed.

(** Paint without a wall rate writes no line, and the statement after
    the branches adds the cost left in [maliyet] by an earlier line. *)
Lemma boya_sarfiyatsiz_eski_maliyet (json : string -> option (Py.dict Q))
    (db : Tablo.Veritabani) (o : Oda) (net : Q) (st : Durum) info fiyat (m : Q) :
  fiyatli db (duvar_kaplama_tipi o) = Some (info, fiyat) ->
  Tablo.malzeme_adi (Tablo.malzeme info) = "Boya" ->
  duvar_sarfiyati info = [] ->
  yerel_maliyet st = Some m ->
  duvar_kaplama json db o net st = Py.Ok (topla m st).
Proof.
  intros Hf Hn Hs Hm. unfold duvar_kaplama. rewrite Hf, Hn, Hs. simpl.
  now rewrite Hm.
Qed.

(** With no earlier line [maliyet] is unbound there, and the handler
    answers with its error page. *)
Example boya_sarfiyatsiz_hata :
  hesapla yalniz_boya (ev 1 "Düz" 0 [oda "Salon" 3 2 2 "Yok" "Boya"] [] [])
  = Py.Raise (Py.UnboundLocalError "maliyet")
  /\ yanit yalniz_boya (ev 1 "Düz" 0 [oda "Salon" 3 2 2 "Yok" "Boya"] [] [])
     = HataSayfasi [ {| mesaj_type := "danger";
                        mesaj_message := "Beklenmedik bir hata oluştu: ";
                        mesaj_hata := Some (Py.UnboundLocalError "maliyet") |} ].
Proof. split; reflexivity. Qed.

(* ------------------------------------------------------------------ *)
(** ** The catalog lookup                                              *)
(* ------------------------------------------------------------------ *)

Module KatalogSorgusu.

Import Tablo.
Local Open Scope string_scope.

Lemma compare_refl (s : string) : String.compare s s = Eq.
Proof.
  pose proof (String.compare_antisym s s) as H.
  destruct (String.compare s s); simpl in H; congruence.
Qed.

Lemma ascii_compare_lt_trans (a b c : ascii) :
  Ascii.compare a b = Lt -> Ascii.compare b c = Lt -> Ascii.compare a c = Lt.
Proof.
  unfold Ascii.compare. rewrite !N.compare_lt_iff. apply N.lt_trans.
Qed.

Lemma compare_lt_trans (a b c : string) :
  String.compare a b = Lt -> String.compare b c = Lt -> String.compare a c = Lt.
Proof.
  revert b c. induction a as [|x a IH]; intros [|y b] [|z c]; simpl;
    try discriminate; try reflexivity.
  destruct (Ascii.compare x y) eqn:Exy; try discriminate.
  - apply Ascii.compare_eq_iff in Exy. subst y.
    destruct (Ascii.compare x z); try discriminate; auto.
    apply IH.
  - intros _. destruct (Ascii.compare y z) eqn:Eyz; try discriminate.
    + apply Ascii.compare_eq_iff in Eyz. subst z. now rewrite Exy.
    + intros _. now rewrite (ascii_compare_lt_trans _ _ _ Exy Eyz).
Qed.

Lemma once_gelir_geride (g f : Fiyat) : once_gelir g f = false <-> geride g f.
Proof.
  unfold once_gelir, geride.
  destruct (String.compare (gecerlilik_tarihi g) (gecerlilik_tarihi f)) eqn:E.
  - apply String.compare_eq_iff in E. rewrite Z.ltb_ge. split.
    + intros H. right. auto.
    + intros [H|[_ H]]; [discriminate | exact H].
  - split; auto.
  - split; [discriminate|]. intros [H|[H _]]; [discriminate|].
    rewrite H, compare_refl in E. discriminate.
Qed.

Lemma geride_refl (f : Fiyat) : geride f f.
Proof. right. split; [reflexivity | apply Z.le_refl]. Qed.

Lemma geride_trans (a b c : Fiyat) : geride a b -> geride b c -> geride a c.
Proof.
  unfold geride. intros [H1|[H1 H1']] [H2|[H2 H2']].
  - left. eapply compare_lt_trans; eassumption.
  - left. now rewrite <- H2.
  - left. now rewrite H1.
  - right. split; [congruence | lia].
Qed.

Lemma geride_total (a b : Fiyat) : geride a b \/ geride b a.
Proof.
  destruct (once_gelir a b) eqn:E.
  - right. unfold once_gelir in E. unfold geride.
    rewrite String.compare_antisym.
    destruct (String.compare (gecerlilik_tarihi a) (gecerlilik_tarihi b)) eqn:Ec;
      simpl; try discriminate; auto.
    apply String.compare_eq_iff in Ec. apply Z.ltb_lt in E.
    right. split; [auto | lia].
  - left. now apply once_gelir_geride.
Qed.

Lemma guncel_fiyat_dongusu (rows : list Fiyat) (b : Fiyat) :
  exists f,
    fold_left (fun best f =>
                 match best with
                 | None => Some f
                 | Some b => if once_gelir f b then Some f else Some b
                 end) rows (Some b) = Some f
    /\ (f = b \/ In f rows)
    /\ geride b f
    /\ Forall (fun g => geride g f) rows.
Proof.
  revert b. induction rows as [|r rows IH]; intros b; simpl.
  - exists b. repeat split; auto using geride_refl.
  - destruct (once_gelir r b) eqn:E.
    + destruct (IH r) as (f & Hf & Hin & Hr & Hall). exists f.
      split; [exact Hf|]. split; [right; destruct Hin; auto|].
      assert (Hb : geride b r).
      { destruct (geride_total b r) as [H|H]; [exact H|].
        apply once_gelir_geride in H. congruence. }
      split; [eapply geride_trans; eassumption|].
      constructor; assumption.
    + destruct (IH b) as (f & Hf & Hin & Hb & Hall). exists f.
      split; [exact Hf|]. split; [destruct Hin; auto|].
      split; [exact Hb|]. constructor; [|exact Hall].
      apply once_gelir_geride in E. eapply geride_trans; eassumption.
Qed.

(** X2. The price a lookup returns belongs to the material found, and no
    price row of that material is dated later, nor dated the same day
    with a larger identifier; the consumption rates returned are exactly
    the rows of that material. *)
Theorem guncel_fiyat_en_yeni (db : Veritabani) (ad : string)
    (info : MalzemeBilgisi) :
  malzeme_bilgisi_getir db ad = Some info ->
  let mid := malzeme_id (malzeme info) in
  (forall f, fiyat info = Some f ->
     In f (Fiyatlar db) /\ fiyat_malzeme_id f = mid
     /\ forall g, In g (Fiyatlar db) -> fiyat_malzeme_id g = mid ->
          String.compare (gecerlilik_tarihi g) (gecerlilik_tarihi f) = Lt
          \/ (gecerlilik_tarihi g = gecerlilik_tarihi f
              /\ (fiyat_id g <= fiyat_id f)%Z))
  /\ (fiyat info = None ->
      forall g, In g (Fiyatlar db) -> fiyat_malzeme_id g <> mid)
  /\ (forall s, In s (sarfiyat info) <->
                In s (Sarfiyatlar db) /\ sarfiyat_malzeme_id s = mid).
Proof.
  intros H. pose proof (TabloFacts.fiyat_yok db ad info H) as Hyok.
  unfold malzeme_bilgisi_getir in H.
  destruct (match filter _ (Malzemeler db) with [] => _ | _ => _ end) as [|m r];
    [discriminate|].
  injection H as <-. cbn [malzeme fiyat sarfiyat] in *. cbv zeta.
  split; [|split].
  - intros f Hf. unfold guncel_fiyat in Hf.
    destruct (filter (fun f0 => (fiyat_malzeme_id f0 =? malzeme_id m)%Z) (Fiyatlar db))
      as [|b rows] eqn:E; [discriminate|].
    simpl in Hf.
    destruct (guncel_fiyat_dongusu rows b) as (f' & Hf' & Hin & Hb & Hall).
    rewrite Hf' in Hf. injection Hf as ->.
    assert (Hmem : forall g, In g (b :: rows) <->
                             In g (Fiyatlar db) /\ fiyat_malzeme_id g = malzeme_id m).
    { intros g. rewrite <- E, filter_In, Z.eqb_eq. reflexivity. }
    assert (Hf : In f (b :: rows)) by (destruct Hin; [left; congruence | now right]).
    apply Hmem in Hf. destruct Hf as [Hf1 Hf2].
    split; [exact Hf1|]. split; [exact Hf2|].
    intros g Hg Hgm. assert (Hg' : In g (b :: rows)) by (apply Hmem; auto).
    destruct Hg' as [<-|Hg']; [exact Hb|].
    rewrite Forall_forall in Hall. now apply Hall.
  - intros Hn g Hg. apply Hyok in Hn. rewrite Forall_forall in Hn. now apply Hn.
  - intros s. rewrite filter_In, Z.eqb_eq. reflexivity.
Qed.

(** What a priced lookup returns are rows of the tables. *)
Lemma fiyatli_uyeler (db : Veritabani) (ad : string) info f :
  fiyatli db ad = Some (info, f) ->
  In (malzeme info) (Malzemeler db)
  /\ In f (Fiyatlar db)
  /\ incl (sarfiyat info) (Sarfiyatlar db).
Proof.
  unfold fiyatli, malzeme_bilgisi_getir.
  set (adla := filter (fun m => String.eqb (malzeme_adi m) ad) (Malzemeler db)).
  set (kat := filter (fun m => String.eqb (malzeme_kategori m) ad)
                     (Malzemeler db)).
  assert (Hm : forall m r, match adla with [] => kat | x :: l => x :: l end = m :: r ->
                           In m (Malzemeler db)).
  { intros m r H. assert (Hin : In m adla \/ In m kat).
    { destruct adla; [right | left]; rewrite H; now left. }
    destruct Hin as [Hin|Hin]; apply filter_In in Hin; tauto. }
  destruct (match adla with [] => kat | x :: l => x :: l end) as [|m r] eqn:E;
    [discriminate|].
  simpl. destruct (guncel_fiyat _) as [f'|] eqn:Ef; [|discriminate].
  intros [= <- <-]. simpl. split; [now apply (Hm m r)|]. split.
  - unfold guncel_fiyat in Ef.
    destruct (filter _ (Fiyatlar db)) as [|b rows] eqn:Er; [discriminate|].
    simpl in Ef.
    destruct (guncel_fiyat_dongusu rows b) as (f0 & H0 & Hin & _).
    rewrite H0 in Ef. injection Ef as ->.
    assert (Hf : In f' (b :: rows)) by (destruct Hin; [left; congruence | now right]).
    rewrite <- Er in Hf. apply filter_In in Hf. tauto.
  - intros s Hs. apply filter_In in Hs. tauto.
Qed.

End KatalogSorgusu.

(* ------------------------------------------------------------------ *)
(** ** When the estimator raises                                       *)
(* ------------------------------------------------------------------ *)

Section Hatalar.

Local Open Scope string_scope.

Variable math_cos : Q -> Q.
Variable math_radians : Q -> Q.
Variable json_loads : string -> option (Py.dict Q).
Variable str_lower : string -> string.
Variable float_str : Q -> string.
Variable db : Tablo.Veritabani.
Variable ev : EvBilgileri.

Local Abbreviation alan := (_alan_hesapla math_cos math_radians ev).
Local Abbreviation govde_ := (oda_adimi json_loads db alan).









End Hatalar.

Section HamHatalar.

Local Open Scope string_scope.

Variable math_cos : Q -> Q.
Variable math_radians : Q -> Q.
Variable json_loads : string -> option Json.
Variable str_lower : string -> string.
Variable float_str : Q -> string.
Variable db : Tablo.Veritabani.
Variable e : Dinamik.EvVerisi.


End HamHatalar.

(* ------------------------------------------------------------------ *)
(** ** The wall areas of the rooms and of the panels                   *)
(* ------------------------------------------------------------------ *)

Section DuvarAlanlari.

Variable math_cos : Q -> Q.
Variable math_radians : Q -> Q.

Local Abbreviation alan_hesapla := (_alan_hesapla math_cos math_radians).

Lemma sum_cons (x : Q) (l : list Q) : Py.sum (x :: l) == x + Py.sum l.
Proof.
  change (x :: l) with ([x] ++ l)%list. rewrite PyFacts.sum_app.
  unfold Py.sum at 1. simpl. lra.
Qed.

Lemma sum_map_ext {A} (f g : A -> Q) (l : list A) :
  (forall x, In x l -> f x == g x) ->
  Py.sum (map f l) == Py.sum (map g l).
Proof.
  induction l as [|a l IH]; intros H; simpl; [reflexivity|].
  rewrite !sum_cons, IH, (H a) by (try (intros; apply H); simpl; auto).
  reflexivity.
Qed.

Lemma sum_map_carp {A} (f : A -> Q) (c : Q) (l : list A) :
  Py.sum (map (fun x => f x - f x * c) l)
  == Py.sum (map f l) - Py.sum (map f l) * c.
Proof.
  induction l as [|a l IH]; simpl.
  - unfold Py.sum. simpl. lra.
  - rewrite !sum_cons, IH. lra.
Qed.

Lemma son_oda_tek (odalar : list Oda) (o : Oda) :
  NoDup (map oda_adi odalar) -> In o odalar ->
  son_oda (oda_adi o) odalar = Some o.
Proof.
  intros Hnd Hin. apply son_oda_spec.
  destruct (in_split _ _ Hin) as (l1 & l2 & ->).
  exists l1, l2. split; [reflexivity|]. split; [reflexivity|].
  rewrite map_app in Hnd. simpl in Hnd. apply NoDup_remove_2 in Hnd.
  apply Forall_forall. intros r Hr Hname. apply Hnd.
  apply in_or_app. right. rewrite <- Hname. now apply in_map.
Qed.

(** X4. When the rooms have distinct names, positive total gross wall
    area, openings that do not exceed it and no negative gross wall
    area, every room is priced from its own areas, no room is clamped,
    and the net wall areas of the rooms add up to the net wall area of
    the panels. *)
Theorem oda_net_toplami (ev : EvBilgileri) :
  let a := alan_hesapla ev in
  let odalar := oda_listesi ev in
  NoDup (map oda_adi odalar) ->
  0 < toplam_duvar_alani_brut a ->
  toplam_pencere_alani a + toplam_kapi_alani a <= toplam_duvar_alani_brut a ->
  (forall o, In o odalar -> 0 <= 2 * (uzunluk o + genislik o) * yukseklik o) ->
  (forall o, In o odalar -> Py.get (oda_adi o) (oda_alanlari a) = Some (oda_alani o))
  /\ Py.sum (map (fun o => oda_duvar_alani_net a (duvar (oda_alani o))) odalar)
     == net_duvar_alani_paneller_icin a.
Proof.
  cbv zeta. intros Hnd HB HO Hg. split.
  - intros o Hin. rewrite oda_alanlari_get, (son_oda_tek _ _ Hnd Hin). reflexivity.
  - set (a := alan_hesapla ev) in *.
    set (B := toplam_duvar_alani_brut a) in *.
    set (O := toplam_pencere_alani a + toplam_kapi_alani a) in *.
    assert (HBsum : B = Py.sum (map (fun o => duvar (oda_alani o)) (oda_listesi ev))).
    { unfold B, a. rewrite alanlar_eq. reflexivity. }
    assert (Hterm : forall o, In o (oda_listesi ev) ->
               oda_duvar_alani_net a (duvar (oda_alani o))
               == duvar (oda_alani o) - duvar (oda_alani o) * (O / B)).
    { intros o Hin. unfold oda_duvar_alani_net. fold B. fold O.
      apply PyFacts.lt_spec in HB as HB'. rewrite HB'.
      specialize (Hg o Hin). simpl. set (g := 2 * (uzunluk o + genislik o) * yukseklik o) in *.
      assert (Hle : g / B * O <= g).
      { assert (Hx : g / B * O == g * (O / B)) by (field; lra).
        rewrite Hx. destruct (Qlt_le_dec O 0) as [Hneg|Hpos].
        - assert (O / B <= 0).
          { apply Qle_shift_div_r; [exact HB | lra]. }
          assert (g * (O / B) <= 0) by nra. lra.
        - assert (O / B <= 1) by (apply Qle_shift_div_r; [exact HB | lra]).
          nra. }
      unfold sifira_kirp.
      assert (Hclamp : Py.lt (g - g / B * O) 0 = false)
        by (apply PyFacts.lt_false; lra).
      rewrite Hclamp. field. lra. }
    rewrite (sum_map_ext _ _ _ Hterm), sum_map_carp, <- HBsum.
    unfold net_duvar_alani_paneller_icin, sifira_kirp. fold B.
    assert (Hclamp : Py.lt (B - toplam_pencere_alani a - toplam_kapi_alani a) 0 = false)
      by (apply PyFacts.lt_false; unfold O in HO; lra).
    rewrite Hclamp. unfold O. field. lra.
Qed.

End DuvarAlanlari.

(* ------------------------------------------------------------------ *)
(** ** Bounds on the result                                            *)
(* ------------------------------------------------------------------ *)

Module Sayac.

Import Py.

Lemma for_each_sayac {A S} (f : S -> nat) (c : nat)
    (body : S -> A -> Exc S) (l : list A) :
  (forall s a s', body s a = Ok s' -> (f s' <= c + f s)%nat) ->
  forall s s', for_each body l s = Ok s' ->
               (f s' <= c * List.length l + f s)%nat.
Proof.
  intros Hb. induction l as [|a l IH]; intros s s'; simpl.
  - intros [= <-]. lia.
  - destruct (body s a) as [s1|e] eqn:E; simpl; [|discriminate].
    intros H. apply IH in H. apply Hb in E. lia.
Qed.

Lemma fold_left_sayac {A S} (f : S -> nat) (c : nat)
    (g : S -> A -> S) (l : list A) :
  (forall s a, (f (g s a) <= c + f s)%nat) ->
  forall s, (f (fold_left g l s) <= c * List.length l + f s)%nat.
Proof.
  intros Hg. induction l as [|a l IH]; intros s; simpl; [lia|].
  specialize (IH (g s a)). specialize (Hg s a). lia.
Qed.

Lemma length_enumerate_from {A} (i : nat) (l : list A) :
  List.length (enumerate_from i l) = List.length l.
Proof. revert i. induction l as [|a l IH]; intros i; simpl; auto. Qed.

Lemma length_set {V} (k : string) (v : V) (d : dict V) :
  (List.length (set k v d) <= Datatypes.S (List.length d))%nat.
Proof.
  induction d as [|[k' v'] d IH]; simpl; [lia|].
  destruct (String.eqb k' k); simpl; lia.
Qed.

End Sayac.

Section Sinirlar.

Local Open Scope string_scope.

Variable math_cos : Q -> Q.
Variable math_radians : Q -> Q.
Variable json_loads : string -> option (Py.dict Q).
Variable str_lower : string -> string.
Variable float_str : Q -> string.
Variable db : Tablo.Veritabani.
Variable ev : EvBilgileri.

Local Abbreviation alan := (_alan_hesapla math_cos math_radians ev).
Local Abbreviation hesapla_ :=
  (malzeme_ihtiyacini_hesapla math_cos math_radians json_loads str_lower
                              float_str db ev).

Lemma boy_topla m st : boy (topla m st) = boy st.
Proof. reflexivity. Qed.

Lemma boy_yaz e k m st : (boy (topla m (yaz e k st)) <= 1 + boy st)%nat.
Proof. unfold boy. simpl. apply Sayac.length_set. Qed.

Lemma oda_adimi_boy (st : Durum) (o : Oda) (st' : Durum) :
  oda_adimi json_loads db alan st o = Py.Ok st' -> (boy st' <= 2 + boy st)%nat.
Proof.
  unfold oda_adimi, Py.index.
  destruct (Py.get (oda_adi o) (oda_alanlari alan)) as [al|]; cbn [Py.bind];
    [|discriminate].
  set (st1 := zemin_kaplama json_loads db o (zemin al) st).
  assert (H1 : (boy st1 <= 1 + boy st)%nat).
  { unfold st1, zemin_kaplama. destruct (fiyatli db _) as [[i f]|]; [|lia].
    destruct (fayans_boyutu _ _); apply boy_yaz. }
  unfold duvar_kaplama. destruct (fiyatli db (duvar_kaplama_tipi o)) as [[i f]|].
  - match goal with
    | |- context [yerel_maliyet ?s] =>
        set (s2 := s);
        assert (H2 : (boy s2 <= 1 + boy st1)%nat); [|destruct (yerel_maliyet s2)]
    end.
    + unfold s2. destruct (String.eqb _ "Boya").
      * destruct (duvar_sarfiyati i); [lia | apply boy_yaz].
      * unfold boy. simpl. apply Sayac.length_set.
    + intros [= <-]. rewrite boy_topla. lia.
    + discriminate.
  - intros [= <-]. lia.
Qed.

(** X5. A returned result has at least one line, and at most three lines
    more than two per room and one per window and door entry. *)
Theorem satir_sayisi (m : Py.dict Kalem) (t : Q) :
  hesapla_ = Py.Ok (m, t) ->
  (1 <= List.length m
   <= 3 + 2 * List.length (oda_listesi ev) + List.length (pencere_listesi ev)
      + List.length (kapi_listesi ev))%nat.
Proof.
  intros H. apply hesapla_eq in H. destruct H as (st & Hst & -> & _).
  rewrite length_app. simpl. split; [lia|].
  assert (Hb : (boy st <= 1 * List.length (kapi_listesi ev)
                          + (1 * List.length (pencere_listesi ev)
                             + (2 * List.length (oda_listesi ev) + 2)))%nat);
    [|unfold boy in Hb; lia].
  unfold adimlar in Hst.
  destruct (Py.for_each _ _ _) as [s1|e] eqn:E; simpl in Hst; [|discriminate].
  injection Hst as <-.
  assert (H0 : (boy (cati_kaplama db alan (duvar_paneli db alan baslangic)) <= 2)%nat).
  { unfold cati_kaplama, duvar_paneli.
    destruct (fiyatli db "Duvar Paneli") as [[i1 f1]|];
      destruct (fiyatli db "Çatı Paneli") as [[i2 f2]|]; unfold boy; simpl; lia. }
  apply (Sayac.for_each_sayac boy 2) in E; [|apply oda_adimi_boy].
  pose proof (Sayac.fold_left_sayac boy 1 (pencere_adimi float_str db)
                (Py.enumerate (pencere_listesi ev))) as Hp.
  pose proof (Sayac.fold_left_sayac boy 1 (kapi_adimi str_lower float_str db)
                (Py.enumerate (kapi_listesi ev))) as Hk.
  unfold Py.enumerate in *. rewrite Sayac.length_enumerate_from in Hp.
  rewrite Sayac.length_enumerate_from in Hk.
  etransitivity; [apply Hk|].
  - intros s [i k]. unfold kapi_adimi. destruct (fiyatli db _) as [[i1 f1]|]; [|lia].
    apply boy_yaz.
  - apply Nat.add_le_mono_l. etransitivity; [apply Hp|].
    + intros s [i p]. unfold pencere_adimi. destruct (fiyatli db _) as [[i1 f1]|]; [|lia].
      apply boy_yaz.
    + lia.
Qed.

End Sinirlar.

(* ------------------------------------------------------------------ *)
(** ** No negative cost from sane data                                 *)
(* ------------------------------------------------------------------ *)

Section Negatifsiz.

Local Open Scope string_scope.

Variable math_cos : Q -> Q.
Variable math_radians : Q -> Q.
Variable json_loads : string -> option (Py.dict Q).
Variable str_lower : string -> string.
Variable float_str : Q -> string.
Variable db : Tablo.Veritabani.
Variable ev : EvBilgileri.

Local Abbreviation alan := (_alan_hesapla math_cos math_radians ev).
Local Abbreviation hesapla_ :=
  (malzeme_ihtiyacini_hesapla math_cos math_radians json_loads str_lower
                              float_str db ev).

Hypothesis fire_negatifsiz :
  forall m, In m (Tablo.Malzemeler db) -> 0 <= Tablo.varsayilan_fire_orani m.
Hypothesis fiyat_negatifsiz :
  forall f, In f (Tablo.Fiyatlar db) -> 0 <= Tablo.birim_fiyat f.
Hypothesis sarfiyat_negatifsiz :
  forall s, In s (Tablo.Sarfiyatlar db) -> 0 <= Tablo.sarfiyat_degeri s.
Hypothesis kat_negatifsiz :
  forall o, In o (oda_listesi ev) ->
            0 <= boya_kat_sayisi (ek_ozellikler_getir json_loads db (oda_adi o) "Duvar").
Hypothesis oda_negatifsiz :
  forall o, In o (oda_listesi ev) ->
            0 <= uzunluk o /\ 0 <= genislik o /\ 0 <= yukseklik o.
Hypothesis pencere_negatifsiz :
  forall p, In p (pencere_listesi ev) -> (0 <= pencere_adet p)%Z.
Hypothesis kapi_negatifsiz :
  forall k, In k (kapi_listesi ev) -> (0 <= kapi_adet k)%Z.
Hypothesis cati_egimi :
  cati_tipi ev = "Düz" \/ 0 <= math_cos (math_radians (cati_egim_acisi ev)).

Lemma negatifsiz_ekle (e : string) (k : Kalem) (st : Durum) :
  negatifsiz st -> 0 <= maliyet k ->
  negatifsiz (topla (maliyet k) (yaz e k st)).
Proof.
  intros (Ht & Hy & Hd) Hk. unfold negatifsiz. simpl. split; [lra|]. split.
  - intros m [= <-]. exact Hk.
  - apply PyFacts.Forall_set; assumption.
Qed.

Lemma sum_negatifsiz (l : list Q) (acc : Q) :
  0 <= acc -> Forall (fun x => 0 <= x) l -> 0 <= fold_left Qplus l acc.
Proof.
  revert acc. induction l as [|x l IH]; intros acc Ha Hl; simpl; [exact Ha|].
  inversion Hl; subst. apply IH; [lra | assumption].
Qed.

Lemma sifira_kirp_negatifsiz (x : Q) : 0 <= sifira_kirp x.
Proof.
  unfold sifira_kirp. destruct (Py.lt x 0) eqn:E; [lra|].
  now apply PyFacts.lt_false in E.
Qed.

Lemma carpim (x y : Q) : 0 <= x -> 0 <= y -> 0 <= x * y.
Proof. apply Qmult_le_0_compat. Qed.

Lemma taban_negatifsiz : 0 <= toplam_taban_alani alan.
Proof.
  rewrite alanlar_eq. cbn [toplam_taban_alani].
  apply sum_negatifsiz; [lra|]. apply Forall_forall. intros x Hx.
  apply in_map_iff in Hx. destruct Hx as (o & <- & Ho).
  destruct (oda_negatifsiz o Ho) as (H1 & H2 & _). now apply carpim.
Qed.

Lemma cati_negatifsiz : 0 <= cati_alani alan.
Proof.
  pose proof taban_negatifsiz as Ht. rewrite alanlar_eq in *.
  cbn [toplam_taban_alani cati_alani] in *.
  set (taban := fold_left Qplus _ 0) in *.
  assert (Hk : 0 <= taban_alani_her_kat ev taban).
  { unfold taban_alani_her_kat. destruct (0 <? kat_sayisi ev)%Z eqn:E; [|exact Ht].
    apply Z.ltb_lt in E. apply Qle_shift_div_l.
    - change 0 with (inject_Z 0). rewrite <- Zlt_Qlt. exact E.
    - lra. }
  unfold cati_alani_hesapla.
  destruct (negb (String.eqb (cati_tipi ev) "Düz")) eqn:Et; simpl; [|exact Hk].
  destruct (Py.lt 0 (cati_egim_acisi ev)); simpl; [|exact Hk].
  destruct (Py.lt (Qabs _) (1 # 1000)) eqn:Ec; [lra|].
  apply PyFacts.lt_false in Ec.
  destruct cati_egimi as [Hd|Hc].
  - rewrite Hd, String.eqb_refl in Et. discriminate.
  - set (c := math_cos (math_radians (cati_egim_acisi ev))) in *.
    rewrite Qabs_pos in Ec by exact Hc.
    apply Qle_shift_div_l; lra.
Qed.

Lemma oda_adimi_negatifsiz (st : Durum) (o : Oda) (st' : Durum) :
  In o (oda_listesi ev) -> negatifsiz st ->
  oda_adimi json_loads db alan st o = Py.Ok st' -> negatifsiz st'.
Proof.
  intros Hin Hst. unfold oda_adimi, Py.index. rewrite oda_alanlari_get.
  destruct (son_oda_In _ _ Hin) as [son Hson]. rewrite Hson. cbn [option_map Py.bind].
  assert (Hs : In son (oda_listesi ev)).
  { apply son_oda_spec in Hson. destruct Hson as (l1 & l2 & -> & _).
    apply in_or_app. right. now left. }
  destruct (oda_negatifsiz son Hs) as (Hu & Hg & Hy).
  set (z := zemin (oda_alani son)).
  assert (Hz : 0 <= z) by (apply carpim; assumption).
  set (n := oda_duvar_alani_net alan (duvar (oda_alani son))).
  assert (Hn : 0 <= n) by apply sifira_kirp_negatifsiz.
  assert (H1 : negatifsiz (zemin_kaplama json_loads db o z st)).
  { destruct (fiyatli db (zemin_kaplama_tipi o)) as [[info f]|] eqn:E.
    - rewrite (zemin_kaplama_eq _ _ _ _ _ _ _ E).
      destruct (KatalogSorgusu.fiyatli_uyeler _ _ _ _ E) as (Hm & Hf & _).
      apply fire_negatifsiz in Hm. apply fiyat_negatifsiz in Hf.
      apply negatifsiz_ekle; [exact Hst|]. unfold zemin_kalemi.
      destruct (fayans_boyutu _ _) as [b|] eqn:Eb; cbn [maliyet].
      + apply fayans_boyutu_spec in Eb. destruct Eb as (_ & _ & Hb).
        apply carpim; [apply carpim|]; [|lra|exact Hf].
        apply Qle_shift_div_l; lra.
      + apply carpim; [apply carpim|]; [exact Hz|lra|exact Hf].
    - unfold zemin_kaplama. now rewrite E. }
  revert H1. generalize (zemin_kaplama json_loads db o z st). intros s1 H1.
  unfold duvar_kaplama.
  destruct (fiyatli db (duvar_kaplama_tipi o)) as [[info f]|] eqn:E;
    [|intros [= <-]; exact H1].
  destruct (KatalogSorgusu.fiyatli_uyeler _ _ _ _ E) as (Hm & Hf & Hsar).
  apply fire_negatifsiz in Hm. apply fiyat_negatifsiz in Hf.
  match goal with
  | |- context [yerel_maliyet ?s] =>
      set (s2 := s); assert (H2 : negatifsiz s2); [|destruct (yerel_maliyet s2) eqn:Ey]
  end.
  - unfold s2. destruct (String.eqb _ "Boya").
    + destruct (duvar_sarfiyati info) as [|s kalan] eqn:Es; [exact H1|].
      apply negatifsiz_ekle; [exact H1|]. unfold boya_kalemi. cbn [maliyet].
      assert (Hr : 0 <= Tablo.sarfiyat_degeri s).
      { apply sarfiyat_negatifsiz, Hsar.
        assert (Hi : In s (duvar_sarfiyati info)) by (rewrite Es; now left).
        unfold duvar_sarfiyati in Hi. apply filter_In in Hi. tauto. }
      repeat apply carpim; try assumption; try lra.
      now apply kat_negatifsiz.
    + destruct H1 as (Ht & Hyl & Hd). unfold negatifsiz. simpl.
      assert (Hc : 0 <= n * (1 + Tablo.varsayilan_fire_orani (Tablo.malzeme info))
                        * Tablo.birim_fiyat f).
      { repeat apply carpim; try assumption; lra. }
      split; [exact Ht|]. split; [intros m [= <-]; exact Hc|].
      apply PyFacts.Forall_set; assumption.
  - intros [= <-]. destruct H2 as (Ht & Hyl & Hd). specialize (Hyl _ Ey).
    unfold negatifsiz. simpl. split; [lra|]. split; [|exact Hd].
    intros m Hm'. assert (m = q) by congruence. subst m. exact Hyl.
  - discriminate.
Qed.

(** X6. With no negative waste, price, consumption rate, coat count, room
    dimension or count, and a roof that is flat or pitched with a
    cosine that is not negative, a returned result has no negative cost
    and no negative total. *)
Theorem maliyet_negatif_olmaz (m : Py.dict Kalem) (t : Q) :
  hesapla_ = Py.Ok (m, t) ->
  0 <= t /\ Forall (fun ek => 0 <= maliyet (snd ek)) m.
Proof.
  intros H. apply hesapla_eq in H. destruct H as (st & Hst & -> & ->).
  assert (Hn : negatifsiz st).
  { unfold adimlar in Hst.
    destruct (Py.for_each _ _ _) as [s1|e] eqn:E; simpl in Hst; [|discriminate].
    injection Hst as <-.
    apply Donguler.fold_left_inv.
    { intros s [i k] Hin Hs. unfold kapi_adimi.
      destruct (fiyatli db _) as [[info f]|] eqn:Ef; [|exact Hs].
      destruct (KatalogSorgusu.fiyatli_uyeler _ _ _ _ Ef) as (_ & Hf & _). apply fiyat_negatifsiz in Hf.
      apply negatifsiz_ekle; [exact Hs|]. cbn [maliyet adet_kalemi].
      apply carpim; [|exact Hf]. change 0 with (inject_Z 0). rewrite <- Zle_Qle.
      apply kapi_negatifsiz.
      clear - Hin. unfold Py.enumerate in Hin. revert Hin. generalize 0%nat.
      induction (kapi_listesi ev) as [|x l IH]; intros n; simpl; [tauto|].
      intros [[= _ <-]|H]; [now left | right; eapply IH; eassumption]. }
    apply Donguler.fold_left_inv.
    { intros s [i p] Hin Hs. unfold pencere_adimi.
      destruct (fiyatli db _) as [[info f]|] eqn:Ef; [|exact Hs].
      destruct (KatalogSorgusu.fiyatli_uyeler _ _ _ _ Ef) as (_ & Hf & _). apply fiyat_negatifsiz in Hf.
      apply negatifsiz_ekle; [exact Hs|]. cbn [maliyet adet_kalemi].
      apply carpim; [|exact Hf]. change 0 with (inject_Z 0). rewrite <- Zle_Qle.
      apply pencere_negatifsiz.
      clear - Hin. unfold Py.enumerate in Hin. revert Hin. generalize 0%nat.
      induction (pencere_listesi ev) as [|x l IH]; intros n; simpl; [tauto|].
      intros [[= _ <-]|H]; [now left | right; eapply IH; eassumption]. }
    revert E. apply Donguler.for_each_inv.
    { intros s o s' Hin. now apply oda_adimi_negatifsiz. }
    assert (H0 : negatifsiz baslangic).
    { unfold negatifsiz. simpl. split; [lra|]. split; [discriminate | constructor]. }
    assert (H1 : negatifsiz (duvar_paneli db alan baslangic)).
    { unfold duvar_paneli. destruct (fiyatli db "Duvar Paneli") as [[info f]|] eqn:Ef;
        [|exact H0].
      destruct (KatalogSorgusu.fiyatli_uyeler _ _ _ _ Ef) as (Hm & Hf & _).
      apply fire_negatifsiz in Hm. apply fiyat_negatifsiz in Hf.
      apply negatifsiz_ekle; [exact H0|]. cbn [maliyet].
      repeat apply carpim; try assumption; try lra. apply sifira_kirp_negatifsiz. }
    unfold cati_kaplama. destruct (fiyatli db "Çatı Paneli") as [[info f]|] eqn:Ef;
      [|exact H1].
    destruct (KatalogSorgusu.fiyatli_uyeler _ _ _ _ Ef) as (Hm & Hf & _).
    apply fire_negatifsiz in Hm. apply fiyat_negatifsiz in Hf.
    apply negatifsiz_ekle; [exact H1|]. cbn [maliyet].
    repeat apply carpim; try assumption; try lra. apply cati_negatifsiz. }
  destruct Hn as (Ht & _ & Hd).
  assert (Ho : 0 <= toplam_maliyet_temp st * tesisat_baglanti_orani).
  { apply carpim; [exact Ht|]. unfold tesisat_baglanti_orani. lra. }
  split; [lra|]. apply Forall_app. split; [exact Hd|].
  constructor; [exact Ho | constructor].
Qed.

End Negatifsiz.

(* ------------------------------------------------------------------ *)
(** ** The covering names offered by the form                          *)
(* ------------------------------------------------------------------ *)

Module KaplamaTipleri.

Import Tablo Kume.
Local Open Scope string_scope.

Lemma add_in (x y : string) (s : list string) :
  In y (add x s) <-> y = x \/ In y s.
Proof.
  unfold add. destruct (existsb (String.eqb x) s) eqn:E.
  - split; [auto|]. intros [->|H]; [|exact H].
    apply existsb_exists in E. destruct E as (z & Hz & Ez).
    apply String.eqb_eq in Ez. now subst z.
  - rewrite in_app_iff. simpl. intuition auto.
Qed.

Lemma add_NoDup (x : string) (s : list string) : NoDup s -> NoDup (add x s).
Proof.
  intros H. unfold add. destruct (existsb (String.eqb x) s) eqn:E; [exact H|].
  assert (Hn : ~ In x s).
  { intros Hin. assert (existsb (String.eqb x) s = true); [|congruence].
    apply existsb_exists. exists x. split; [exact Hin | apply String.eqb_refl]. }
  clear E. induction H as [|a l Ha Hl IH]; simpl.
  - constructor; [intros []|constructor].
  - constructor.
    + rewrite in_app_iff. simpl. intros [H|[H|[]]]; [now apply Ha|].
      apply Hn. left. now symmetry.
    + apply IH. intros H. apply Hn. now right.
Qed.

Lemma yerlestir_in (x y : string) (l : list string) :
  In y (yerlestir x l) <-> y = x \/ In y l.
Proof.
  induction l as [|z l IH]; simpl.
  - intuition auto.
  - destruct (String.leb x z); simpl; [intuition auto|].
    rewrite IH. intuition auto.
Qed.

Lemma sorted_in (y : string) (l : list string) : In y (sorted l) <-> In y l.
Proof.
  induction l as [|x l IH]; simpl; [reflexivity|].
  rewrite yerlestir_in, IH. intuition auto.
Qed.

Lemma leb_false_lt (x y : string) :
  String.leb x y = false -> String.compare y x = Lt.
Proof.
  unfold String.leb. rewrite (String.compare_antisym y x).
  destruct (String.compare x y); simpl; congruence.
Qed.

Lemma leb_true_lt (x y : string) :
  String.leb x y = true -> x <> y -> String.compare x y = Lt.
Proof.
  unfold String.leb. intros H Hne.
  destruct (String.compare x y) eqn:E; [|reflexivity|discriminate].
  apply String.compare_eq_iff in E. contradiction.
Qed.

Lemma yerlestir_artan (x : string) (l : list string) :
  artan l -> ~ In x l -> artan (yerlestir x l).
Proof.
  unfold artan. intros H. induction H as [|y l Hl IH Hy]; intros Hn; simpl.
  - constructor; constructor.
  - destruct (String.leb x y) eqn:E.
    + assert (Hxy : String.compare x y = Lt).
      { apply leb_true_lt; [exact E|]. intros ->. apply Hn. now left. }
      constructor; [constructor; assumption|].
      constructor; [exact Hxy|].
      apply Forall_forall. intros z Hz.
      apply (KatalogSorgusu.compare_lt_trans _ _ _ Hxy).
      rewrite Forall_forall in Hy. now apply Hy.
    + constructor.
      * apply IH. intros H. apply Hn. now right.
      * apply Forall_forall. intros z Hz. apply yerlestir_in in Hz.
        destruct Hz as [->|Hz]; [now apply leb_false_lt|].
        rewrite Forall_forall in Hy. now apply Hy.
Qed.

Lemma sorted_artan (l : list string) : NoDup l -> artan (sorted l).
Proof.
  induction 1 as [|x l Hx Hl IH]; simpl.
  - constructor.
  - apply yerlestir_artan; [exact IH|]. now rewrite sorted_in.
Qed.

Lemma compare_refl_ne (x : string) : String.compare x x <> Lt.
Proof.
  rewrite KatalogSorgusu.compare_refl. discriminate.
Qed.

(** A strictly increasing list is determined by its elements. *)
Lemma artan_tek (l1 : list string) :
  forall l2, artan l1 -> artan l2 -> (forall x, In x l1 <-> In x l2) -> l1 = l2.
Proof.
  unfold artan. induction l1 as [|a l1 IH]; intros [|b l2] H1 H2 Heq.
  - reflexivity.
  - exfalso. apply (proj2 (Heq b)). now left.
  - exfalso. apply (proj1 (Heq a)). now left.
  - apply StronglySorted_inv in H1. destruct H1 as [H1 Ha].
    apply StronglySorted_inv in H2. destruct H2 as [H2 Hb].
    rewrite Forall_forall in Ha, Hb.
    assert (Hab : a = b).
    { destruct (proj1 (Heq a) (or_introl eq_refl)) as [E|Hin]; [now symmetry|].
      destruct (proj2 (Heq b) (or_introl eq_refl)) as [E|Hin']; [exact E|].
      exfalso. apply (compare_refl_ne a).
      apply (KatalogSorgusu.compare_lt_trans _ b _); [now apply Ha | now apply Hb]. }
    subst b. f_equal. apply IH; [exact H1 | exact H2|].
    intros x. split; intros Hx.
    + destruct (proj1 (Heq x) (or_intror Hx)) as [E|Hin]; [|exact Hin].
      subst x. exfalso. apply (compare_refl_ne a). now apply Ha.
    + destruct (proj2 (Heq x) (or_intror Hx)) as [E|Hin]; [|exact Hin].
      subst x. exfalso. apply (compare_refl_ne a). now apply Hb.
Qed.

Lemma kume_dongusu (kaplama_mi : Malzeme -> bool) (rows : list Malzeme)
    (s : list string) :
  let s' := fold_left (fun s row => if kaplama_mi row
                                    then add (malzeme_adi row) s else s) rows s in
  (NoDup s -> NoDup s')
  /\ forall x, In x s' <->
               In x s \/ exists m, In m rows /\ kaplama_mi m = true
                                   /\ malzeme_adi m = x.
Proof.
  revert s. induction rows as [|r rows IH]; intros s; simpl.
  - split; [auto|]. intros x. split; [auto|]. intros [H|(m & [] & _)]. exact H.
  - destruct (IH (if kaplama_mi r then add (malzeme_adi r) s else s)) as [IH1 IH2].
    split.
    + intros H. apply IH1. destruct (kaplama_mi r); [now apply add_NoDup | exact H].
    + intros x. rewrite IH2. destruct (kaplama_mi r) eqn:E.
      * rewrite add_in. split.
        -- intros [[->|H]|(m & Hm & Hk & Hx)]; [right|left|right].
           ++ exists r. auto.
           ++ exact H.
           ++ exists m. auto.
        -- intros [H|(m & [->|Hm] & Hk & Hx)].
           ++ left. now right.
           ++ left. left. now symmetry.
           ++ right. exists m. auto.
      * split.
        -- intros [H|(m & Hm & Hk & Hx)]; [now left|]. right. exists m. auto.
        -- intros [H|(m & [->|Hm] & Hk & Hx)]; [now left|congruence|].
           right. exists m. auto.
Qed.

(** X7. The covering names offered by the form are the names of the
    materials of the two covering categories, each once, in strictly
    increasing order; no other list of these names is strictly
    increasing. *)
Theorem kaplama_tipleri_sirali (db : Veritabani) :
  artan (get_oda_kaplama_tipleri db)
  /\ (forall x, In x (get_oda_kaplama_tipleri db) <->
        exists m, In m (Malzemeler db)
                  /\ (malzeme_kategori m = "Zemin Kaplama"
                      \/ malzeme_kategori m = "Duvar Kaplama")
                  /\ malzeme_adi m = x)
  /\ (forall l, artan l ->
        (forall x, In x l <-> In x (get_oda_kaplama_tipleri db)) ->
        l = get_oda_kaplama_tipleri db).
Proof.
  unfold get_oda_kaplama_tipleri.
  destruct (kume_dongusu
              (fun m => String.eqb (malzeme_kategori m) "Zemin Kaplama"
                        || String.eqb (malzeme_kategori m) "Duvar Kaplama")
              (Malzemeler db) []) as [Hnd Hin].
  cbv zeta in Hnd, Hin.
  assert (Ha : artan (sorted (fold_left
            (fun s row =>
               if String.eqb (malzeme_kategori row) "Zemin Kaplama"
                  || String.eqb (malzeme_kategori row) "Duvar Kaplama"
               then add (malzeme_adi row) s else s) (Malzemeler db) []))).
  { apply sorted_artan. apply Hnd. constructor. }
  split; [exact Ha|]. split.
  - intros x. rewrite sorted_in, Hin. split.
    + intros [[]|(m & Hm & Hk & Hx)]. exists m. split; [exact Hm|].
      split; [|exact Hx]. apply orb_true_iff in Hk.
      destruct Hk as [Hk|Hk]; apply String.eqb_eq in Hk; auto.
    + intros (m & Hm & Hk & Hx). right. exists m. split; [exact Hm|].
      split; [|exact Hx]. apply orb_true_iff.
      destruct Hk as [Hk|Hk]; rewrite Hk; auto.
  - intros l Hl Heq. apply artan_tek; assumption.
Qed.

(** X8. Every covering name the form offers is found by the catalog
    lookup of the estimator, as the name of the material returned. *)
Theorem kaplama_tipi_bulunur (db : Veritabani) (x : string) :
  In x (get_oda_kaplama_tipleri db) ->
  exists info, malzeme_bilgisi_getir db x = Some info
               /\ malzeme_adi (malzeme info) = x.
Proof.
  unfold get_oda_kaplama_tipleri. rewrite sorted_in.
  destruct (kume_dongusu
              (fun m => String.eqb (malzeme_kategori m) "Zemin Kaplama"
                        || String.eqb (malzeme_kategori m) "Duvar Kaplama")
              (Malzemeler db) []) as [_ Hin].
  cbv zeta in Hin. rewrite Hin. intros [[]|(m & Hm & _ & Hx)].
  unfold malzeme_bilgisi_getir.
  destruct (filter (fun m0 => String.eqb (malzeme_adi m0) x) (Malzemeler db))
    as [|m0 l] eqn:E.
  - exfalso. assert (H : In m (filter (fun m0 => String.eqb (malzeme_adi m0) x)
                                      (Malzemeler db))).
    { apply filter_In. split; [exact Hm|]. now apply String.eqb_eq. }
    rewrite E in H. destruct H.
  - eexists. split; [reflexivity|]. simpl.
    assert (H : In m0 (filter (fun m0 => String.eqb (malzeme_adi m0) x)
                              (Malzemeler db))) by (rewrite E; now left).
    apply filter_In in H. destruct H as [_ H]. now apply String.eqb_eq in H.
Qed.

End KaplamaTipleri.

(* ------------------------------------------------------------------ *)
(** ** From the form to the house                                      *)
(* ------------------------------------------------------------------ *)

Module Indeksler.

Lemma her_indeks_app {S} (govde : S -> nat -> option S) (l1 l2 : list nat) (s : S) :
  her_indeks govde (l1 ++ l2) s
  = match her_indeks govde l1 s with
    | Some s' => her_indeks govde l2 s'
    | None => None
    end.
Proof.
  revert s. induction l1 as [|i l1 IH]; intros s; simpl; [reflexivity|].
  destruct (govde s i); [apply IH | reflexivity].
Qed.

Lemma nth_error_combine {A B} (l1 : list A) (l2 : list B) (i : nat) :
  nth_error (combine l1 l2) i
  = match nth_error l1 i, nth_error l2 i with
    | Some a, Some b => Some (a, b)
    | _, _ => None
    end.
Proof.
  revert l2 i. induction l1 as [|a l1 IH]; intros [|b l2] [|i]; simpl;
    try reflexivity.
  - destruct (nth_error l1 i); reflexivity.
  - apply IH.
Qed.

Lemma firstn_S_Some {A} (l : list A) (k : nat) (x : A) :
  nth_error l k = Some x -> firstn (S k) l = (firstn k l ++ [x])%list.
Proof.
  revert k. induction l as [|a l IH]; intros [|k]; simpl; try discriminate.
  - now intros [= ->].
  - intros H. now rewrite <- (IH k H).
Qed.

Lemma firstn_S_None {A} (l : list A) (k : nat) :
  nth_error l k = None -> firstn (S k) l = firstn k l.
Proof.
  intros H. apply nth_error_None in H.
  rewrite !firstn_all2; [reflexivity | lia | lia].
Qed.

(** An index loop that appends is a filter and a map of the rows. *)
Lemma her_indeks_satirlar {S R} (govde : list S -> nat -> option (list S))
    (rows : list R) (tut : R -> bool) (yap : R -> S) (n : nat) :
  (List.length rows <= n)%nat ->
  (forall i r acc, nth_error rows i = Some r ->
     govde acc i = Some (if tut r then acc ++ [yap r] else acc)%list) ->
  (forall i acc acc', nth_error rows i = None ->
     govde acc i = Some acc' -> acc' = acc) ->
  forall res, her_indeks govde (seq 0 n) [] = Some res ->
              res = map yap (filter tut rows).
Proof.
  intros Hlen Hs Hn.
  assert (H : forall k res, her_indeks govde (seq 0 k) [] = Some res ->
                            res = map yap (filter tut (firstn k rows))).
  { induction k as [|k IH]; intros res.
    - simpl. now intros [= <-].
    - rewrite seq_S, her_indeks_app. change (0 + k)%nat with k.
      destruct (her_indeks govde (seq 0 k) []) as [acc|]; [|discriminate].
      cbn [her_indeks].
      specialize (IH acc eq_refl).
      destruct (govde acc k) as [acc'|] eqn:E; [|discriminate].
      intros [= <-].
      destruct (nth_error rows k) as [r|] eqn:Er.
      + rewrite (Hs k r acc Er) in E. injection E as <-.
        rewrite (firstn_S_Some _ _ _ Er), filter_app, map_app, <- IH. simpl.
        destruct (tut r); simpl; [reflexivity | now rewrite app_nil_r].
      + rewrite (firstn_S_None _ _ Er), <- IH. exact (Hn k acc acc' Er E). }
  intros res Hres. rewrite (H n res Hres), firstn_all2; [reflexivity | exact Hlen].
Qed.

(** An index loop raises exactly when its body raises at one index. *)
Lemma her_indeks_None {S} (govde : S -> nat -> option S) (bozuk : nat -> Prop) :
  (forall i s, govde s i = None <-> bozuk i) ->
  forall idx s, her_indeks govde idx s = None <-> exists i, In i idx /\ bozuk i.
Proof.
  intros Hb. induction idx as [|i idx IH]; intros s; simpl.
  - split; [discriminate | intros (i & [] & _)].
  - destruct (govde s i) as [s'|] eqn:E.
    + rewrite IH. split.
      * intros (j & Hj & Hbz). exists j. auto.
      * intros (j & [<-|Hj] & Hbz).
        -- apply Hb with (s := s) in Hbz. congruence.
        -- exists j. auto.
    + split; [|reflexivity]. intros _. exists i. split; [now left|].
      apply (Hb i s). exact E.
Qed.

Lemma her_indeks_inv {S} (govde : S -> nat -> option S) (P : S -> Prop) :
  (forall i s s', P s -> govde s i = Some s' -> P s') ->
  forall idx s s', P s -> her_indeks govde idx s = Some s' -> P s'.
Proof.
  intros Hg. induction idx as [|i idx IH]; intros s s' Hs; simpl.
  - now intros [= <-].
  - destruct (govde s i) as [s1|] eqn:E; [|discriminate].
    apply IH. exact (Hg i s s1 Hs E).
Qed.

Lemma al_None {A B} (l : list A) (i : nat) (k : A -> option B) (P : Prop) :
  (forall a, k a = None <-> P) ->
  al l i k = None <-> (List.length l <= i)%nat \/ P.
Proof.
  intros Hk. unfold al. destruct (nth_error l i) as [a|] eqn:E.
  - rewrite Hk. split; [auto|]. intros [H|H]; [|exact H].
    apply nth_error_None in H. congruence.
  - split; [|reflexivity]. intros _. left. now apply nth_error_None.
Qed.

Lemma eksik_cons (i n : nat) (ns : list nat) :
  eksik i (n :: ns) <-> (n <= i)%nat \/ eksik i ns.
Proof. apply Exists_cons. Qed.

Lemma eksik_nil (i : nat) : eksik i [] <-> False.
Proof. apply Exists_nil. Qed.

End Indeksler.

Section Formlar.

Local Open Scope string_scope.

Variable str_strip : string -> string.
Variable f : Istek.Form.

Import Indeksler.

Lemma oda_ekle_satir (i : nat) r (acc : list Oda) :
  nth_error (oda_satirlari f) i = Some r ->
  oda_ekle str_strip f acc i
  = Some (if adi_dolu str_strip r
          then acc ++ [satirdan_oda str_strip r] else acc)%list.
Proof.
  unfold oda_satirlari, oda_ekle, al. rewrite !nth_error_combine.
  destruct (nth_error (Istek.oda_adi f) i) as [ad|]; [|discriminate].
  destruct (nth_error (Istek.oda_uzunluk f) i) as [u|]; [|discriminate].
  destruct (nth_error (Istek.oda_genislik f) i) as [g|]; [|discriminate].
  destruct (nth_error (Istek.oda_yukseklik f) i) as [y|]; [|discriminate].
  destruct (nth_error (Istek.oda_zemin_kaplama f) i) as [z|]; [|discriminate].
  destruct (nth_error (Istek.oda_duvar_kaplama f) i) as [d|]; [|discriminate].
  intros [= <-]. unfold adi_dolu. simpl.
  destruct (negb (String.eqb (str_strip ad) "")); reflexivity.
Qed.

Lemma oda_ekle_atlar (i : nat) (acc acc' : list Oda) :
  nth_error (oda_satirlari f) i = None ->
  oda_ekle str_strip f acc i = Some acc' -> acc' = acc.
Proof.
  unfold oda_satirlari, oda_ekle, al. rewrite !nth_error_combine.
  destruct (nth_error (Istek.oda_adi f) i) as [ad|]; [|discriminate].
  destruct (negb (String.eqb (str_strip ad) "")); [|now intros _ [= <-]].
  destruct (nth_error (Istek.oda_uzunluk f) i) as [u|]; [|discriminate].
  destruct (nth_error (Istek.oda_genislik f) i) as [g|]; [|discriminate].
  destruct (nth_error (Istek.oda_yukseklik f) i) as [y|]; [|discriminate].
  destruct (nth_error (Istek.oda_zemin_kaplama f) i) as [z|]; [|discriminate].
  destruct (nth_error (Istek.oda_duvar_kaplama f) i) as [d|]; discriminate.
Qed.

Lemma pencere_ekle_satir (i : nat) r (acc : list Pencere) :
  nth_error (pencere_satirlari f) i = Some r ->
  pencere_ekle f acc i
  = Some (if adetli r then acc ++ [satirdan_pencere r] else acc)%list.
Proof.
  unfold pencere_satirlari, pencere_ekle, al. rewrite !nth_error_combine.
  destruct (nth_error (Istek.pencere_adet f) i) as [adet|]; [|discriminate].
  destruct (nth_error (Istek.pencere_genislik f) i) as [g|]; [|discriminate].
  destruct (nth_error (Istek.pencere_yukseklik f) i) as [y|]; [|discriminate].
  intros [= <-]. unfold adetli. simpl.
  destruct (0 <? adet)%Z; reflexivity.
Qed.

Lemma pencere_ekle_atlar (i : nat) (acc acc' : list Pencere) :
  nth_error (pencere_satirlari f) i = None ->
  pencere_ekle f acc i = Some acc' -> acc' = acc.
Proof.
  unfold pencere_satirlari, pencere_ekle, al. rewrite !nth_error_combine.
  destruct (nth_error (Istek.pencere_adet f) i) as [adet|]; [|discriminate].
  destruct (0 <? adet)%Z; [|now intros _ [= <-]].
  destruct (nth_error (Istek.pencere_genislik f) i) as [g|]; [|discriminate].
  destruct (nth_error (Istek.pencere_yukseklik f) i) as [y|]; discriminate.
Qed.

Lemma kapi_ekle_satir (i : nat) r (acc : list Kapi) :
  nth_error (kapi_satirlari f) i = Some r ->
  kapi_ekle str_strip f acc i
  = Some (if adetli r then acc ++ [satirdan_kapi str_strip r] else acc)%list.
Proof.
  unfold kapi_satirlari, kapi_ekle, al. rewrite !nth_error_combine.
  destruct (nth_error (Istek.kapi_adet f) i) as [adet|]; [|discriminate].
  destruct (nth_error (Istek.kapi_adi f) i) as [ad|]; [|discriminate].
  destruct (nth_error (Istek.kapi_genislik f) i) as [g|]; [|discriminate].
  destruct (nth_error (Istek.kapi_yukseklik f) i) as [y|]; [|discriminate].
  intros [= <-]. unfold adetli. simpl.
  destruct (0 <? adet)%Z; reflexivity.
Qed.

Lemma kapi_ekle_atlar (i : nat) (acc acc' : list Kapi) :
  nth_error (kapi_satirlari f) i = None ->
  kapi_ekle str_strip f acc i = Some acc' -> acc' = acc.
Proof.
  unfold kapi_satirlari, kapi_ekle, al. rewrite !nth_error_combine.
  destruct (nth_error (Istek.kapi_adet f) i) as [adet|]; [|discriminate].
  destruct (0 <? adet)%Z; [|now intros _ [= <-]].
  destruct (nth_error (Istek.kapi_adi f) i) as [ad|]; [|discriminate].
  destruct (nth_error (Istek.kapi_genislik f) i) as [g|]; [|discriminate].
  destruct (nth_error (Istek.kapi_yukseklik f) i) as [y|]; discriminate.
Qed.

Lemma combine_boy {A B} (l1 : list A) (l2 : list B) :
  (List.length (combine l1 l2) <= List.length l1)%nat.
Proof. rewrite length_combine. lia. Qed.

(** X9. When the handler builds the house without an exception, the
    rooms are the rows of the room lists whose stripped name is not
    empty, the windows and doors the rows whose count is positive, in
    the order of the form, and the four other fields are those of the
    form. *)
Theorem ev_data_satirlardan (ev : Dinamik.EvVerisi) :
  ev_data_olustur str_strip f = Some ev ->
  ev = {| Dinamik.ev_tipi := Istek.ev_tipi f;
          Dinamik.kat_sayisi := Istek.kat_sayisi f;
          Dinamik.cati_tipi := Istek.cati_tipi f;
          Dinamik.cati_egim_acisi := Istek.cati_egim_acisi f;
          Dinamik.oda_listesi :=
            map (satirdan_oda str_strip)
                (filter (adi_dolu str_strip) (oda_satirlari f));
          Dinamik.pencere_listesi :=
            map satirdan_pencere (filter adetli (pencere_satirlari f));
          Dinamik.kapi_listesi :=
            map (satirdan_kapi str_strip)
                (filter adetli (kapi_satirlari f)) |}.
Proof.
  unfold ev_data_olustur.
  destruct (her_indeks (oda_ekle str_strip f) _ []) as [odalar|] eqn:Eo;
    [|discriminate].
  destruct (her_indeks (pencere_ekle f) _ []) as [pencereler|] eqn:Ep;
    [|discriminate].
  destruct (her_indeks (kapi_ekle str_strip f) _ []) as [kapilar|] eqn:Ek;
    [|discriminate].
  intros [= <-].
  apply (her_indeks_satirlar _ (oda_satirlari f) (adi_dolu str_strip)
           (satirdan_oda str_strip)) in Eo;
    [| apply combine_boy
     | intros i r acc; apply oda_ekle_satir
     | intros i acc acc'; apply oda_ekle_atlar].
  apply (her_indeks_satirlar _ (pencere_satirlari f) adetli satirdan_pencere) in Ep;
    [| apply combine_boy
     | intros i r acc; apply pencere_ekle_satir
     | intros i acc acc'; apply pencere_ekle_atlar].
  apply (her_indeks_satirlar _ (kapi_satirlari f) adetli
           (satirdan_kapi str_strip)) in Ek;
    [| apply combine_boy
     | intros i r acc; apply kapi_ekle_satir
     | intros i acc acc'; apply kapi_ekle_atlar].
  now subst.
Qed.

Lemma oda_ekle_None (i : nat) (acc : list Oda) :
  oda_ekle str_strip f acc i = None <->
  (List.length (Istek.oda_adi f) <= i)%nat
  \/ exists ad, nth_error (Istek.oda_adi f) i = Some ad /\ str_strip ad <> ""
       /\ eksik i [List.length (Istek.oda_uzunluk f);
                   List.length (Istek.oda_genislik f);
                   List.length (Istek.oda_yukseklik f);
                   List.length (Istek.oda_zemin_kaplama f);
                   List.length (Istek.oda_duvar_kaplama f)].
Proof.
  unfold oda_ekle. unfold al at 1.
  destruct (nth_error (Istek.oda_adi f) i) as [ad|] eqn:E.
  - assert (Hi : ~ (List.length (Istek.oda_adi f) <= i)%nat).
    { intros H. apply nth_error_None in H. congruence. }
    destruct (String.eqb_spec (str_strip ad) "") as [Hb|Hb]; cbn [negb].
    + split; [discriminate|]. intros [H|(ad' & [= <-] & Hne & _)]; contradiction.
    + match goal with
      | |- ?L = None <-> _ =>
          assert (Hch : L = None <->
                        eksik i [List.length (Istek.oda_uzunluk f);
                                 List.length (Istek.oda_genislik f);
                                 List.length (Istek.oda_yukseklik f);
                                 List.length (Istek.oda_zemin_kaplama f);
                                 List.length (Istek.oda_duvar_kaplama f)])
      end.
      { rewrite !eksik_cons, eksik_nil.
        apply al_None; intros u. apply al_None; intros g.
        apply al_None; intros y. apply al_None; intros z.
        apply al_None; intros d. split; [discriminate | intros []]. }
      rewrite Hch. split.
      * intros H. right. exists ad. auto.
      * intros [H|(ad' & [= <-] & _ & H)]; [contradiction | exact H].
  - split; [|reflexivity]. intros _. left. now apply nth_error_None.
Qed.

Lemma pencere_ekle_None (i : nat) (acc : list Pencere) :
  pencere_ekle f acc i = None <->
  (List.length (Istek.pencere_adet f) <= i)%nat
  \/ exists adet, nth_error (Istek.pencere_adet f) i = Some adet /\ (0 < adet)%Z
       /\ eksik i [List.length (Istek.pencere_genislik f);
                   List.length (Istek.pencere_yukseklik f)].
Proof.
  unfold pencere_ekle. unfold al at 1.
  destruct (nth_error (Istek.pencere_adet f) i) as [adet|] eqn:E.
  - assert (Hi : ~ (List.length (Istek.pencere_adet f) <= i)%nat).
    { intros H. apply nth_error_None in H. congruence. }
    destruct (Z.ltb_spec 0 adet) as [Hb|Hb].
    + match goal with
      | |- ?L = None <-> _ =>
          assert (Hch : L = None <->
                        eksik i [List.length (Istek.pencere_genislik f);
                                 List.length (Istek.pencere_yukseklik f)])
      end.
      { rewrite !eksik_cons, eksik_nil.
        apply al_None; intros g. apply al_None; intros y.
        split; [discriminate | intros []]. }
      rewrite Hch. split.
      * intros H. right. exists adet. auto.
      * intros [H|(a' & [= <-] & _ & H)]; [contradiction | exact H].
    + split; [discriminate|]. intros [H|(a' & [= <-] & Hp & _)]; [contradiction|lia].
  - split; [|reflexivity]. intros _. left. now apply nth_error_None.
Qed.

Lemma kapi_ekle_None (i : nat) (acc : list Kapi) :
  kapi_ekle str_strip f acc i = None <->
  (List.length (Istek.kapi_adet f) <= i)%nat
  \/ exists adet, nth_error (Istek.kapi_adet f) i = Some adet /\ (0 < adet)%Z
       /\ eksik i [List.length (Istek.kapi_adi f);
                   List.length (Istek.kapi_genislik f);
                   List.length (Istek.kapi_yukseklik f)].
Proof.
  unfold kapi_ekle. unfold al at 1.
  destruct (nth_error (Istek.kapi_adet f) i) as [adet|] eqn:E.
  - assert (Hi : ~ (List.length (Istek.kapi_adet f) <= i)%nat).
    { intros H. apply nth_error_None in H. congruence. }
    destruct (Z.ltb_spec 0 adet) as [Hb|Hb].
    + match goal with
      | |- ?L = None <-> _ =>
          assert (Hch : L = None <->
                        eksik i [List.length (Istek.kapi_adi f);
                                 List.length (Istek.kapi_genislik f);
                                 List.length (Istek.kapi_yukseklik f)])
      end.
      { rewrite !eksik_cons, eksik_nil.
        apply al_None; intros ad. apply al_None; intros g.
        apply al_None; intros y. split; [discriminate | intros []]. }
      rewrite Hch. split.
      * intros H. right. exists adet. auto.
      * intros [H|(a' & [= <-] & _ & H)]; [contradiction | exact H].
    + split; [discriminate|]. intros [H|(a' & [= <-] & Hp & _)]; [contradiction|lia].
  - split; [|reflexivity]. intros _. left. now apply nth_error_None.
Qed.

(** A loop over [range(len(l))] raises exactly when its body raises at
    an index of [l]. *)
Lemma dongu_None {S A} (govde : S -> nat -> option S) (l : list A)
    (P : nat -> A -> Prop) (s : S) :
  (forall i s, govde s i = None <->
     (List.length l <= i)%nat \/ exists a, nth_error l i = Some a /\ P i a) ->
  her_indeks govde (seq 0 (List.length l)) s = None
  <-> exists i a, nth_error l i = Some a /\ P i a.
Proof.
  intros Hg. rewrite (her_indeks_None govde _ Hg). split.
  - intros (i & Hi & [H|(a & Ha & Hp)]).
    + apply in_seq in Hi. lia.
    + exists i, a. auto.
  - intros (i & a & Ha & Hp). exists i. split.
    + apply in_seq. assert (i < List.length l)%nat; [|lia].
      apply nth_error_Some. congruence.
    + right. exists a. auto.
Qed.


(** X10. The handler fails to build the house exactly when a room with
    a name that is not blank, or a window or door entry with a positive
    count, sits at an index where one of the other lists of its group
    has no element. *)
Theorem ev_data_hata :
  ev_data_olustur str_strip f = None <->
  (exists i ad, nth_error (Istek.oda_adi f) i = Some ad /\ str_strip ad <> ""
     /\ eksik i [List.length (Istek.oda_uzunluk f);
                 List.length (Istek.oda_genislik f);
                 List.length (Istek.oda_yukseklik f);
                 List.length (Istek.oda_zemin_kaplama f);
                 List.length (Istek.oda_duvar_kaplama f)])
  \/ (exists i adet, nth_error (Istek.pencere_adet f) i = Some adet /\ (0 < adet)%Z
        /\ eksik i [List.length (Istek.pencere_genislik f);
                    List.length (Istek.pencere_yukseklik f)])
  \/ (exists i adet, nth_error (Istek.kapi_adet f) i = Some adet /\ (0 < adet)%Z
        /\ eksik i [List.length (Istek.kapi_adi f);
                    List.length (Istek.kapi_genislik f);
                    List.length (Istek.kapi_yukseklik f)]).
Proof.
  pose proof (dongu_None (oda_ekle str_strip f) (Istek.oda_adi f) _ []
                (fun i s => oda_ekle_None i s)) as Ho.
  pose proof (dongu_None (pencere_ekle f) (Istek.pencere_adet f) _ []
                (fun i s => pencere_ekle_None i s)) as Hp.
  pose proof (dongu_None (kapi_ekle str_strip f) (Istek.kapi_adet f) _ []
                (fun i s => kapi_ekle_None i s)) as Hk.
  cbv beta in Ho, Hp, Hk. rewrite <- Ho, <- Hp, <- Hk.
  unfold ev_data_olustur.
  destruct (her_indeks (oda_ekle str_strip f) _ []) as [odalar|];
    [|split; auto].
  destruct (her_indeks (pencere_ekle f) _ []) as [pencereler|];
    [|split; auto].
  destruct (her_indeks (kapi_ekle str_strip f) _ []) as [kapilar|];
    [|split; auto].
  split; [discriminate|]. intros [H|[H|H]]; discriminate.
Qed.


End Formlar.

Section Sayfalar.

Local Open Scope string_scope.

Variable str_strip : string -> string.
Variable math_cos : Q -> Q.
Variable math_radians : Q -> Q.
Variable json_loads : string -> option Json.
Variable str_lower : string -> string.
Variable float_str : Q -> string.
Variable db : Tablo.Veritabani.





End Sayfalar.

(* ------------------------------------------------------------------ *)
(** ** Inserts and the start-up rows                                   *)
(* ------------------------------------------------------------------ *)

Section Yazma.

Local Open Scope string_scope.
Import Tablo.

Lemma fold_max_le (l : list Z) (a : Z) :
  (a <= fold_left Z.max l a)%Z
  /\ forall x, In x l -> (x <= fold_left Z.max l a)%Z.
Proof.
  revert a. induction l as [|y l IH]; intros a; simpl.
  - split; [lia | intros x []].
  - destruct (IH (Z.max a y)) as [H1 H2]. split; [lia|].
    intros x [<-|Hx]; [lia | now apply H2].
Qed.

(** A new identifier is larger than every identifier of the table and
    than every identifier handed out before. *)
Lemma yeni_id_buyuk (ids : list Z) (sira : Z) :
  (sira < yeni_id ids sira)%Z
  /\ forall x, In x ids -> (x < yeni_id ids sira)%Z.
Proof.
  unfold yeni_id. split; [lia|]. intros x Hx. destruct ids as [|i rest]; [destruct Hx|].
  destruct (fold_max_le rest i) as [H1 H2].
  destruct Hx as [<-|Hx]; [lia|]. specialize (H2 x Hx). lia.
Qed.

Lemma adlar_existsb (ad : string) (d : Depo) :
  existsb (fun m => String.eqb (malzeme_adi m) ad) (Malzemeler (tablolar d)) = true
  <-> In ad (adlar d).
Proof.
  unfold adlar. rewrite existsb_exists, in_map_iff. split.
  - intros (m & Hm & E). apply String.eqb_eq in E. eauto.
  - intros (m & E & Hm). exists m. split; [exact Hm|]. now apply String.eqb_eq.
Qed.

Lemma veri_ekle_Malzemeler_var (ad kat birim : string) (fire : Q) (acik : string)
    (d : Depo) :
  In ad (adlar d) -> veri_ekle_Malzemeler ad kat birim fire acik d = (d, None).
Proof.
  intros H. apply adlar_existsb in H. unfold veri_ekle_Malzemeler. now rewrite H.
Qed.

Lemma veri_ekle_Malzemeler_adlar (ad kat birim : string) (fire : Q) (acik : string)
    (d : Depo) :
  In ad (adlar (fst (veri_ekle_Malzemeler ad kat birim fire acik d)))
  /\ incl (adlar d) (adlar (fst (veri_ekle_Malzemeler ad kat birim fire acik d))).
Proof.
  unfold veri_ekle_Malzemeler.
  destruct (existsb _ (Malzemeler (tablolar d))) eqn:E; simpl.
  - split; [now apply adlar_existsb | apply incl_refl].
  - unfold adlar. simpl. rewrite map_app. simpl. split.
    + apply in_or_app. right. now left.
    + apply incl_appl, incl_refl.
Qed.

Lemma filter_son {A} (p : A -> bool) (l : list A) (x : A) :
  filter p (l ++ [x]) = (filter p l ++ if p x then [x] else [])%list.
Proof. now rewrite filter_app. Qed.

(** X12. An insert into the material table under a name the table has
    returns nothing and writes nothing.  Under a new name it returns an
    identifier that no material has and that was never handed out; the
    lookup of the name then returns the row inserted, and every other
    lookup that found a material returns what it returned before. *)
Theorem veri_ekle_Malzemeler_sonuc (ad kat birim : string) (fire : Q)
    (acik : string) (d : Depo) :
  let d' := fst (veri_ekle_Malzemeler ad kat birim fire acik d) in
  let r := snd (veri_ekle_Malzemeler ad kat birim fire acik d) in
  (In ad (adlar d) -> r = None /\ d' = d)
  /\ (~ In ad (adlar d) ->
      exists id,
        r = Some id
        /\ (sira_Malzemeler d < id)%Z
        /\ (forall m, In m (Malzemeler (tablolar d)) -> (malzeme_id m < id)%Z)
        /\ (exists info,
              malzeme_bilgisi_getir (tablolar d') ad = Some info
              /\ malzeme info
                 = {| malzeme_id := id; malzeme_adi := ad;
                      malzeme_kategori := kat; birim_olcu_tipi := birim;
                      varsayilan_fire_orani := fire; aciklama := acik |})
        /\ forall ad' info,
             ad' <> ad ->
             malzeme_bilgisi_getir (tablolar d) ad' = Some info ->
             malzeme_bilgisi_getir (tablolar d') ad' = Some info).
Proof.
  cbv zeta. split.
  - intros H. now rewrite (veri_ekle_Malzemeler_var _ _ _ _ _ _ H).
  - intros H. unfold veri_ekle_Malzemeler.
    destruct (existsb _ (Malzemeler (tablolar d))) eqn:E;
      [apply adlar_existsb in E; contradiction|].
    set (id := yeni_id (map malzeme_id (Malzemeler (tablolar d)))
                       (sira_Malzemeler d)).
    destruct (yeni_id_buyuk (map malzeme_id (Malzemeler (tablolar d)))
                            (sira_Malzemeler d)) as [Hs Hm].
    fold id in Hs, Hm. exists id. cbn [fst snd tablolar].
    split; [reflexivity|]. split; [exact Hs|]. split.
    { intros m Hin. apply Hm. now apply in_map. }
    assert (Hyok : filter (fun m => String.eqb (malzeme_adi m) ad)
                          (Malzemeler (tablolar d)) = []).
    { apply TabloFacts.filter_bos. apply Forall_forall. intros m Hin.
      apply String.eqb_neq. intros Hn. apply H. unfold adlar. rewrite <- Hn.
      now apply in_map. }
    split.
    + unfold malzeme_bilgisi_getir. cbn [Malzemeler Fiyatlar Sarfiyatlar].
      rewrite filter_son, Hyok. cbn [malzeme_adi]. rewrite String.eqb_refl.
      cbn [app]. eexists. split; reflexivity.
    + intros ad' info Hne. unfold malzeme_bilgisi_getir.
      cbn [Malzemeler Fiyatlar Sarfiyatlar]. rewrite !filter_son.
      cbn [malzeme_adi malzeme_kategori].
      assert (Had : String.eqb ad ad' = false).
      { apply String.eqb_neq. congruence. }
      rewrite Had, app_nil_r.
      destruct (filter (fun m => String.eqb (malzeme_adi m) ad')
                       (Malzemeler (tablolar d))) as [|m1 l1]; [|auto].
      destruct (filter (fun m => String.eqb (malzeme_kategori m) ad')
                       (Malzemeler (tablolar d))) as [|m2 l2]; [discriminate|].
      auto.
Qed.

Lemma varsa_adlar (x : option Z) (k : Z -> Depo -> Dinamik.Exc Depo)
    (d d' : Depo) :
  (forall id d0 d1, k id d0 = Dinamik.Ok d1 -> adlar d1 = adlar d0) ->
  varsa x k d = Dinamik.Ok d' -> adlar d' = adlar d.
Proof.
  intros H. unfold varsa. destruct x as [id|]; [|now intros [= <-]].
  destruct (id =? 0)%Z; [now intros [= <-] | apply H].
Qed.

Lemma fiyat_ekle_adlar t p s id d d' :
  fiyat_ekle t p s id d = Dinamik.Ok d' -> adlar d' = adlar d.
Proof.
  unfold fiyat_ekle, veri_ekle_Fiyatlar.
  destruct (negb (int64_mi id)); [discriminate|]. now intros [= <-].
Qed.

Lemma sarfiyat_ekle_adlar u v b id d d' :
  sarfiyat_ekle u v b id d = Dinamik.Ok d' -> adlar d' = adlar d.
Proof.
  unfold sarfiyat_ekle, veri_ekle_Sarfiyatlar.
  destruct (negb (int64_mi id)); [discriminate|]. now intros [= <-].
Qed.

Lemma detay_ekle_adlar o a k e id d d' :
  detay_ekle o a k e id d = Dinamik.Ok d' -> adlar d' = adlar d.
Proof.
  unfold detay_ekle, veri_ekle_UygulamaDetaylari.
  destruct (negb (int64_mi id)); [discriminate|]. now intros [= <-].
Qed.

Lemma sirayla_adlar (ks : list (Depo -> Dinamik.Exc Depo)) (d : Depo) :
  Forall (fun k => forall d0 d1, k d0 = Dinamik.Ok d1 -> adlar d1 = adlar d0) ks ->
  adlar (sirayla ks d) = adlar d.
Proof.
  intros H. revert d. induction H as [|k ks Hk _ IH]; intros d; simpl;
    [reflexivity|].
  destruct (k d) as [d'|e] eqn:E; [|reflexivity].
  rewrite IH. exact (Hk d d' E).
Qed.

(** After a start every sample name is in the material table. *)
Lemma startup_event_adlar (t : string) (d : Depo) :
  Forall (fun ad => In ad (adlar (startup_event t d)))
         ["Duvar Paneli"; "Çatı Paneli"; "Fayans"; "Laminat Parke"; "Boya";
          "PVC Pencere"; "İç Kapı"; "Dış Kapı"].
Proof.
  unfold startup_event.
  repeat match goal with
  | |- context [veri_ekle_Malzemeler ?a ?k ?b ?f ?c ?d0] =>
      let H := fresh "H" in
      let I := fresh "I" in
      destruct (veri_ekle_Malzemeler_adlar a k b f c d0) as [H I];
      destruct (veri_ekle_Malzemeler a k b f c d0) as [? ?];
      cbn [fst] in H, I
  end.
  rewrite sirayla_adlar.
  - repeat constructor; auto 20.
  - repeat constructor; intros a b E; refine (varsa_adlar _ _ _ _ _ E);
      intros id x y G;
      first [exact (fiyat_ekle_adlar _ _ _ _ _ _ G)
            | exact (sarfiyat_ekle_adlar _ _ _ _ _ _ G)
            | exact (detay_ekle_adlar _ _ _ _ _ _ _ G)].
Qed.

(** X13. A start after a start writes nothing, whatever the two days
    are and whatever the file held before the first. *)
Theorem startup_event_tekrar (t1 t2 : string) (d : Depo) :
  startup_event t2 (startup_event t1 d) = startup_event t1 d.
Proof.
  pose proof (startup_event_adlar t1 d) as H.
  set (d1 := startup_event t1 d) in *.
  repeat match goal with
  | H : Forall _ (_ :: _) |- _ =>
      let Hx := fresh "Hx" in
      apply Forall_cons_iff in H; destruct H as [Hx H]
  end.
  unfold startup_event.
  repeat (rewrite veri_ekle_Malzemeler_var by assumption).
  reflexivity.
Qed.

End Yazma.

(** The rows of a first start are the sample catalog. *)
Example startup_bos :
  tablolar (startup_event Ornek.current_date bos_depo) = Ornek.katalog.
Proof. vm_compute. reflexivity. Qed.

(* ------------------------------------------------------------------ *)
(** ** The price form                                                  *)
(* ------------------------------------------------------------------ *)

Lemma NoDup_map_esit {A B} (g : A -> B) (l : list A) (x y : A) :
  NoDup (map g l) -> In x l -> In y l -> g x = g y -> x = y.
Proof.
  induction l as [|a l IH]; simpl; intros Hnd Hx Hy E; [destruct Hx|].
  inversion Hnd as [|? ? Ha Hl]; subst.
  destruct Hx as [->|Hx], Hy as [->|Hy].
  - reflexivity.
  - exfalso. apply Ha. rewrite E. now apply in_map.
  - exfalso. apply Ha. rewrite <- E. now apply in_map.
  - now apply IH.
Qed.

Section Fiyatlandirma.

Local Open Scope string_scope.
Import Tablo.

Variable float_of_str : string -> option Okunan.
Variable int_of_str : string -> option Z.
Variable sqlite_tamsayi : string -> option Z.
Variable today : string.

Local Abbreviation adim :=
  (fiyat_adimi float_of_str int_of_str sqlite_tamsayi today).
Local Abbreviation dongu :=
  (fiyat_dongusu float_of_str int_of_str sqlite_tamsayi today).
Local Abbreviation post :=
  (post_admin_fiyatlar float_of_str int_of_str sqlite_tamsayi today).
Local Abbreviation existing := (existing_price_for_today sqlite_tamsayi today).
Local Abbreviation metin := (str_replace "birim_fiyat_" "").
Local Abbreviation uyumlu := (anahtar_uyumlu int_of_str sqlite_tamsayi).

Lemma existing_Some (t : string) (d : Depo) (e : Fiyat) :
  existing t d = Some e ->
  In e (Fiyatlar (tablolar d))
  /\ sqlite_tamsayi t = Some (fiyat_malzeme_id e)
  /\ gecerlilik_tarihi e = today.
Proof.
  unfold existing_price_for_today. intros H. apply find_some in H.
  destruct H as [Hin H]. apply andb_true_iff in H. destruct H as [H1 H2].
  apply String.eqb_eq in H2. destruct (sqlite_tamsayi t) as [n|]; [|discriminate].
  apply Z.eqb_eq in H1. subst n. auto.
Qed.

Lemma existing_None (t : string) (d : Depo) :
  existing t d = None ->
  forall f, In f (Fiyatlar (tablolar d)) ->
            sqlite_tamsayi t = Some (fiyat_malzeme_id f) ->
            gecerlilik_tarihi f <> today.
Proof.
  unfold existing_price_for_today. intros H f Hin Hs Hd.
  pose proof (find_none _ _ H f Hin) as Hf. cbv beta in Hf.
  rewrite Hs, Z.eqb_refl, Hd, String.eqb_refl in Hf. discriminate.
Qed.

(** The ways an item is passed: another field; a price that is not a
    number, which writes nothing; an update; an insert. *)
Lemma adim_ac (d d' : Depo) (key : string) (value : FormDegeri) :
  adim d (key, value) = Dinamik.Ok d' ->
  (String.prefix "birim_fiyat_" key = false /\ d' = d)
  \/ (String.prefix "birim_fiyat_" key = true
      /\ exists s, value = Yazi s
         /\ ((float_of_str s = Some Belirsiz /\ d' = d)
             \/ exists q, float_of_str s = Some (Tutar q)
                  /\ ((exists e, existing (metin key) d = Some e
                         /\ d' = fst (veri_guncelle_Fiyatlar (Tutar q) (fiyat_id e) d))
                      \/ (existing (metin key) d = None
                          /\ exists mid, int_of_str (metin key) = Some mid
                               /\ int64_mi mid = true
                               /\ d' = fst (fiyat_yaz mid q today None d))))).
Proof.
  unfold fiyat_adimi, float_of.
  destruct (String.prefix "birim_fiyat_" key); [|intros [= <-]; now left].
  destruct value as [s|]; [|discriminate].
  destruct (float_of_str s) as [x|] eqn:Ef; [|discriminate]. cbn [Dinamik.bind].
  intros H. right. split; [reflexivity|]. exists s. split; [reflexivity|].
  destruct (existing (metin key) d) as [e|] eqn:E.
  - injection H as <-. destruct x as [q|]; [|left; auto].
    right. exists q. split; [exact Ef|]. left. exists e. auto.
  - destruct (int_of_str (metin key)) as [mid|] eqn:Ei; [|discriminate].
    unfold veri_ekle_Fiyatlar in H.
    destruct (int64_mi mid) eqn:E64; [|discriminate]. cbn [negb] in H.
    destruct x as [q|]; cbn in H; injection H as <-; [|left; auto].
    right. exists q. split; [exact Ef|]. right. split; [reflexivity|].
    exists mid. auto.
Qed.

(** An item whose price is not a number is passed when its material has
    a price of the day or [int] reads an identifier the insert takes. *)
Lemma adim_belirsiz (d d' : Depo) (key s : string) :
  adim d (key, Yazi s) = Dinamik.Ok d' ->
  String.prefix "birim_fiyat_" key = true ->
  float_of_str s = Some Belirsiz ->
  (exists e, existing (metin key) d = Some e)
  \/ exists mid, int_of_str (metin key) = Some mid /\ int64_mi mid = true.
Proof.
  unfold fiyat_adimi, float_of. intros H Hp Hf. rewrite Hp, Hf in H.
  cbn [Dinamik.bind] in H.
  destruct (existing (metin key) d) as [e|]; [left; eauto|]. right.
  destruct (int_of_str (metin key)) as [mid|]; [|discriminate].
  exists mid. split; [reflexivity|]. unfold veri_ekle_Fiyatlar in H.
  destruct (int64_mi mid); [reflexivity|discriminate].
Qed.

Lemma satir_guncelle_degismeyen (q : Q) (id : Z) (f : Fiyat) :
  degismeyen (satir_guncelle q id f) = degismeyen f.
Proof. unfold satir_guncelle. destruct (fiyat_id f =? id)%Z; reflexivity. Qed.

Lemma map_satir_guncelle {B} (g : Fiyat -> B) (q : Q) (id : Z) (l : list Fiyat) :
  (forall f, g (satir_guncelle q id f) = g f) ->
  map g (map (satir_guncelle q id) l) = map g l.
Proof.
  intros H. rewrite map_map. apply map_ext. exact H.
Qed.

(** One item: the other tables stay, the price rows keep what an update
    leaves alone, a new row is of the day. *)
Lemma adim_cerceve (d d' : Depo) (kv : string * FormDegeri) :
  adim d kv = Dinamik.Ok d' ->
  Malzemeler (tablolar d') = Malzemeler (tablolar d)
  /\ Sarfiyatlar (tablolar d') = Sarfiyatlar (tablolar d)
  /\ UygulamaDetaylari (tablolar d') = UygulamaDetaylari (tablolar d)
  /\ exists yeni,
       map degismeyen (Fiyatlar (tablolar d'))
       = (map degismeyen (Fiyatlar (tablolar d)) ++ yeni)%list
       /\ Forall (fun a => snd (fst a) = today) yeni.
Proof.
  destruct kv as [key value]. intros H. apply adim_ac in H.
  destruct H as [[_ ->]|(_ & s & _ & [[_ ->]|(q & _ & [(e & _ & ->)|(_ & mid & _ & _ & ->)])])].
  - repeat split. exists []. rewrite app_nil_r. auto.
  - repeat split. exists []. rewrite app_nil_r. auto.
  - repeat split. exists []. rewrite app_nil_r. split; [|constructor].
    cbn. apply map_satir_guncelle. apply satir_guncelle_degismeyen.
  - repeat split. eexists. cbn. rewrite map_app. split; [reflexivity|].
    repeat constructor.
Qed.

Lemma dongu_tumevarim (R : string * FormDegeri -> Prop) (P : Depo -> Prop) :
  (forall d d' kv, R kv -> P d -> adim d kv = Dinamik.Ok d' -> P d') ->
  forall items d, Forall R items -> P d -> P (fst (dongu items d)).
Proof.
  intros Hs. induction items as [|kv items IH]; intros d Hr Hd; simpl;
    [exact Hd|].
  inversion Hr as [|? ? Hk Hr']; subst.
  destruct (adim d kv) as [d1|e] eqn:E; [|exact Hd].
  apply IH; [exact Hr'|]. exact (Hs d d1 kv Hk Hd E).
Qed.

Lemma Forall_True {A} (l : list A) : Forall (fun _ => True) l.
Proof. apply Forall_forall. auto. Qed.

Lemma post_dongu (form : list (string * FormDegeri)) (d : Depo) :
  fst (post form d) = fst (dongu (form_items form) d).
Proof.
  unfold post_admin_fiyatlar. now destruct (dongu (form_items form) d) as [d' b].
Qed.

(** X14. Whatever the form holds and however the request ends, the
    price handler leaves the materials, the consumption rates and the
    application details as they were; every price row keeps its
    identifier, material, day and supplier, in place; the rows added
    are of the day of the request. *)
Theorem fiyat_disinda_degismez (form : list (string * FormDegeri)) (d : Depo) :
  let d' := fst (post form d) in
  Malzemeler (tablolar d') = Malzemeler (tablolar d)
  /\ Sarfiyatlar (tablolar d') = Sarfiyatlar (tablolar d)
  /\ UygulamaDetaylari (tablolar d') = UygulamaDetaylari (tablolar d)
  /\ exists yeni,
       map degismeyen (Fiyatlar (tablolar d'))
       = (map degismeyen (Fiyatlar (tablolar d)) ++ yeni)%list
       /\ Forall (fun a => snd (fst a) = today) yeni.
Proof.
  cbv zeta. rewrite (post_dongu form d).
  apply (dongu_tumevarim (fun _ => True) (fun d' =>
    Malzemeler (tablolar d') = Malzemeler (tablolar d)
    /\ Sarfiyatlar (tablolar d') = Sarfiyatlar (tablolar d)
    /\ UygulamaDetaylari (tablolar d') = UygulamaDetaylari (tablolar d)
    /\ exists yeni,
         map degismeyen (Fiyatlar (tablolar d'))
         = (map degismeyen (Fiyatlar (tablolar d)) ++ yeni)%list
         /\ Forall (fun a => snd (fst a) = today) yeni)).
  - intros d1 d2 kv _ (H1 & H2 & H3 & y1 & H4 & H5) Hs.
    destruct (adim_cerceve _ _ _ Hs) as (G1 & G2 & G3 & y2 & G4 & G5).
    split; [congruence|]. split; [congruence|]. split; [congruence|].
    exists (y1 ++ y2)%list. split.
    + rewrite G4, H4, app_assoc. reflexivity.
    + apply Forall_app. auto.
  - apply Forall_True.
  - repeat split. exists []. rewrite app_nil_r. auto.
Qed.

Lemma dongu_app (l1 l2 : list (string * FormDegeri)) (d : Depo) :
  dongu (l1 ++ l2) d
  = match snd (dongu l1 d) with
    | None => dongu l2 (fst (dongu l1 d))
    | Some e => (fst (dongu l1 d), Some e)
    end.
Proof.
  revert d. induction l1 as [|kv l1 IH]; intros d; simpl; [reflexivity|].
  destruct (adim d kv) as [d1|e]; [apply IH | reflexivity].
Qed.

(** The item at which [float] or [int] raises. *)
Lemma adim_deger_hatasi (d : Depo) (key : string) (value : FormDegeri) :
  adim d (key, value) = Dinamik.Raise ValueError <->
  String.prefix "birim_fiyat_" key = true
  /\ exists s, value = Yazi s
       /\ (float_of_str s = None
           \/ (existing (metin key) d = None /\ int_of_str (metin key) = None)).
Proof.
  unfold fiyat_adimi, float_of.
  destruct (String.prefix "birim_fiyat_" key);
    [|split; [discriminate | intros [H _]; discriminate]].
  destruct value as [s|];
    [|split; [discriminate | intros [_ (s & H & _)]; discriminate]].
  destruct (float_of_str s) as [x|] eqn:Ef; cbn [Dinamik.bind].
  - destruct (existing (metin key) d) as [e|] eqn:Ee.
    + split; [discriminate|].
      intros [_ (s' & [= <-] & [H|[H _]])]; congruence.
    + destruct (int_of_str (metin key)) as [mid|] eqn:Ei.
      * unfold veri_ekle_Fiyatlar. split.
        -- destruct (negb (int64_mi mid)); [discriminate|].
           destruct x; discriminate.
        -- intros [_ (s' & [= <-] & [H|[_ H]])]; congruence.
      * split; [|reflexivity]. intros _. split; [reflexivity|].
        exists s. split; [reflexivity|]. right. auto.
  - split; [|reflexivity]. intros _. split; [reflexivity|].
    exists s. split; [reflexivity|]. left. exact Ef.
Qed.

(** The item at which another exception is raised: a file for a price,
    or an identifier beyond 64 bits for a material without a price of
    the day. *)
Lemma adim_baska_hata (d : Depo) (key : string) (value : FormDegeri)
    (e : Istisna) :
  e <> ValueError ->
  (adim d (key, value) = Dinamik.Raise e <->
   String.prefix "birim_fiyat_" key = true
   /\ ((value = Dosya /\ e = TypeError)
       \/ (e = OverflowError
           /\ exists s mid, value = Yazi s /\ float_of_str s <> None
                /\ existing (metin key) d = None
                /\ int_of_str (metin key) = Some mid
                /\ int64_mi mid = false))).
Proof.
  intros Hne. unfold fiyat_adimi, float_of.
  destruct (String.prefix "birim_fiyat_" key);
    [|split; [discriminate | intros [H _]; discriminate]].
  destruct value as [s|].
  - destruct (float_of_str s) as [x|] eqn:Ef; cbn [Dinamik.bind].
    + destruct (existing (metin key) d) as [ex|] eqn:Ee.
      * split; [discriminate|].
        intros [_ [[H _]|(_ & s' & mid & _ & _ & H & _)]]; discriminate.
      * destruct (int_of_str (metin key)) as [mid|] eqn:Ei.
        -- unfold veri_ekle_Fiyatlar.
           destruct (int64_mi mid) eqn:E64; cbn [negb Dinamik.bind].
           ++ split.
              ** destruct x; discriminate.
              ** intros [_ [[H _]|(_ & s' & mid' & _ & _ & _ & H1 & H2)]];
                   [discriminate|congruence].
           ++ split.
              ** intros [= <-]. split; [reflexivity|]. right.
                 split; [reflexivity|]. exists s, mid.
                 repeat split; congruence.
              ** intros [_ [[H _]|(-> & _)]]; [discriminate|reflexivity].
        -- split; [congruence|].
           intros [_ [[H _]|(_ & s' & mid' & _ & _ & _ & H & _)]]; discriminate.
    + split; [congruence|].
      intros [_ [[H _]|(_ & s' & mid' & [= <-] & H & _)]]; [discriminate|congruence].
  - split.
    + intros [= <-]. split; [reflexivity|]. left. auto.
    + intros [_ [[_ ->]|(_ & s' & mid' & H & _)]]; [reflexivity|discriminate].
Qed.

Lemma dongu_hata (items : list (string * FormDegeri)) (d d' : Depo)
    (e : Istisna) :
  dongu items d = (d', Some e) <->
  exists once kv sonra,
    items = (once ++ kv :: sonra)%list
    /\ dongu once d = (d', None) /\ adim d' kv = Dinamik.Raise e.
Proof.
  revert d. induction items as [|kv items IH]; intros d; simpl.
  - split; [discriminate|]. intros (o & k & s & H & _). destruct o; discriminate.
  - destruct (adim d kv) as [d1|x] eqn:E.
    + rewrite IH. split.
      * intros (o & k & s & -> & Ho & Hk). exists (kv :: o)%list, k, s.
        split; [reflexivity|]. simpl. rewrite E. auto.
      * intros (o & k & s & Hf & Ho & Hk). destruct o as [|y o]; simpl in Hf, Ho.
        -- injection Hf as <- <-. injection Ho as <-. congruence.
        -- injection Hf as <- ->. rewrite E in Ho. exists o, k, s. auto.
    + split.
      * intros [= <- <-]. exists []%list, kv, items. auto.
      * intros (o & k & s & Hf & Ho & Hk). destruct o as [|y o]; simpl in Hf, Ho.
        -- injection Hf as <- <-. injection Ho as <-. congruence.
        -- injection Hf as <- ->. rewrite E in Ho. discriminate.
Qed.

Lemma post_eq (form : list (string * FormDegeri)) (d d' : Depo) :
  post form d = (d', Yonlendirme) <-> dongu (form_items form) d = (d', None).
Proof.
  unfold post_admin_fiyatlar. destruct (dongu (form_items form) d) as [d1 [e|]].
  - split; [destruct e; discriminate | discriminate].
  - split; intros H; now injection H as <-.
Qed.

Lemma post_gecersiz (form : list (string * FormDegeri)) (d d' : Depo)
    (l : list FiyatSatiri) :
  post form d = (d', GecersizFiyat l) <->
  dongu (form_items form) d = (d', Some ValueError)
  /\ l = malzemeler_ve_fiyatlar (tablolar d').
Proof.
  unfold post_admin_fiyatlar. destruct (dongu (form_items form) d) as [d1 [e|]].
  - destruct e; split; try discriminate;
      try (intros [H _]; discriminate).
    + intros [= <- <-]. auto.
    + intros [[= <-] ->]. reflexivity.
  - split; [discriminate | intros [H _]; discriminate].
Qed.

Lemma post_hata (form : list (string * FormDegeri)) (d d' : Depo)
    (e : Istisna) (l : list FiyatSatiri) :
  post form d = (d', FiyatHatasi e l) <->
  e <> ValueError
  /\ dongu (form_items form) d = (d', Some e)
  /\ l = malzemeler_ve_fiyatlar (tablolar d').
Proof.
  unfold post_admin_fiyatlar. destruct (dongu (form_items form) d) as [d1 [x|]].
  - split.
    + destruct x; intros H; try discriminate H; injection H as <- <- <-;
        (split; [discriminate|auto]).
    + intros (Hne & [= <- <-] & ->). destruct x; try reflexivity. congruence.
  - split; [discriminate | intros (_ & H & _); discriminate].
Qed.

(** X15. The price handler answers with the message of an invalid value
    exactly when the items of the form hold a price item whose text
    [float] rejects, or whose material has no price of the day and an
    identifier text [int] rejects, and no item before it raises; the
    writes made for the items before it stay, and the page shows the
    prices after them. *)
Theorem gecersiz_fiyat (form : list (string * FormDegeri)) (d d' : Depo)
    (l : list FiyatSatiri) :
  post form d = (d', GecersizFiyat l) <->
  l = malzemeler_ve_fiyatlar (tablolar d')
  /\ exists once key s sonra,
    form_items form = (once ++ (key, Yazi s) :: sonra)%list
    /\ dongu once d = (d', None)
    /\ String.prefix "birim_fiyat_" key = true
    /\ (float_of_str s = None
        \/ (existing (metin key) d' = None /\ int_of_str (metin key) = None)).
Proof.
  rewrite post_gecersiz, dongu_hata. split.
  - intros [(o & [key value] & sn & Hf & Ho & Hk) Hl].
    apply adim_deger_hatasi in Hk. destruct Hk as (Hp & s & -> & Hk).
    split; [exact Hl|]. exists o, key, s, sn. auto.
  - intros [Hl (o & key & s & sn & Hf & Ho & Hp & Hk)]. split; [|exact Hl].
    exists o, (key, Yazi s), sn. split; [exact Hf|]. split; [exact Ho|].
    apply adim_deger_hatasi. split; [exact Hp|]. exists s. auto.
Qed.

(** X22. The price handler answers with the message of another
    exception exactly when the items of the form hold a price item
    whose value is a file, which [float] refuses with a [TypeError], or
    whose text [float] reads while its material has no price of the day
    and an identifier [int] reads beyond 64 bits, which the insert
    refuses with an [OverflowError], and no item before it raises. *)
Theorem fiyat_hatasi (form : list (string * FormDegeri)) (d d' : Depo)
    (e : Istisna) (l : list FiyatSatiri) :
  post form d = (d', FiyatHatasi e l) <->
  l = malzemeler_ve_fiyatlar (tablolar d')
  /\ exists once key value sonra,
    form_items form = (once ++ (key, value) :: sonra)%list
    /\ dongu once d = (d', None)
    /\ String.prefix "birim_fiyat_" key = true
    /\ ((value = Dosya /\ e = TypeError)
        \/ (e = OverflowError
            /\ exists s mid, value = Yazi s /\ float_of_str s <> None
                 /\ existing (metin key) d' = None
                 /\ int_of_str (metin key) = Some mid
                 /\ int64_mi mid = false)).
Proof.
  rewrite post_hata. split.
  - intros (Hne & Hd & Hl). apply dongu_hata in Hd.
    destruct Hd as (o & [key value] & sn & Hf & Ho & Hk).
    apply (adim_baska_hata _ _ _ _ Hne) in Hk. destruct Hk as [Hp Hk].
    split; [exact Hl|]. exists o, key, value, sn. auto.
  - intros [Hl (o & key & value & sn & Hf & Ho & Hp & Hk)].
    assert (Hne : e <> ValueError).
    { destruct Hk as [[_ ->]|[-> _]]; discriminate. }
    split; [exact Hne|]. split; [|exact Hl]. apply dongu_hata.
    exists o, (key, value), sn. split; [exact Hf|]. split; [exact Ho|].
    apply (adim_baska_hata _ _ _ _ Hne). auto.
Qed.

Lemma adim_tekil (d d' : Depo) (kv : string * FormDegeri) :
  uyumlu (fst kv) ->
  tekil_gun (tablolar d) -> adim d kv = Dinamik.Ok d' -> tekil_gun (tablolar d').
Proof.
  destruct kv as [key value]. intros Hu Ht H. apply adim_ac in H.
  destruct H as [[_ ->]|(_ & s & _ & [[_ ->]|(q & _ & [(e & _ & ->)|(He & mid & Hi & _ & ->)])])].
  - exact Ht.
  - exact Ht.
  - unfold tekil_gun in *. cbn. rewrite map_satir_guncelle; [exact Ht|].
    intros f. unfold satir_guncelle. destruct (fiyat_id f =? fiyat_id e)%Z; reflexivity.
  - unfold tekil_gun in *. cbn. rewrite map_app. cbn.
    apply NoDup_app; [exact Ht | repeat constructor; intros [] |].
    intros a Ha [<-|[]]. apply in_map_iff in Ha. destruct Ha as (f & Hf & Hin).
    injection Hf as Hm Hd.
    apply (existing_None _ _ He f Hin); [|exact Hd].
    rewrite Hm. now apply Hu.
Qed.

(** X16. When [int] and the price query read the identifier text of
    every item of the form alike, the price handler keeps the price
    table at one row at most for a material and a day. *)
Theorem tekil_gun_korunur (form : list (string * FormDegeri)) (d : Depo) :
  Forall (fun kv => uyumlu (fst kv)) (form_items form) ->
  tekil_gun (tablolar d) -> tekil_gun (tablolar (fst (post form d))).
Proof.
  intros Hu Ht. rewrite (post_dongu form d).
  apply (dongu_tumevarim (fun kv => uyumlu (fst kv))
                         (fun d' => tekil_gun (tablolar d'))); [|exact Hu|exact Ht].
  intros d1 d2 kv Hk H1 H2. exact (adim_tekil _ _ _ Hk H1 H2).
Qed.

Lemma adim_kimlik (d d' : Depo) (kv : string * FormDegeri) :
  NoDup (map fiyat_id (Fiyatlar (tablolar d))) -> adim d kv = Dinamik.Ok d' ->
  NoDup (map fiyat_id (Fiyatlar (tablolar d'))).
Proof.
  destruct kv as [key value]. intros Hn H. apply adim_ac in H.
  destruct H as [[_ ->]|(_ & s & _ & [[_ ->]|(q & _ & [(e & _ & ->)|(_ & mid & _ & _ & ->)])])].
  - exact Hn.
  - exact Hn.
  - cbn. rewrite map_satir_guncelle; [exact Hn|].
    intros f. unfold satir_guncelle. destruct (fiyat_id f =? fiyat_id e)%Z; reflexivity.
  - cbn. rewrite map_app. cbn.
    apply NoDup_app; [exact Hn | repeat constructor; intros [] |].
    intros a Ha [<-|[]].
    destruct (yeni_id_buyuk (map fiyat_id (Fiyatlar (tablolar d))) (sira_Fiyatlar d))
      as [_ H]. specialize (H _ Ha). lia.
Qed.

Lemma adim_gecmis (mid : Z) (d d' : Depo) (kv : string * FormDegeri) :
  gecmis today (tablolar d) mid -> adim d kv = Dinamik.Ok d' ->
  gecmis today (tablolar d') mid.
Proof.
  destruct kv as [key value]. intros Hg H. apply adim_ac in H.
  destruct H as [[_ ->]|(_ & s & _ & [[_ ->]|(q & _ & [(e & _ & ->)|(_ & n & _ & _ & ->)])])].
  - exact Hg.
  - exact Hg.
  - intros g Hin Hm. cbn in Hin. apply in_map_iff in Hin.
    destruct Hin as (g0 & <- & Hin).
    assert (Hk : degismeyen (satir_guncelle q (fiyat_id e) g0) = degismeyen g0)
      by apply satir_guncelle_degismeyen.
    unfold degismeyen in Hk. injection Hk as _ Hk2 Hk3 _.
    rewrite Hk3. apply Hg; [exact Hin | congruence].
  - intros g Hin Hm. cbn in Hin. apply in_app_or in Hin.
    destruct Hin as [Hin|[<-|[]]]; [now apply Hg|].
    cbn. rewrite KatalogSorgusu.compare_refl. discriminate.
Qed.

Lemma adim_bugunku_kurar (d d' : Depo) (key s : string) (mid : Z) (q : Q) :
  uyumlu key ->
  adim d (key, Yazi s) = Dinamik.Ok d' ->
  anahtar_malzemesi sqlite_tamsayi key = Some mid ->
  float_of_str s = Some (Tutar q) ->
  bugunku today (tablolar d') mid q.
Proof.
  intros Hu H Ha Hq. unfold anahtar_malzemesi in Ha. apply adim_ac in H.
  destruct H as [[Hp _]|(Hp & s' & [= <-] & H)]; rewrite Hp in Ha; [discriminate|].
  destruct H as [[H _]|(q' & Hq' & H)]; [congruence|].
  assert (q' = q) by congruence. subst q'.
  destruct H as [(e & He & ->)|(He & n & Hn & _ & ->)].
  - apply existing_Some in He. destruct He as (Hin & Hs & Hd).
    exists (satir_guncelle q (fiyat_id e) e). split; [cbn; now apply in_map|].
    unfold satir_guncelle. rewrite Z.eqb_refl. cbn.
    split; [congruence|]. auto.
  - apply Hu in Hn. exists
      {| fiyat_id := yeni_id (map fiyat_id (Fiyatlar (tablolar d))) (sira_Fiyatlar d);
         fiyat_malzeme_id := n; birim_fiyat := q; gecerlilik_tarihi := today;
         tedarikci := None |}.
    split; [cbn; apply in_or_app; right; now left|]. cbn.
    split; [congruence|]. auto.
Qed.

Lemma adim_bugunku_korur (d d' : Depo) (key : string) (value : FormDegeri)
    (mid : Z) (q : Q) :
  NoDup (map fiyat_id (Fiyatlar (tablolar d))) ->
  bugunku today (tablolar d) mid q ->
  anahtar_malzemesi sqlite_tamsayi key <> Some mid ->
  adim d (key, value) = Dinamik.Ok d' ->
  bugunku today (tablolar d') mid q.
Proof.
  intros Hn (f & Hin & Hm & Hd & Hq) Ha H. unfold anahtar_malzemesi in Ha.
  apply adim_ac in H.
  destruct H as [[_ ->]|(Hp & s & _ & [[_ ->]|(q' & _ & [(e & He & ->)|(_ & n & _ & _ & ->)])])].
  - exists f. auto.
  - exists f. auto.
  - rewrite Hp in Ha. apply existing_Some in He. destruct He as (Hine & Hs & _).
    exists f. split; [|auto]. cbn.
    assert (Hf : satir_guncelle q' (fiyat_id e) f = f).
    { unfold satir_guncelle. destruct (Z.eqb_spec (fiyat_id f) (fiyat_id e)) as [E|E];
        [|reflexivity].
      exfalso. apply Ha. rewrite Hs.
      rewrite <- (NoDup_map_esit fiyat_id _ f e Hn Hin Hine E). now rewrite Hm. }
    rewrite <- Hf. now apply in_map.
  - exists f. split; [|auto]. cbn. apply in_or_app. now left.
Qed.

Lemma getir_fiyat (db : Veritabani) (ad : string) (info : MalzemeBilgisi) :
  malzeme_bilgisi_getir db ad = Some info ->
  fiyat info
  = guncel_fiyat (filter (fun f => (fiyat_malzeme_id f =? malzeme_id (malzeme info))%Z)
                         (Fiyatlar db)).
Proof.
  unfold malzeme_bilgisi_getir.
  destruct (match filter _ (Malzemeler db) with [] => _ | _ => _ end) as [|m r];
    [discriminate|].
  now intros [= <-].
Qed.

Lemma guncel_fiyat_en_geride (rows : list Fiyat) (r : Fiyat) :
  In r rows ->
  exists f, guncel_fiyat rows = Some f /\ In f rows /\ geride r f.
Proof.
  intros Hin. unfold guncel_fiyat. destruct rows as [|b rows]; [destruct Hin|].
  simpl. destruct (KatalogSorgusu.guncel_fiyat_dongusu rows b)
    as (f & Hf & Hmem & Hb & Hall).
  exists f. split; [exact Hf|]. split.
  - destruct Hmem as [->|H]; [now left | now right].
  - destruct Hin as [<-|Hin]; [exact Hb|].
    rewrite Forall_forall in Hall. now apply Hall.
Qed.

(** A price of the day is the current price when the day has one row
    and no row is dated later. *)
Lemma guncel_bugun (db : Veritabani) (mid : Z) (q : Q) :
  tekil_gun db -> gecmis today db mid -> bugunku today db mid q ->
  exists f,
    guncel_fiyat (filter (fun f => (fiyat_malzeme_id f =? mid)%Z) (Fiyatlar db))
    = Some f
    /\ birim_fiyat f = q /\ gecerlilik_tarihi f = today.
Proof.
  intros Ht Hg (r & Hin & Hm & Hd & Hq).
  assert (Hr : In r (filter (fun f => (fiyat_malzeme_id f =? mid)%Z) (Fiyatlar db))).
  { apply filter_In. split; [exact Hin|]. now apply Z.eqb_eq. }
  destruct (guncel_fiyat_en_geride _ r Hr) as (f & Hf & Hfin & Hge).
  apply filter_In in Hfin. destruct Hfin as [Hfin Hfm]. apply Z.eqb_eq in Hfm.
  exists f. split; [exact Hf|].
  assert (Hdf : gecerlilik_tarihi f = today).
  { destruct Hge as [Hlt|[He _]]; [|congruence].
    exfalso. apply (Hg f Hfin Hfm). rewrite String.compare_antisym.
    rewrite <- Hd, Hlt. reflexivity. }
  assert (f = r); [|subst f; auto].
  apply (NoDup_map_esit _ _ f r Ht Hfin Hin). congruence.
Qed.

Lemma dongu_bugunku (mid : Z) (q : Q) (sonra : list (string * FormDegeri)) :
  forall d d',
    Forall (fun kv => anahtar_malzemesi sqlite_tamsayi (fst kv) <> Some mid) sonra ->
    NoDup (map fiyat_id (Fiyatlar (tablolar d))) ->
    bugunku today (tablolar d) mid q ->
    dongu sonra d = (d', None) ->
    bugunku today (tablolar d') mid q.
Proof.
  induction sonra as [|[key value] sonra IH]; intros d d' Hf Hn Hb;
    cbn [fiyat_dongusu].
  - now intros [= <-].
  - destruct (adim d (key, value)) as [d1|x] eqn:E; [|discriminate].
    inversion Hf as [|? ? Hk Hf']; subst. apply IH; [exact Hf' | |].
    + exact (adim_kimlik _ _ _ Hn E).
    + exact (adim_bugunku_korur _ _ _ _ _ _ Hn Hb Hk E).
Qed.

(** X17. When the price handler redirects, the last price item of the
    form for a material, when [float] reads a number from it, is the
    price the catalog lookup returns for that material, dated the day
    of the request: provided [int] and the price query read the
    identifier text of every item alike, the price table had one row at
    most for a material and a day, no identifier twice, and no price of
    the material dated after the day. *)
Theorem son_fiyat_gecerli (form once sonra : list (string * FormDegeri))
    (key s : string) (d d' : Depo) (mid : Z) (q : Q) :
  post form d = (d', Yonlendirme) ->
  form_items form = (once ++ (key, Yazi s) :: sonra)%list ->
  anahtar_malzemesi sqlite_tamsayi key = Some mid ->
  float_of_str s = Some (Tutar q) ->
  Forall (fun kv => uyumlu (fst kv)) (form_items form) ->
  Forall (fun kv => anahtar_malzemesi sqlite_tamsayi (fst kv) <> Some mid) sonra ->
  tekil_gun (tablolar d) ->
  NoDup (map fiyat_id (Fiyatlar (tablolar d))) ->
  gecmis today (tablolar d) mid ->
  forall ad info,
    malzeme_bilgisi_getir (tablolar d') ad = Some info ->
    malzeme_id (malzeme info) = mid ->
    exists f, fiyat info = Some f /\ birim_fiyat f = q
              /\ gecerlilik_tarihi f = today.
Proof.
  intros Hp Hi Ha Hq Hu Hs Ht Hn Hg ad info Hinfo Hm.
  apply post_eq in Hp. rewrite Hi in Hp, Hu. rewrite dongu_app in Hp.
  apply Forall_app in Hu. destruct Hu as [Hu1 Hu2].
  inversion Hu2 as [|? ? Huk Hu3]; subst. cbn [fst] in Huk.
  pose proof (dongu_tumevarim (fun kv => uyumlu (fst kv))
                (fun x => tekil_gun (tablolar x))
                (fun a b kv Hk H1 H2 => adim_tekil a b kv Hk H1 H2) once d Hu1 Ht)
    as Ht1.
  pose proof (dongu_tumevarim (fun _ => True)
                (fun x => NoDup (map fiyat_id (Fiyatlar (tablolar x))))
                (fun a b kv _ H1 H2 => adim_kimlik a b kv H1 H2) once d
                (Forall_True _) Hn) as Hn1.
  pose proof (dongu_tumevarim (fun _ => True)
                (fun x => gecmis today (tablolar x) (malzeme_id (malzeme info)))
                (fun a b kv _ H1 H2 => adim_gecmis _ a b kv H1 H2) once d
                (Forall_True _) Hg) as Hg1.
  destruct (dongu once d) as [d1 b1]. cbn [fst snd] in *.
  destruct b1; [discriminate|]. cbn [fiyat_dongusu] in Hp.
  destruct (adim d1 (key, Yazi s)) as [d2|x] eqn:E; [|discriminate].
  pose proof (adim_tekil _ _ (key, Yazi s) Huk Ht1 E) as Ht2.
  pose proof (adim_kimlik _ _ _ Hn1 E) as Hn2.
  pose proof (adim_gecmis _ _ _ _ Hg1 E) as Hg2.
  pose proof (adim_bugunku_kurar _ _ _ _ _ _ Huk E Ha Hq) as Hb2.
  pose proof (dongu_bugunku _ q sonra d2 d' Hs Hn2 Hb2 Hp) as Hb.
  pose proof (dongu_tumevarim (fun kv => uyumlu (fst kv))
                (fun x => tekil_gun (tablolar x))
                (fun a b kv Hk H1 H2 => adim_tekil a b kv Hk H1 H2) sonra d2 Hu3 Ht2)
    as Ht3.
  pose proof (dongu_tumevarim (fun _ => True)
                (fun x => gecmis today (tablolar x) (malzeme_id (malzeme info)))
                (fun a b kv _ H1 H2 => adim_gecmis _ a b kv H1 H2) sonra d2
                (Forall_True _) Hg2) as Hg3.
  rewrite Hp in Ht3, Hg3. cbn [fst] in Ht3, Hg3.
  rewrite (getir_fiyat _ _ _ Hinfo).
  exact (guncel_bugun _ _ _ Ht3 Hg3 Hb).
Qed.

(** The test of the keys decides it. *)
Lemma anahtar_uyumlu_test (items : list (string * FormDegeri)) :
  forallb (fun kv => anahtar_uyumlu_mu int_of_str sqlite_tamsayi (fst kv)) items
  = true ->
  Forall (fun kv => uyumlu (fst kv)) items.
Proof.
  intros H. rewrite forallb_forall in H. apply Forall_forall.
  intros kv Hin n Hn. specialize (H kv Hin). unfold anahtar_uyumlu_mu in H.
  rewrite Hn in H.
  destruct (sqlite_tamsayi (metin (fst kv))) as [m|]; [|discriminate].
  apply Z.eqb_eq in H. now subst.
Qed.

End Fiyatlandirma.

Section IkinciGonderim.

Local Open Scope string_scope.
Import Tablo.

Variable float_of_str : string -> option Okunan.
Variable int_of_str : string -> option Z.
Variable sqlite_tamsayi : string -> option Z.
Variable today : string.

Local Abbreviation adim :=
  (fiyat_adimi float_of_str int_of_str sqlite_tamsayi today).
Local Abbreviation dongu :=
  (fiyat_dongusu float_of_str int_of_str sqlite_tamsayi today).
Local Abbreviation post :=
  (post_admin_fiyatlar float_of_str int_of_str sqlite_tamsayi today).
Local Abbreviation existing := (existing_price_for_today sqlite_tamsayi today).
Local Abbreviation metin := (str_replace "birim_fiyat_" "").
Local Abbreviation var := (bugun_var sqlite_tamsayi today).
Local Abbreviation uyumlu := (anahtar_uyumlu int_of_str sqlite_tamsayi).

(** What a request that redirects leaves for a price item: a text
    [float] reads, and a price row of the day, or no number to write
    and an identifier the insert takes. *)
Local Abbreviation gecti db kv :=
  (String.prefix "birim_fiyat_" (fst kv) = true ->
   exists s x, snd kv = Yazi s /\ float_of_str s = Some x
     /\ (var db (fst kv)
         \/ (x = Belirsiz
             /\ exists mid, int_of_str (metin (fst kv)) = Some mid
                            /\ int64_mi mid = true))).

Lemma existing_var (key : string) (d : Depo) :
  var (tablolar d) key -> existing (metin key) d <> None.
Proof.
  intros (f & Hin & Hs & Hd) H.
  exact (existing_None sqlite_tamsayi today _ _ H f Hin Hs Hd).
Qed.

Lemma adim_var_korur (k : string) (d d' : Depo) (kv : string * FormDegeri) :
  adim d kv = Dinamik.Ok d' -> var (tablolar d) k -> var (tablolar d') k.
Proof.
  destruct kv as [key value]. intros H (f & Hin & Hs & Hd). apply adim_ac in H.
  destruct H as [[_ ->]|(_ & s & _ & [[_ ->]|(q & _ & [(e & _ & ->)|(_ & n & _ & _ & ->)])])].
  - exists f. auto.
  - exists f. auto.
  - exists (satir_guncelle q (fiyat_id e) f). split; [cbn; now apply in_map|].
    pose proof (satir_guncelle_degismeyen q (fiyat_id e) f) as Hk.
    unfold degismeyen in Hk. injection Hk as _ Hk2 Hk3 _.
    rewrite Hk2, Hk3. auto.
  - exists f. split; [cbn; apply in_or_app; now left | auto].
Qed.

Lemma adim_gecti (d d' : Depo) (kv : string * FormDegeri) :
  uyumlu (fst kv) -> adim d kv = Dinamik.Ok d' -> gecti (tablolar d') kv.
Proof.
  destruct kv as [key value]. cbn [fst snd]. intros Hu H Hp.
  pose proof H as H0. apply adim_ac in H.
  destruct H as [[Hp' _]|(_ & s & -> & H)]; [congruence|].
  exists s.
  destruct H as [[Hf ->]|(q & Hf & [(e & He & ->)|(_ & n & Hn & _ & ->)])].
  - exists Belirsiz. split; [reflexivity|]. split; [exact Hf|].
    destruct (adim_belirsiz _ _ _ _ _ _ _ _ H0 Hp Hf) as [[e Ee]|Hi].
    + left. apply existing_Some in Ee. destruct Ee as (Hin & Hs & Hd).
      exists e. auto.
    + right. auto.
  - exists (Tutar q). split; [reflexivity|]. split; [exact Hf|]. left.
    apply existing_Some in He. destruct He as (Hin & Hs & Hd).
    exists (satir_guncelle q (fiyat_id e) e). split; [cbn; now apply in_map|].
    pose proof (satir_guncelle_degismeyen q (fiyat_id e) e) as Hk.
    unfold degismeyen in Hk. injection Hk as _ Hk2 Hk3 _.
    rewrite Hk2, Hk3. auto.
  - exists (Tutar q). split; [reflexivity|]. split; [exact Hf|]. left.
    eexists. split; [cbn; apply in_or_app; right; left; reflexivity|].
    cbn. split; [now apply Hu | reflexivity].
Qed.

Lemma gecti_korur (d d' : Depo) (kv0 kv : string * FormDegeri) :
  adim d kv0 = Dinamik.Ok d' -> gecti (tablolar d) kv -> gecti (tablolar d') kv.
Proof.
  intros H Hg Hp. destruct (Hg Hp) as (s & x & Hs & Hf & [Hv|Hb]).
  - exists s, x. split; [exact Hs|]. split; [exact Hf|]. left.
    exact (adim_var_korur _ _ _ _ H Hv).
  - exists s, x. auto.
Qed.

(** After a request that redirects, every price item of the form has
    been passed. *)
Lemma dongu_gecti (items : list (string * FormDegeri)) :
  forall d d',
    Forall (fun kv => uyumlu (fst kv)) items ->
    dongu items d = (d', None) ->
    Forall (fun kv => gecti (tablolar d') kv) items.
Proof.
  induction items as [|kv items IH]; intros d d' Hu; cbn [fiyat_dongusu].
  - constructor.
  - inversion Hu as [|? ? Hk Hu']; subst.
    destruct (adim d kv) as [d1|x] eqn:E; [|discriminate].
    intros H. constructor; [|exact (IH d1 d' Hu' H)].
    pose proof (dongu_tumevarim float_of_str int_of_str sqlite_tamsayi today
                  (fun _ => True) (fun x => gecti (tablolar x) kv)
                  (fun a b kv0 _ Ha Hs => gecti_korur a b kv0 kv Hs Ha)
                  items d1 (Forall_True _) (adim_gecti _ _ _ Hk E)) as Hv.
    now rewrite H in Hv.
Qed.

(** Items that have been passed are passed again, and write no row. *)
Lemma dongu_guncelle (items : list (string * FormDegeri)) :
  forall d,
    Forall (fun kv => gecti (tablolar d) kv) items ->
    exists d',
      dongu items d = (d', None)
      /\ map degismeyen (Fiyatlar (tablolar d'))
         = map degismeyen (Fiyatlar (tablolar d)).
Proof.
  induction items as [|[key value] items IH]; intros d Hf; cbn [fiyat_dongusu].
  - exists d. auto.
  - inversion Hf as [|? ? Hk Hrest]; subst. cbn [fst snd] in Hk.
    assert (Hstep : exists d1,
               adim d (key, value) = Dinamik.Ok d1
               /\ map degismeyen (Fiyatlar (tablolar d1))
                  = map degismeyen (Fiyatlar (tablolar d))).
    { unfold fiyat_adimi, float_of.
      destruct (String.prefix "birim_fiyat_" key) eqn:Hp; [|exists d; auto].
      destruct (Hk eq_refl) as (s & x & -> & Hq & Hv). rewrite Hq.
      cbn [Dinamik.bind].
      destruct (existing (metin key) d) as [e|] eqn:Ee.
      - eexists. split; [reflexivity|]. destruct x as [q|]; [|reflexivity].
        cbn. apply map_satir_guncelle. apply satir_guncelle_degismeyen.
      - destruct Hv as [Hv|(-> & mid & Hi & H64)].
        + exfalso. exact (existing_var key d Hv Ee).
        + rewrite Hi. unfold veri_ekle_Fiyatlar. rewrite H64.
          exists d. auto. }
    destruct Hstep as (d1 & E & Hm). rewrite E.
    destruct (IH d1) as (d' & Hd & Hm').
    + apply Forall_forall. intros kv Hin.
      rewrite Forall_forall in Hrest.
      exact (gecti_korur _ _ _ kv E (Hrest kv Hin)).
    + exists d'. split; [exact Hd|]. congruence.
Qed.

(** X18. When [int] and the price query read the identifier text of
    every item of the form alike, a form that was answered with the
    redirect is answered with the redirect again when it is sent once
    more on the same day, and the second request adds no price row:
    every row keeps its identifier, material, day and supplier. *)
Theorem ikinci_gonderim (form : list (string * FormDegeri)) (d d1 : Depo) :
  Forall (fun kv => uyumlu (fst kv)) (form_items form) ->
  post form d = (d1, Yonlendirme) ->
  exists d2,
    post form d1 = (d2, Yonlendirme)
    /\ map degismeyen (Fiyatlar (tablolar d2))
       = map degismeyen (Fiyatlar (tablolar d1)).
Proof.
  intros Hu H. apply post_eq in H. apply (dongu_gecti _ _ _ Hu) in H.
  destruct (dongu_guncelle (form_items form) d1 H) as (d2 & Hd & Hm).
  exists d2. split; [now apply post_eq | exact Hm].
Qed.

End IkinciGonderim.

(* ------------------------------------------------------------------ *)
(** ** The price page                                                  *)
(* ------------------------------------------------------------------ *)

Section FiyatSayfasi.

Import Tablo.

Lemma pencereye_ekle_perm (f : Fiyat) (l : list Fiyat) :
  Permutation (pencereye_ekle f l) (f :: l).
Proof.
  induction l as [|g l IH]; simpl; [reflexivity|].
  destruct (once_gelir g f); [|reflexivity].
  rewrite IH. apply perm_swap.
Qed.

Lemma pencere_sirasi_perm (rows : list Fiyat) :
  Permutation (pencere_sirasi rows) rows.
Proof.
  induction rows as [|f rows IH]; simpl; [reflexivity|].
  rewrite pencereye_ekle_perm. now constructor.
Qed.

(** In the order of the window no row is behind a later one. *)
Lemma pencereye_ekle_sirali (f : Fiyat) (l : list Fiyat) :
  StronglySorted (fun a b => geride b a) l ->
  StronglySorted (fun a b => geride b a) (pencereye_ekle f l).
Proof.
  intros H. induction H as [|g l Hl IH Hg]; simpl.
  - constructor; constructor.
  - destruct (once_gelir g f) eqn:E.
    + constructor; [exact IH|].
      apply Forall_forall. intros x Hx.
      apply (Permutation_in _ (pencereye_ekle_perm f l)) in Hx.
      destruct Hx as [<-|Hx].
      * destruct (KatalogSorgusu.geride_total f g) as [H|H]; [exact H|].
        apply KatalogSorgusu.once_gelir_geride in H. congruence.
      * rewrite Forall_forall in Hg. now apply Hg.
    + apply KatalogSorgusu.once_gelir_geride in E.
      constructor; [constructor; assumption|].
      constructor; [exact E|].
      apply Forall_forall. intros x Hx. rewrite Forall_forall in Hg.
      exact (KatalogSorgusu.geride_trans _ _ _ (Hg x Hx) E).
Qed.

Lemma pencere_sirasi_sirali (rows : list Fiyat) :
  StronglySorted (fun a b => geride b a) (pencere_sirasi rows).
Proof.
  induction rows as [|f rows IH]; simpl; [constructor|].
  now apply pencereye_ekle_sirali.
Qed.

Lemma geride_iki_yon (a b : Fiyat) :
  geride a b -> geride b a ->
  gecerlilik_tarihi a = gecerlilik_tarihi b /\ fiyat_id a = fiyat_id b.
Proof.
  intros [H1|[H1 H1']] [H2|[H2 H2']].
  - pose proof (KatalogSorgusu.compare_lt_trans _ _ _ H1 H2) as H.
    rewrite KatalogSorgusu.compare_refl in H. discriminate.
  - rewrite H2, KatalogSorgusu.compare_refl in H1. discriminate.
  - rewrite H1, KatalogSorgusu.compare_refl in H2. discriminate.
  - split; [exact H1 | lia].
Qed.

(** The first row of the window is the row of [LIMIT 1] when no two
    rows share an identifier. *)
Lemma birinci_guncel (rows : list Fiyat) :
  NoDup (map fiyat_id rows) ->
  hd_error (pencere_sirasi rows) = guncel_fiyat rows.
Proof.
  intros Hn. destruct rows as [|r rows]; [reflexivity|].
  pose proof (pencere_sirasi_perm (r :: rows)) as Hp.
  pose proof (pencere_sirasi_sirali (r :: rows)) as Hs.
  destruct (pencere_sirasi (r :: rows)) as [|h t].
  - apply Permutation_nil in Hp. discriminate.
  - unfold guncel_fiyat. cbn [fold_left hd_error].
    destruct (KatalogSorgusu.guncel_fiyat_dongusu rows r)
      as (f & Hf & Hmem & Hb & Hall).
    rewrite Hf. f_equal.
    assert (Hfin : In f (r :: rows)).
    { destruct Hmem as [->|H]; [now left | now right]. }
    assert (Hhin : In h (r :: rows)).
    { apply (Permutation_in _ Hp). now left. }
    assert (Hhf : geride h f).
    { destruct Hhin as [<-|H]; [exact Hb|].
      rewrite Forall_forall in Hall. now apply Hall. }
    assert (Hfh : geride f h).
    { apply Permutation_sym in Hp. apply (Permutation_in _ Hp) in Hfin.
      destruct Hfin as [->|H]; [apply KatalogSorgusu.geride_refl|].
      apply StronglySorted_inv in Hs. destruct Hs as [_ Hs].
      rewrite Forall_forall in Hs. now apply Hs. }
    destruct (geride_iki_yon _ _ Hhf Hfh) as [_ Hid].
    exact (NoDup_map_esit fiyat_id _ h f Hn Hhin Hfin Hid).
Qed.

Lemma NoDup_map_filter {A B} (g : A -> B) (p : A -> bool) (l : list A) :
  NoDup (map g l) -> NoDup (map g (filter p l)).
Proof.
  induction l as [|a l IH]; simpl; [auto|]. intros H.
  inversion H as [|? ? Ha Hl]; subst. destruct (p a); simpl; [|now apply IH].
  constructor; [|now apply IH]. intros Hin. apply Ha.
  apply in_map_iff in Hin. destruct Hin as (x & Hx & Hxin).
  apply filter_In in Hxin. rewrite <- Hx. apply in_map. tauto.
Qed.

Lemma ada_gore_ekle_perm (r : FiyatSatiri) (l : list FiyatSatiri) :
  Permutation (ada_gore_ekle r l) (r :: l).
Proof.
  induction l as [|s l IH]; simpl; [reflexivity|].
  destruct (String.leb _ _); [reflexivity|].
  rewrite IH. apply perm_swap.
Qed.

Lemma leb_total (a b : string) : String.leb a b = false -> String.leb b a = true.
Proof.
  unfold String.leb. rewrite (String.compare_antisym a b).
  destruct (String.compare b a); simpl; congruence.
Qed.

Lemma leb_trans (a b c : string) :
  String.leb a b = true -> String.leb b c = true -> String.leb a c = true.
Proof.
  unfold String.leb. intros H1 H2.
  destruct (String.compare a b) eqn:E1; try discriminate;
    destruct (String.compare b c) eqn:E2; try discriminate.
  - apply String.compare_eq_iff in E1, E2. subst.
    now rewrite KatalogSorgusu.compare_refl.
  - apply String.compare_eq_iff in E1. subst. now rewrite E2.
  - apply String.compare_eq_iff in E2. subst. now rewrite E1.
  - now rewrite (KatalogSorgusu.compare_lt_trans _ _ _ E1 E2).
Qed.

Lemma ada_gore_ekle_sirali (r : FiyatSatiri) (l : list FiyatSatiri) :
  StronglySorted (fun a b => String.leb (satir_malzeme_adi a)
                                        (satir_malzeme_adi b) = true) l ->
  StronglySorted (fun a b => String.leb (satir_malzeme_adi a)
                                        (satir_malzeme_adi b) = true)
                 (ada_gore_ekle r l).
Proof.
  intros H. induction H as [|s l Hl IH Hs]; simpl.
  - constructor; constructor.
  - destruct (String.leb (satir_malzeme_adi r) (satir_malzeme_adi s)) eqn:E.
    + constructor; [constructor; assumption|].
      constructor; [exact E|].
      apply Forall_forall. intros x Hx. rewrite Forall_forall in Hs.
      exact (leb_trans _ _ _ E (Hs x Hx)).
    + constructor; [exact IH|].
      apply Forall_forall. intros x Hx.
      apply (Permutation_in _ (ada_gore_ekle_perm r l)) in Hx.
      destruct Hx as [<-|Hx]; [now apply leb_total|].
      rewrite Forall_forall in Hs. now apply Hs.
Qed.

(** X19. The price page has one row for every material, in the order
    of the names; when no two price rows share an identifier, the price
    and the day a row shows are those of the price the catalog lookup
    returns for a name or category that resolves to the material of the
    row, and are empty when the lookup returns no price. *)
Theorem fiyat_sayfasi_guncel (db : Veritabani) :
  NoDup (map fiyat_id (Fiyatlar db)) ->
  Permutation (map (fun r => (satir_malzeme_id r, satir_malzeme_adi r,
                              satir_birim_olcu_tipi r))
                   (malzemeler_ve_fiyatlar db))
              (map (fun m => (malzeme_id m, malzeme_adi m, birim_olcu_tipi m))
                   (Malzemeler db))
  /\ StronglySorted (fun a b => String.leb (satir_malzeme_adi a)
                                           (satir_malzeme_adi b) = true)
                    (malzemeler_ve_fiyatlar db)
  /\ forall r ad info,
       In r (malzemeler_ve_fiyatlar db) ->
       malzeme_bilgisi_getir db ad = Some info ->
       malzeme_id (malzeme info) = satir_malzeme_id r ->
       satir_birim_fiyat r = option_map birim_fiyat (fiyat info)
       /\ satir_gecerlilik_tarihi r = option_map gecerlilik_tarihi (fiyat info).
Proof.
  intros Hn.
  assert (Hp : Permutation (malzemeler_ve_fiyatlar db)
                           (map (fiyat_satiri db) (Malzemeler db))).
  { unfold malzemeler_ve_fiyatlar.
    induction (map (fiyat_satiri db) (Malzemeler db)) as [|r l IH]; simpl;
      [reflexivity|].
    rewrite ada_gore_ekle_perm. now constructor. }
  split; [|split].
  - rewrite (Permutation_map _ Hp), map_map. reflexivity.
  - clear Hp. unfold malzemeler_ve_fiyatlar.
    induction (map (fiyat_satiri db) (Malzemeler db)) as [|r l IH]; simpl;
      [constructor|].
    now apply ada_gore_ekle_sirali.
  - intros r ad info Hr Hi Hm.
    apply (Permutation_in _ Hp) in Hr. apply in_map_iff in Hr.
    destruct Hr as (m & <- & _). cbn in Hm |- *.
    rewrite (getir_fiyat _ _ _ Hi), Hm. unfold birinci.
    rewrite birinci_guncel; [auto|]. now apply NoDup_map_filter.
Qed.

End FiyatSayfasi.

(* ------------------------------------------------------------------ *)
(** ** The properties above on concrete catalogs and houses            *)
(* ------------------------------------------------------------------ *)

Import Ornek Evler Ornekler.

Lemma guncel_fiyat_en_yeni_witness :
  exists info f,
    Tablo.malzeme_bilgisi_getir zamli "Boya" = Some info
    /\ Tablo.fiyat info = Some f
    /\ Tablo.fiyat_id f = 9%Z
    /\ Tablo.birim_fiyat f = 60
    /\ forall g, In g (Tablo.Fiyatlar zamli) -> Tablo.fiyat_malzeme_id g = 5%Z ->
                 geride g f.
Proof.
  destruct (Tablo.malzeme_bilgisi_getir zamli "Boya") as [info|] eqn:E;
    [|vm_compute in E; discriminate].
  pose proof (KatalogSorgusu.guncel_fiyat_en_yeni zamli "Boya" info E) as H.
  vm_compute in E. injection E as <-.
  cbv zeta in H. destruct H as (H1 & _ & _).
  destruct (H1 _ eq_refl) as (_ & _ & Hg).
  eexists. eexists. split; [reflexivity|]. split; [reflexivity|].
  split; [reflexivity|]. split; [reflexivity|]. exact Hg.
Defined.


Lemma oda_net_toplami_witness :
  (forall o, In o (oda_listesi iki_odali) ->
     Py.get (oda_adi o) (oda_alanlari (alanlar iki_odali)) = Some (oda_alani o))
  /\ Py.sum (map (fun o => oda_duvar_alani_net (alanlar iki_odali)
                                               (duvar (oda_alani o)))
                 (oda_listesi iki_odali))
     == net_duvar_alani_paneller_icin (alanlar iki_odali)
  /\ net_duvar_alani_paneller_icin (alanlar iki_odali) == 74.
Proof.
  destruct (oda_net_toplami Ornek.cos radians iki_odali) as [H1 H2].
  - vm_compute. repeat constructor; simpl; intuition discriminate.
  - vm_compute. reflexivity.
  - vm_compute. discriminate.
  - intros o [<-|[<-|[]]]; vm_compute; discriminate.
  - split; [exact H1|]. split; [exact H2|]. vm_compute. reflexivity.
Defined.

Lemma satir_sayisi_witness :
  exists m t,
    hesapla katalog iki_odali = Py.Ok (m, t)
    /\ (1 <= List.length m <= 3 + 2 * 2 + 1 + 1)%nat
    /\ List.length m = 8%nat.
Proof.
  destruct (hesapla katalog iki_odali) as [[m t]|e] eqn:E;
    [|vm_compute in E; discriminate].
  pose proof (satir_sayisi Ornek.cos radians json_loads lower float_str
                katalog iki_odali m t E) as H.
  exists m, t. split; [reflexivity|]. split; [exact H|].
  vm_compute in E. injection E as <- <-. reflexivity.
Defined.

Lemma maliyet_negatif_olmaz_witness :
  exists m t,
    hesapla katalog iki_odali = Py.Ok (m, t)
    /\ 0 <= t /\ Forall (fun ek => 0 <= maliyet (snd ek)) m.
Proof.
  destruct (hesapla katalog iki_odali) as [[m t]|e] eqn:E;
    [|vm_compute in E; discriminate].
  exists m, t. split; [reflexivity|].
  apply (maliyet_negatif_olmaz Ornek.cos radians json_loads lower float_str
           katalog iki_odali).
  - intros x Hx. simpl in Hx.
    repeat (destruct Hx as [<-|Hx]; [vm_compute; discriminate|]). destruct Hx.
  - intros x Hx. simpl in Hx.
    repeat (destruct Hx as [<-|Hx]; [vm_compute; discriminate|]). destruct Hx.
  - intros x Hx. simpl in Hx.
    repeat (destruct Hx as [<-|Hx]; [vm_compute; discriminate|]). destruct Hx.
  - intros x Hx. simpl in Hx.
    repeat (destruct Hx as [<-|Hx]; [vm_compute; discriminate|]). destruct Hx.
  - intros x Hx. simpl in Hx.
    repeat (destruct Hx as [<-|Hx];
            [repeat split; vm_compute; discriminate|]). destruct Hx.
  - intros x Hx. simpl in Hx.
    repeat (destruct Hx as [<-|Hx]; [vm_compute; discriminate|]). destruct Hx.
  - intros x Hx. simpl in Hx.
    repeat (destruct Hx as [<-|Hx]; [vm_compute; discriminate|]). destruct Hx.
  - left. reflexivity.
  - exact E.
Defined.

Lemma kaplama_tipi_bulunur_witness :
  In "Boya"%string (get_oda_kaplama_tipleri katalog)
  /\ exists info, Tablo.malzeme_bilgisi_getir katalog "Boya" = Some info
                  /\ Tablo.malzeme_adi (Tablo.malzeme info) = "Boya"%string.
Proof.
  assert (H : In "Boya"%string (get_oda_kaplama_tipleri katalog)).
  { vm_compute. auto. }
  split; [exact H|]. exact (KaplamaTipleri.kaplama_tipi_bulunur katalog "Boya" H).
Defined.

Lemma ev_data_satirlardan_witness :
  exists ev,
    ev_data_olustur strip form_ornek = Some ev
    /\ map oda_adi (Dinamik.oda_listesi ev) = ["Salon"; "Banyo"]%string
    /\ map pencere_adet (Dinamik.pencere_listesi ev) = [2%Z]
    /\ map kapi_adet (Dinamik.kapi_listesi ev) = [1%Z].
Proof.
  destruct (ev_data_olustur strip form_ornek) as [ev|] eqn:E;
    [|vm_compute in E; discriminate].
  rewrite (ev_data_satirlardan strip form_ornek ev E).
  eexists. split; [reflexivity|]. vm_compute. auto.
Defined.

Lemma ev_data_hata_witness :
  ev_data_olustur strip form_eksik = None.
Proof.
  apply (ev_data_hata strip form_eksik). left.
  exists 0%nat, " Salon "%string. split; [reflexivity|].
  split; [vm_compute; discriminate|].
  unfold eksik. right. right. left. simpl. lia.
Defined.



(** A wall bag that is a list and a tile size that is a text: the
    estimator raises, and the handler answers with the page of
    [except Exception]. *)
Example torba_liste_hata :
  ham_hesapla katalog_liste (ham salonlu (Sonlu 0)) = Dinamik.Raise AttributeError
  /\ ham_yanit katalog_liste (ham salonlu (Sonlu 0))
     = Dinamik.HataliSayfa (get_oda_kaplama_tipleri katalog_liste)
                           [Dinamik.beklenmedik AttributeError].
Proof. split; vm_compute; reflexivity. Qed.

Example torba_metin_hata :
  ham_hesapla katalog_metin (ham banyolu (Sonlu 0)) = Dinamik.Raise TypeError
  /\ ham_yanit katalog_metin (ham banyolu (Sonlu 0))
     = Dinamik.HataliSayfa (get_oda_kaplama_tipleri katalog_metin)
                           [Dinamik.beklenmedik TypeError].
Proof. split; vm_compute; reflexivity. Qed.

Lemma veri_ekle_Malzemeler_sonuc_witness :
  snd (veri_ekle_Malzemeler "Boya" "Duvar Kaplama" "litre" 0 "" ilk_depo) = None
  /\ exists id info,
       snd (veri_ekle_Malzemeler "Alçı" "Duvar Kaplama" "kg" 0 "" ilk_depo) = Some id
       /\ id = 9%Z
       /\ Tablo.malzeme_bilgisi_getir
            (tablolar (fst (veri_ekle_Malzemeler "Alçı" "Duvar Kaplama" "kg" 0 ""
                                                 ilk_depo))) "Alçı" = Some info
       /\ Tablo.malzeme_id (Tablo.malzeme info) = id.
Proof.
  split.
  - apply (veri_ekle_Malzemeler_sonuc "Boya" "Duvar Kaplama" "litre" 0 "" ilk_depo).
    vm_compute. auto 10.
  - destruct (veri_ekle_Malzemeler_sonuc "Alçı" "Duvar Kaplama" "kg" 0 "" ilk_depo)
      as [_ H].
    destruct H as (id & Hr & _ & _ & (info & Hi & Hm) & _).
    + vm_compute. intuition discriminate.
    + exists id, info. split; [exact Hr|]. split.
      * vm_compute in Hr. now injection Hr as <-.
      * split; [exact Hi|]. now rewrite Hm.
Defined.

Lemma tekil_gun_korunur_witness :
  int_of_str "0_5" = Some 5%Z
  /\ sqlite_tamsayi "0_5" = None
  /\ tekil_gun (tablolar ilk_depo)
  /\ tekil_gun (tablolar (fst (fiyat_gonder fiyat_formu ilk_depo))).
Proof.
  assert (H : tekil_gun (tablolar ilk_depo)).
  { vm_compute. repeat constructor; simpl; intuition congruence. }
  split; [reflexivity|]. split; [reflexivity|]. split; [exact H|].
  apply (tekil_gun_korunur float_of_str int_of_str sqlite_tamsayi ertesi_gun
           fiyat_formu ilk_depo).
  - apply anahtar_uyumlu_test. vm_compute. reflexivity.
  - exact H.
Defined.

(** Without the premise on the keys: [int] reads the identifier of the
    field and the price query does not, so each request inserts a row
    for the paint and the day. *)
Example alt_cizgili_anahtar :
  exists d1 d2 f g,
    fiyat_gonder alt_cizgili_form ilk_depo = (d1, Yonlendirme)
    /\ fiyat_gonder alt_cizgili_form d1 = (d2, Yonlendirme)
    /\ In f (Tablo.Fiyatlar (tablolar d2))
    /\ In g (Tablo.Fiyatlar (tablolar d2))
    /\ Tablo.fiyat_id f = 9%Z /\ Tablo.fiyat_id g = 10%Z
    /\ Tablo.fiyat_malzeme_id f = 5%Z /\ Tablo.fiyat_malzeme_id g = 5%Z
    /\ Tablo.gecerlilik_tarihi f = ertesi_gun
    /\ Tablo.gecerlilik_tarihi g = ertesi_gun.
Proof.
  eexists. eexists. eexists. eexists.
  split; [vm_compute; reflexivity|].
  split; [vm_compute; reflexivity|].
  split; [do 8 right; left; reflexivity|].
  split; [do 9 right; left; reflexivity|].
  repeat split.
Qed.

(** A price that reads [nan] is answered with the redirect, and nothing
    is written: neither the update of the row of the day nor the insert
    of a new row goes through. *)
Example belirsiz_fiyat :
  fiyat_gonder belirsiz_form ilk_depo = (ilk_depo, Yonlendirme)
  /\ fiyat_gonder belirsiz_form (fst (fiyat_gonder fiyat_formu ilk_depo))
     = (fst (fiyat_gonder fiyat_formu ilk_depo), Yonlendirme).
Proof. split; vm_compute; reflexivity. Qed.

Lemma son_fiyat_gecerli_witness :
  exists info f,
    Tablo.malzeme_bilgisi_getir
      (tablolar (fst (fiyat_gonder fiyat_formu ilk_depo))) "Boya" = Some info
    /\ Tablo.fiyat info = Some f
    /\ Tablo.birim_fiyat f = 65
    /\ Tablo.gecerlilik_tarihi f = ertesi_gun.
Proof.
  assert (H5 : option_map (fun i => Tablo.malzeme_id (Tablo.malzeme i))
                 (Tablo.malzeme_bilgisi_getir
                    (tablolar (fst (fiyat_gonder fiyat_formu ilk_depo))) "Boya")
               = Some 5%Z) by (vm_compute; reflexivity).
  destruct (Tablo.malzeme_bilgisi_getir
              (tablolar (fst (fiyat_gonder fiyat_formu ilk_depo))) "Boya")
    as [info|] eqn:E; [|discriminate].
  cbn [option_map] in H5. injection H5 as H5.
  destruct (son_fiyat_gecerli float_of_str int_of_str sqlite_tamsayi ertesi_gun
              fiyat_formu []
              [("csrf_token", Yazi "x"); ("birim_fiyat_1", Yazi "130")]
              "birim_fiyat_5" "65" ilk_depo
              (fst (fiyat_gonder fiyat_formu ilk_depo)) 5 65)
    with (ad := "Boya") (info := info) as (f & Hf & Hq & Hd).
  - vm_compute. reflexivity.
  - vm_compute. reflexivity.
  - vm_compute. reflexivity.
  - vm_compute. reflexivity.
  - apply anahtar_uyumlu_test. vm_compute. reflexivity.
  - repeat constructor; vm_compute; discriminate.
  - vm_compute. repeat constructor; simpl; intuition congruence.
  - vm_compute. repeat constructor; simpl; intuition congruence.
  - intros g Hin _.
    assert (Hall : forallb (fun g => match String.compare (Tablo.gecerlilik_tarihi g)
                                                          ertesi_gun with
                                     | Gt => false
                                     | _ => true
                                     end)
                           (Tablo.Fiyatlar (tablolar ilk_depo)) = true)
      by (vm_compute; reflexivity).
    rewrite forallb_forall in Hall. specialize (Hall g Hin).
    destruct (String.compare (Tablo.gecerlilik_tarihi g) ertesi_gun);
      [discriminate | discriminate | discriminate Hall].
  - exact E.
  - exact H5.
  - exists info, f. auto.
Defined.

Lemma gecersiz_fiyat_witness :
  exists d',
    fiyat_gonder bozuk_fiyat_formu ilk_depo
    = (d', GecersizFiyat (malzemeler_ve_fiyatlar (tablolar d')))
    /\ fiyat_gonder [("birim_fiyat_5", Yazi "65")] ilk_depo = (d', Yonlendirme)
    /\ List.length (Tablo.Fiyatlar (tablolar d')) = 9%nat.
Proof.
  set (d' := fst (fiyat_gonder [("birim_fiyat_5", Yazi "65")] ilk_depo)).
  exists d'.
  assert (H : fiyat_gonder bozuk_fiyat_formu ilk_depo
              = (d', GecersizFiyat (malzemeler_ve_fiyatlar (tablolar d')))).
  { apply (gecersiz_fiyat float_of_str int_of_str sqlite_tamsayi ertesi_gun
             bozuk_fiyat_formu ilk_depo d').
    split; [reflexivity|].
    exists [("birim_fiyat_5", Yazi "65")], "birim_fiyat_1", "yüz",
           [("birim_fiyat_2", Yazi "160")].
    split; [reflexivity|]. split; [vm_compute; reflexivity|].
    split; [reflexivity|]. left. vm_compute. reflexivity. }
  split; [exact H|]. split; vm_compute; reflexivity.
Defined.

Lemma fiyat_hatasi_witness :
  (exists d',
     fiyat_gonder dosyali_form ilk_depo
     = (d', FiyatHatasi TypeError (malzemeler_ve_fiyatlar (tablolar d')))
     /\ List.length (Tablo.Fiyatlar (tablolar d')) = 9%nat)
  /\ fiyat_gonder tasan_form ilk_depo
     = (ilk_depo, FiyatHatasi OverflowError
                              (malzemeler_ve_fiyatlar (tablolar ilk_depo))).
Proof.
  split.
  - set (d' := fst (fiyat_gonder [("birim_fiyat_5", Yazi "65")] ilk_depo)).
    exists d'. split; [|vm_compute; reflexivity].
    apply (fiyat_hatasi float_of_str int_of_str sqlite_tamsayi ertesi_gun
             dosyali_form ilk_depo d').
    split; [reflexivity|].
    exists [("birim_fiyat_5", Yazi "65")], "birim_fiyat_1", Dosya, [].
    split; [reflexivity|]. split; [vm_compute; reflexivity|].
    split; [reflexivity|]. left. auto.
  - apply (fiyat_hatasi float_of_str int_of_str sqlite_tamsayi ertesi_gun
             tasan_form ilk_depo ilk_depo).
    split; [reflexivity|].
    exists [], "birim_fiyat_9223372036854775808", (Yazi "65"), [].
    split; [reflexivity|]. split; [reflexivity|].
    split; [reflexivity|]. right. split; [reflexivity|].
    exists "65", 9223372036854775808%Z.
    split; [reflexivity|]. split; [vm_compute; discriminate|].
    split; [vm_compute; reflexivity|]. split; vm_compute; reflexivity.
Defined.

Lemma fiyat_sayfasi_guncel_witness :
  exists r info f,
    In r (malzemeler_ve_fiyatlar zamli)
    /\ satir_malzeme_adi r = "Boya"
    /\ Tablo.malzeme_bilgisi_getir zamli "Boya" = Some info
    /\ Tablo.fiyat info = Some f
    /\ satir_birim_fiyat r = Some (Tablo.birim_fiyat f)
    /\ satir_gecerlilik_tarihi r = Some "2025-03-01".
Proof.
  destruct (fiyat_sayfasi_guncel zamli) as (_ & _ & H).
  { vm_compute. repeat constructor; simpl; intuition discriminate. }
  assert (Hr : In (fiyat_satiri zamli (mlz 5 "Boya" "Duvar Kaplama" "litre"
                                           (5 # 100) "Su bazlı iç cephe boyası"))
                  (malzemeler_ve_fiyatlar zamli)).
  { vm_compute. left. reflexivity. }
  assert (H5 : option_map (fun i => (Tablo.malzeme_id (Tablo.malzeme i),
                                     option_map Tablo.gecerlilik_tarihi
                                                (Tablo.fiyat i)))
                          (Tablo.malzeme_bilgisi_getir zamli "Boya")
               = Some (5%Z, Some "2025-03-01")) by (vm_compute; reflexivity).
  destruct (Tablo.malzeme_bilgisi_getir zamli "Boya") as [info|] eqn:E;
    [|discriminate].
  cbn [option_map] in H5. injection H5 as Hm Hf.
  destruct (Tablo.fiyat info) as [f|] eqn:Ef; [|discriminate].
  destruct (H _ "Boya" info Hr E Hm) as [Hq Hd].
  rewrite Ef in Hq, Hd. cbn [option_map] in Hq, Hd, Hf.
  eexists. exists info, f.
  split; [exact Hr|]. split; [reflexivity|]. split; [reflexivity|].
  split; [exact Ef|]. split; [exact Hq|]. rewrite Hd. exact Hf.
Defined.

Lemma ikinci_gonderim_witness :
  exists d2,
    fiyat_gonder fiyat_formu (fst (fiyat_gonder fiyat_formu ilk_depo))
    = (d2, Yonlendirme)
    /\ List.length (Tablo.Fiyatlar (tablolar d2)) = 10%nat.
Proof.
  destruct (ikinci_gonderim float_of_str int_of_str sqlite_tamsayi ertesi_gun
              fiyat_formu ilk_depo
              (fst (fiyat_gonder fiyat_formu ilk_depo)))
    as (d2 & H2 & Hm).
  - apply anahtar_uyumlu_test. vm_compute. reflexivity.
  - vm_compute. reflexivity.
  - exists d2. split; [exact H2|].
    rewrite <- (length_map degismeyen), Hm, length_map. vm_compute. reflexivity.
Defined.
